(** * The census data manager of the SDOH dashboard (app.py)

    A shallow embedding of [CensusDataManager]: the two cache files
    ([load_cache], [save_cache]) and the fetch/normalise pipeline
    ([fetch_census_data]), with the registry [SDOH_METRICS] and the
    jurisdiction map [FIPS_TO_ABBREV].

    Conventions of the embedding.
    - Times are integers, in microseconds (the resolution of Python's
      [datetime]); [datetime.now()] reads a clock that the world carries, one
      reading per call, so that time may pass inside one operation.
    - A cache file is unreadable for [pd.read_csv], or a table of rows as
      [to_csv] wrote them, each with its [cache_key], its [timestamp] cell
      and the cells of one record.  Reading is [read_value]: an empty cell
      of the column value, written for [None] or for NaN, is read as the
      float NaN.  The other cells are taken as written, which is what pandas
      returns for ordinary text in a column of its own kind of file (see
      [as_written]); that a saved record is read back with its name and
      codes is stated for such records.
    - Python's [float] is a parameter [py_float]: it returns a float or raises.
    - A write either replaces the file or fails and leaves it as it was,
      according to [disk_writable].
    - Of the presentation, the national map ([create_choropleth_map]) is
      the data it hands to Plotly, with pandas' test for a missing float
      and [Series.min], [Series.max] as parameters; of [main], the click
      handler and the search for the selected state are the two loops over
      the state records. *)

From Stdlib Require Import String Ascii List ZArith Lia Bool Arith.
Import ListNotations.
Open Scope string_scope.
Open Scope Z_scope.

Set Implicit Arguments.

(** ** Python values *)

(** The exceptions the modelled code can raise. *)
Inductive exn : Type :=
| KeyError
| ValueError
| IndexError
| TypeError
| AttributeError
| OverflowError
| OSError
| RequestException.

Inductive result (A : Type) : Type :=
| Ok (a : A)
| Raise (e : exn).
Arguments Ok {A} a.
Arguments Raise {A} e.

Definition result_bind {A B : Type} (r : result A) (k : A -> result B) : result B :=
  match r with
  | Ok a => k a
  | Raise e => Raise e
  end.

Notation "x <~ e ;; k" := (result_bind e (fun x => k))
  (at level 100, e at next level, right associativity).

(** What [response.json()] returns.  A number keeps its literal. *)
#[local] Unset Elimination Schemes.
Inductive json : Type :=
| JNull
| JBool (b : bool)
| JNum (literal : string)
| JStr (s : string)
| JArr (items : list json)
| JObj (members : list (string * json)).
#[local] Set Elimination Schemes.

(** ** Strings *)

Fixpoint zeros (n : nat) : string :=
  match n with
  | O => EmptyString
  | S n' => String "0"%char (zeros n')
  end.

Definition is_sign (c : ascii) : bool :=
  Ascii.eqb c "+"%char || Ascii.eqb c "-"%char.

(** [str.zfill(width)]: zeros on the left, after a leading sign. *)
Definition zfill (width : nat) (s : string) : string :=
  let n := String.length s in
  if (width <=? n)%nat then s
  else
    match s with
    | String c rest =>
        if is_sign c then String c (zeros (width - n) ++ rest)
        else zeros (width - n) ++ s
    | EmptyString => zeros (width - n)
    end.

(** [s.endswith(suffix)] *)
Definition endswith (s suffix : string) : bool :=
  let n := String.length s in
  let m := String.length suffix in
  (m <=? n)%nat && String.eqb (substring (n - m) m s) suffix.

Fixpoint chars (s : string) : list json :=
  match s with
  | EmptyString => []
  | String c rest => JStr (String c EmptyString) :: chars rest
  end.

(** ** Python dictionaries with string keys, in insertion order *)

Definition dict (A : Type) : Type := list (string * A).

Fixpoint dict_get {A : Type} (k : string) (d : dict A) : option A :=
  match d with
  | [] => None
  | (k', v) :: d' => if String.eqb k k' then Some v else dict_get k d'
  end.

(** [d[k] = v]: an existing key keeps its place, a new one goes last. *)
Fixpoint dict_set {A : Type} (k : string) (v : A) (d : dict A) : dict A :=
  match d with
  | [] => [(k, v)]
  | (k', v') :: d' =>
      if String.eqb k k' then (k, v) :: d' else (k', v') :: dict_set k v d'
  end.

(** [k in d] *)
Definition dict_mem {A : Type} (k : string) (d : dict A) : bool :=
  match dict_get k d with
  | Some _ => true
  | None => false
  end.

(** [d.update(other)] *)
Definition dict_update {A : Type} (d other : dict A) : dict A :=
  fold_left (fun acc kv => dict_set (fst kv) (snd kv) acc) other d.

Definition dict_keys {A : Type} (d : dict A) : list string := map fst d.

(** ** Configuration *)

Definition CENSUS_API_KEY : option string := None.
Definition CENSUS_BASE_URL : string := "https://api.census.gov/data/2022/acs/acs1".

Record metric_config : Type := {
  variable : string;
  endpoint : string;
  positive : bool;
  description : string
}.

Definition SDOH_METRICS : dict metric_config :=
  [ ("Median Household Income",
     {| variable := "DP03_0062E"; endpoint := "profile"; positive := true;
        description := "Median household income in the past 12 months (in 2022 inflation-adjusted dollars)" |});
    ("Poverty Rate",
     {| variable := "DP03_0119PE"; endpoint := "profile"; positive := false;
        description := "Percentage of population below poverty level" |});
    ("Educational Attainment (Bachelor's+)",
     {| variable := "DP02_0065PE"; endpoint := "profile"; positive := true;
        description := "Percentage of population 25+ with bachelor's degree or higher" |});
    ("Unemployment Rate",
     {| variable := "DP03_0005PE"; endpoint := "profile"; positive := false;
        description := "Unemployment rate for population 16 years and over" |});
    ("Health Insurance Coverage",
     {| variable := "DP03_0096PE"; endpoint := "profile"; positive := true;
        description := "Percentage of population with health insurance coverage" |}) ].

Definition FIPS_TO_ABBREV : dict string :=
  [ ("01", "AL"); ("02", "AK"); ("04", "AZ"); ("05", "AR"); ("06", "CA"); ("08", "CO"); ("09", "CT");
    ("10", "DE"); ("11", "DC"); ("12", "FL"); ("13", "GA"); ("15", "HI"); ("16", "ID"); ("17", "IL");
    ("18", "IN"); ("19", "IA"); ("20", "KS"); ("21", "KY"); ("22", "LA"); ("23", "ME"); ("24", "MD");
    ("25", "MA"); ("26", "MI"); ("27", "MN"); ("28", "MS"); ("29", "MO"); ("30", "MT"); ("31", "NE");
    ("32", "NV"); ("33", "NH"); ("34", "NJ"); ("35", "NM"); ("36", "NY"); ("37", "NC"); ("38", "ND");
    ("39", "OH"); ("40", "OK"); ("41", "OR"); ("42", "PA"); ("44", "RI"); ("45", "SC"); ("46", "SD");
    ("47", "TN"); ("48", "TX"); ("49", "UT"); ("50", "VT"); ("51", "VA"); ("53", "WA"); ("54", "WV");
    ("55", "WI"); ("56", "WY");
    ("1", "AL"); ("2", "AK"); ("4", "AZ"); ("5", "AR"); ("6", "CA"); ("8", "CO"); ("9", "CT") ].

(** [timedelta(weeks=1)], in microseconds. *)
Definition cache_duration : Z := 7 * 24 * 3600 * 1000000.

(** ** Records, cache files and the world *)

(** A processed row: the dictionary with keys name, fips, value (state
    level) or name, county_fips, state_fips, value (county level). *)
Inductive record (V : Type) : Type :=
| StateRecord (name : json) (fips : string) (value : option V)
| CountyRecord (name : json) (county_fips state_fips : string) (value : option V).

(** One row of a cache file, as [to_csv] wrote it.  [timestamp] is [None]
    when the cell is not an ISO-8601 date ([datetime.fromisoformat]
    raises), and otherwise the date, without UTC offset as [save_cache]
    writes it.  (A date with an offset, which parses and then fails in the
    subtraction from [datetime.now()], has no row here.) *)
Record cache_row (V : Type) : Type := {
  cache_key : string;
  timestamp : option Z;
  row_record : record V
}.

Inductive csv_file (V : Type) : Type :=
| Unreadable
| Table (rows : list (cache_row V)).
Arguments Unreadable {V}.

Inductive cache_kind : Type := StateCache | CountyCache.

Record request : Type := {
  url : string;
  params : list (string * string)
}.

(** What [requests.get] yields: a transport failure, or a status code with a
    body that parses as JSON or does not. *)
Inductive response : Type :=
| TransportError
| HttpResponse (status : Z) (body : option json).

(** [st.warning] and [st.error] messages. *)
Inductive notice : Type :=
| WarnLoadingCache (which : cache_kind)
| WarnSavingCache
| ErrorApiRequest
| ErrorProcessingData.

Record world (V : Type) : Type := {
  state_cache_file : option (csv_file V);
  county_cache_file : option (csv_file V);
  disk_writable : bool;
  clock : nat -> Z;
  ticks : nat;
  requests_sent : list request;
  notices : list notice
}.

(** State passing over the world. *)
Definition St (V A : Type) : Type := world V -> A * world V.

Definition ret {V A : Type} (a : A) : St V A := fun w => (a, w).

Definition bind {V A B : Type} (m : St V A) (k : A -> St V B) : St V B :=
  fun w => let (a, w') := m w in k a w'.

Notation "x <- e ;; k" := (bind e (fun x => k))
  (at level 100, e at next level, right associativity).
Notation "e ;;; k" := (bind e (fun _ => k))
  (at level 100, right associativity).

(** Python's floats have a NaN: what pandas returns for an empty cell of a
    column of floats. *)
Class NaN (V : Type) : Type := nan : V.

Section Manager.

Context {V : Type} {nan_V : NaN V}.

(** Python's [float(x)]. *)
Variable py_float : json -> result V.

(** [datetime.now()] *)
Definition datetime_now : St V Z :=
  fun w => (clock w (ticks w),
            {| state_cache_file := state_cache_file w;
               county_cache_file := county_cache_file w;
               disk_writable := disk_writable w;
               clock := clock w;
               ticks := S (ticks w);
               requests_sent := requests_sent w;
               notices := notices w |}).

Definition st_notice (n : notice) : St V unit :=
  fun w => (tt,
            {| state_cache_file := state_cache_file w;
               county_cache_file := county_cache_file w;
               disk_writable := disk_writable w;
               clock := clock w;
               ticks := ticks w;
               requests_sent := requests_sent w;
               notices := notices w ++ [n] |}).

Definition read_file (which : cache_kind) : St V (option (csv_file V)) :=
  fun w => (match which with
            | StateCache => state_cache_file w
            | CountyCache => county_cache_file w
            end, w).

(** [df.to_csv(file, index=False)]: the file is replaced, or the disk
    refuses the write and [OSError] is raised. *)
Definition write_file (which : cache_kind) (f : csv_file V) : St V (result unit) :=
  fun w =>
    if disk_writable w then
      (Ok tt,
       {| state_cache_file :=
            match which with
            | StateCache => Some f
            | CountyCache => state_cache_file w
            end;
          county_cache_file :=
            match which with
            | StateCache => county_cache_file w
            | CountyCache => Some f
            end;
          disk_writable := disk_writable w;
          clock := clock w;
          ticks := ticks w;
          requests_sent := requests_sent w;
          notices := notices w |})
    else (Raise OSError, w).

(** [requests.get(url, params=params, timeout=30)] against the network [net]. *)
Definition requests_get (net : request -> response) (req : request) : St V response :=
  fun w => (net req,
            {| state_cache_file := state_cache_file w;
               county_cache_file := county_cache_file w;
               disk_writable := disk_writable w;
               clock := clock w;
               ticks := ticks w;
               requests_sent := requests_sent w ++ [req];
               notices := notices w |}).

(** ** load_cache *)

(** [df['cache_key'].unique()]: the keys in order of first appearance. *)
Fixpoint unique (l : list string) : list string :=
  match l with
  | [] => []
  | x :: t => x :: filter (fun y => negb (String.eqb y x)) (unique t)
  end.

(** [key_data['fips'].astype(str).str.zfill(2)], on the state file only. *)
Definition fix_fips (which : cache_kind) (r : record V) : record V :=
  match which, r with
  | StateCache, StateRecord name fips value => StateRecord name (zfill 2 fips) value
  | _, _ => r
  end.

(** What [pd.read_csv] and [to_dict('records')] return for the value of a
    record: [to_csv] writes [None], like NaN, as an empty cell, and the
    empty cell is read as the float NaN. *)
Definition read_value (r : record V) : record V :=
  match r with
  | StateRecord name fips None => StateRecord name fips (Some nan)
  | CountyRecord name county_fips state_fips None =>
      CountyRecord name county_fips state_fips (Some nan)
  | _ => r
  end.

(** A record of the file as [load_cache] returns it. *)
Definition read_record (which : cache_kind) (r : record V) : record V :=
  fix_fips which (read_value r).

(** [df[df['cache_key'] == key]], without the two cache columns. *)
Definition key_data (which : cache_kind) (rows : list (cache_row V)) (key : string)
  : list (record V) :=
  map (fun r => read_record which (row_record r))
      (filter (fun r => String.eqb (cache_key r) key) rows).

(** The loop [for key in df['cache_key'].unique(): cache_data[key] = ...]. *)
Definition load_groups (which : cache_kind) (rows : list (cache_row V))
  (cache_data : dict (list (record V))) : dict (list (record V)) :=
  fold_left (fun cd key => dict_set key (key_data which rows key) cd)
            (unique (map (@cache_key V) rows)) cache_data.

(** One of the two blocks of [load_cache]: the state file or the county file. *)
Definition load_cache_file (which : cache_kind) (cache_data : dict (list (record V)))
  : St V (dict (list (record V))) :=
  f <- read_file which ;;
  match f with
  | None => ret cache_data
  | Some Unreadable => st_notice (WarnLoadingCache which) ;;; ret cache_data
  | Some (Table []) => ret cache_data
  | Some (Table (first :: rest)) =>
      match timestamp first with
      | None => st_notice (WarnLoadingCache which) ;;; ret cache_data
      | Some cache_time =>
          now <- datetime_now ;;
          if now - cache_time <? cache_duration
          then ret (load_groups which (first :: rest) cache_data)
          else ret cache_data
      end
  end.

Definition load_cache : St V (dict (list (record V))) :=
  cache_data <- load_cache_file StateCache [] ;;
  load_cache_file CountyCache cache_data.

(** ** save_cache *)

(** The rows written for the entries of one file, all with the one
    [timestamp] of the save. *)
Definition rows_of (timestamp : Z) (data : dict (list (record V)))
  : list (cache_row V) :=
  flat_map (fun kv =>
              map (fun r => {| cache_key := fst kv;
                               timestamp := Some timestamp;
                               row_record := r |})
                  (snd kv))
           data.

Definition is_nil {A : Type} (l : list A) : bool :=
  match l with
  | [] => true
  | _ :: _ => false
  end.

(** The block that saves one kind of data: nothing is written when there is
    no entry of this kind, or no row. *)
Definition save_rows (which : cache_kind) (timestamp : Z)
  (data : dict (list (record V))) : St V (result unit) :=
  if is_nil data then ret (Ok tt)
  else
    let rows := rows_of timestamp data in
    if is_nil rows then ret (Ok tt)
    else write_file which (Table rows).

Definition is_state_key (kv : string * list (record V)) : bool :=
  endswith (fst kv) "_state".

(** The whole body is one [try]: a write that fails ends the save with a
    warning, the county file is then not written. *)
Definition save_cache (data : dict (list (record V))) : St V unit :=
  timestamp <- datetime_now ;;
  existing_data <- load_cache ;;
  let existing_data := dict_update existing_data data in
  let state_data := filter is_state_key existing_data in
  let county_data := filter (fun kv => negb (is_state_key kv)) existing_data in
  saved <- save_rows StateCache timestamp state_data ;;
  match saved with
  | Raise _ => st_notice WarnSavingCache
  | Ok _ =>
      saved <- save_rows CountyCache timestamp county_data ;;
      match saved with
      | Raise _ => st_notice WarnSavingCache
      | Ok _ => ret tt
      end
  end.

(** ** fetch_census_data *)

(** [len(x)] *)
Definition py_len (x : json) : result nat :=
  match x with
  | JArr items => Ok (List.length items)
  | JStr s => Ok (String.length s)
  | JObj members => Ok (List.length members)
  | _ => Raise TypeError
  end.

(** [x[1:]], as the sequence the loop iterates over. *)
Definition py_slice_from_1 (x : json) : result (list json) :=
  match x with
  | JArr items => Ok (tl items)
  | JStr s => Ok (tl (chars s))
  | _ => Raise TypeError
  end.

(** [x[i]] for a constant index [i >= 0]. *)
Definition py_index (x : json) (i : nat) : result json :=
  match x with
  | JArr items =>
      match nth_error items i with
      | Some y => Ok y
      | None => Raise IndexError
      end
  | JStr s =>
      match String.get i s with
      | Some c => Ok (JStr (String c EmptyString))
      | None => Raise IndexError
      end
  | JObj _ => Raise KeyError
  | _ => Raise TypeError
  end.

(** [x in [None, '', '-']] *)
Definition is_missing (x : json) : bool :=
  match x with
  | JNull => true
  | JStr s => String.eqb s "" || String.eqb s "-"
  | _ => false
  end.

(** [x.zfill(width)]: only strings have the method. *)
Definition py_zfill (x : json) (width : nat) : result string :=
  match x with
  | JStr s => Ok (zfill width s)
  | _ => Raise AttributeError
  end.

(** The body of the [try] of the row loop.  [Ok None] is the [continue] of
    the jurisdiction guard; [Ok (Some r)] appends [r]. *)
Definition process_row (geography_level : string) (row : json)
  : result (option (record V)) :=
  x0 <~ py_index row 0 ;;
  value <~ (if is_missing x0 then Ok None
            else v <~ py_float x0 ;; Ok (Some v)) ;;
  name <~ py_index row 1 ;;
  if String.eqb geography_level "state" then
    fips <~ py_index row 2 ;;
    fips <~ py_zfill fips 2 ;;
    if negb (dict_mem fips FIPS_TO_ABBREV) then Ok None
    else Ok (Some (StateRecord name fips value))
  else
    x2 <~ py_index row 2 ;;
    state_fips <~ py_zfill x2 2 ;;
    x3 <~ py_index row 3 ;;
    county_fips <~ py_zfill x3 3 ;;
    Ok (Some (CountyRecord name county_fips state_fips value)).

(** [except (ValueError, IndexError)] *)
Definition is_row_error (e : exn) : bool :=
  match e with
  | ValueError | IndexError => true
  | _ => false
  end.

(** The row loop: a row that raises [ValueError] or [IndexError] is skipped,
    any other exception leaves the loop. *)
Fixpoint process_rows (geography_level : string) (rows : list json)
  : result (list (record V)) :=
  match rows with
  | [] => Ok []
  | row :: rest =>
      match process_row geography_level row with
      | Ok (Some r) =>
          processed <~ process_rows geography_level rest ;; Ok (r :: processed)
      | Ok None => process_rows geography_level rest
      | Raise e =>
          if is_row_error e then process_rows geography_level rest
          else Raise e
      end
  end.

Definition build_request (metric : metric_config) (geography_level : string)
  : request :=
  let url := CENSUS_BASE_URL ++ "/" ++ endpoint metric in
  let params :=
    if String.eqb geography_level "state" then
      [("get", variable metric ++ ",NAME"); ("for", "state:*")]
    else
      [("get", variable metric ++ ",NAME"); ("for", "county:*");
       ("in", "state:" ++ geography_level)] in
  let params :=
    match CENSUS_API_KEY with
    | Some key => (params ++ [("key", key)])%list
    | None => params
    end in
  {| url := url; params := params |}.

(** [response.raise_for_status()] raises on 4xx and 5xx. *)
Definition is_error_status (status : Z) : bool :=
  (400 <=? status) && (status <? 600).

(** The outer [try] block, up to its handlers.  A body that is not JSON
    makes [response.json()] raise a [ValueError] (recent versions of
    requests raise it as a [RequestException] as well: only the message
    shown differs, both handlers return the empty list). *)
Definition fetch_try (net : request -> response) (cache_key : string)
  (cached_data : dict (list (record V))) (metric : metric_config)
  (geography_level : string) : St V (result (list (record V))) :=
  response <- requests_get net (build_request metric geography_level) ;;
  match response with
  | TransportError => ret (Raise RequestException)
  | HttpResponse status body =>
      if is_error_status status then ret (Raise RequestException)
      else
        match body with
        | None => ret (Raise ValueError)
        | Some data =>
            match py_len data with
            | Raise e => ret (Raise e)
            | Ok n =>
                if (1 <? n)%nat then
                  match py_slice_from_1 data with
                  | Raise e => ret (Raise e)
                  | Ok rows =>
                      match process_rows geography_level rows with
                      | Raise e => ret (Raise e)
                      | Ok processed_data =>
                          save_cache (dict_set cache_key processed_data cached_data) ;;;
                          ret (Ok processed_data)
                      end
                  end
                else ret (Ok [])
            end
        end
  end.

Definition fetch_census_data (net : request -> response)
  (metric_key geography_level : string) : St V (result (list (record V))) :=
  let cache_key := metric_key ++ "_" ++ geography_level in
  cached_data <- load_cache ;;
  match dict_get cache_key cached_data with
  | Some records => ret (Ok records)
  | None =>
      match dict_get metric_key SDOH_METRICS with
      | None => ret (Raise KeyError)
      | Some metric =>
          outcome <- fetch_try net cache_key cached_data metric geography_level ;;
          match outcome with
          | Ok records => ret (Ok records)
          | Raise RequestException => st_notice ErrorApiRequest ;;; ret (Ok [])
          | Raise _ => st_notice ErrorProcessingData ;;; ret (Ok [])
          end
      end
  end.

End Manager.

(** ** Views of the world used in the statements *)

Definition file_of {V : Type} (which : cache_kind) (w : world V)
  : option (csv_file V) :=
  match which with
  | StateCache => state_cache_file w
  | CountyCache => county_cache_file w
  end.

(** The timestamp [load_cache] reads from a file: the one of its first row. *)
Definition file_stamp {V : Type} (f : option (csv_file V)) : option Z :=
  match f with
  | Some (Table (first :: _)) => timestamp first
  | _ => None
  end.

(** The rows [load_cache] takes from a file at time [now]. *)
Definition rows_if_fresh {V : Type} (now : Z) (f : option (csv_file V))
  : list (cache_row V) :=
  match f with
  | Some (Table (first :: rest)) =>
      match timestamp first with
      | Some cache_time =>
          if now - cache_time <? cache_duration then first :: rest else []
      | None => []
      end
  | _ => []
  end.

Definition has_key {V : Type} (key : string) (rows : list (cache_row V)) : bool :=
  existsb (fun r => String.eqb (cache_key r) key) rows.

(** The rows of a file, whatever their age. *)
Definition file_rows {V : Type} (f : option (csv_file V)) : list (cache_row V) :=
  match f with
  | Some (Table rows) => rows
  | _ => []
  end.

(** The cache key of a request. *)
Definition cache_key_of (metric_key geography_level : string) : string :=
  metric_key ++ "_" ++ geography_level.

(** [raise_for_status] or the transport failed. *)
Definition request_failed (r : response) : bool :=
  match r with
  | TransportError => true
  | HttpResponse status _ => is_error_status status
  end.

(** The files hold state keys in the state file and the other keys in the
    county file, as [save_cache] writes them. *)
Definition well_sorted {V : Type} (w : world V) : Prop :=
  (forall r, In r (file_rows (state_cache_file w)) ->
             endswith (cache_key r) "_state" = true) /\
  (forall r, In r (file_rows (county_cache_file w)) ->
             endswith (cache_key r) "_state" = false).

(** Every row of the file carries the same timestamp, as in a file that
    [save_cache] wrote: one timestamp per save. *)
Definition one_stamp {V : Type} (f : option (csv_file V)) : Prop :=
  forall r r', In r (file_rows f) -> In r' (file_rows f) ->
               timestamp r = timestamp r'.

(** The entries [save_cache] puts in each file. *)
Definition of_kind {V : Type} (which : cache_kind)
  (kv : string * list (record V)) : bool :=
  match which with
  | StateCache => endswith (fst kv) "_state"
  | CountyCache => negb (endswith (fst kv) "_state")
  end.

(** The kind of file a key is saved to. *)
Definition kind_of_key (key : string) : cache_kind :=
  if endswith key "_state" then StateCache else CountyCache.

(** [w'] is [w] after some reading: the files, the clock and the requests
    sent are those of [w], and the clock was read zero or more times. *)
Definition advances {V : Type} (w w' : world V) : Prop :=
  state_cache_file w' = state_cache_file w /\
  county_cache_file w' = county_cache_file w /\
  clock w' = clock w /\
  requests_sent w' = requests_sent w /\
  (ticks w <= ticks w')%nat.

(** [w'] is a later world over the files and the clock of [w]. *)
Definition follows {V : Type} (w w' : world V) : Prop :=
  state_cache_file w' = state_cache_file w /\
  county_cache_file w' = county_cache_file w /\
  clock w' = clock w /\
  (ticks w <= ticks w')%nat.

(** The reading of the clock at which [load_cache] inspects the county
    file: the state file takes one reading when it has a timestamp. *)
Definition county_tick {V : Type} (w : world V) : nat :=
  match file_stamp (state_cache_file w) with
  | Some _ => S (ticks w)
  | None => ticks w
  end.

(** The reading of the clock that follows a [load_cache]: the county file
    takes one reading when it has a timestamp. *)
Definition after_load {V : Type} (w : world V) : nat :=
  match file_stamp (county_cache_file w) with
  | Some _ => S (county_tick w)
  | None => county_tick w
  end.

(** Over the readings of the clock before the reading [h], no cache file
    changes status: a file that is fresh stays fresh and a file that is
    expired stays expired. *)
Definition steady {V : Type} (h : nat) (w : world V) : Prop :=
  forall which ts,
    file_stamp (file_of which w) = Some ts ->
    forall n, (ticks w <= n < h)%nat ->
              (clock w n - ts <? cache_duration) =
              (clock w (ticks w) - ts <? cache_duration).

(** Any two readings of the clock before the reading [h] are less than the
    retention window apart: what is stamped at one is fresh at the other. *)
Definition within_window {V : Type} (h : nat) (w : world V) : Prop :=
  forall n n', (ticks w <= n <= n')%nat -> (n' < h)%nat ->
               clock w n' - clock w n < cache_duration.

(** The clock never runs backwards. *)
Definition monotone (c : nat -> Z) : Prop :=
  forall n m, (n <= m)%nat -> c n <= c m.

(** ** Cells that the files return as they were written *)

Definition is_letter (c : ascii) : bool :=
  let n := nat_of_ascii c in
  ((65 <=? n) && (n <=? 90) || (97 <=? n) && (n <=? 122))%nat.

Definition is_digit (c : ascii) : bool :=
  let n := nat_of_ascii c in ((48 <=? n) && (n <=? 57))%nat.

Definition is_printable (c : ascii) : bool :=
  let n := nat_of_ascii c in ((32 <=? n) && (n <=? 126))%nat.

Definition to_lower (c : ascii) : ascii :=
  let n := nat_of_ascii c in
  if ((65 <=? n) && (n <=? 90))%nat then ascii_of_nat (n + 32) else c.

Fixpoint all_chars (p : ascii -> bool) (s : string) : bool :=
  match s with
  | EmptyString => true
  | String c rest => p c && all_chars p rest
  end.

Fixpoint lowercase (s : string) : string :=
  match s with
  | EmptyString => EmptyString
  | String c rest => String (to_lower c) (lowercase rest)
  end.

(** The words that [pd.read_csv] reads as a missing value, a number or a
    boolean, among those that start with a letter, in lower case. *)
Definition reserved_words : list string :=
  ["na"; "n/a"; "null"; "nan"; "none"; "inf"; "infinity"; "true"; "false"].

(** Ordinary text: printable, starting with a letter, and no reserved
    word.  [pd.read_csv] returns such a cell as the string that [to_csv]
    wrote, whatever the other cells of its column. *)
Definition plain_text (s : string) : bool :=
  match s with
  | EmptyString => false
  | String c _ =>
      is_letter c && all_chars is_printable s &&
      negb (existsb (String.eqb (lowercase s)) reserved_words)
  end.

(** A code of digits: returned as written from a column read with
    [dtype=str]. *)
Definition digit_code (s : string) : bool :=
  match s with
  | EmptyString => false
  | String _ _ => all_chars is_digit s
  end.

(** A record whose cells the file of its kind returns as written (but for
    its value, see [read_value]): a state record in the state file, whose
    column fips is read as strings, a county record in the county file,
    whose columns county_fips and state_fips are, with ordinary text for
    its name. *)
Definition as_written {V : Type} (which : cache_kind) (r : record V) : bool :=
  match which, r with
  | StateCache, StateRecord (JStr name) fips _ => plain_text name && digit_code fips
  | CountyCache, CountyRecord (JStr name) county_fips state_fips _ =>
      plain_text name && digit_code county_fips && digit_code state_fips
  | _, _ => false
  end.

(** The files hold such records only, each in the file of its kind: the
    frame of a file then has the columns of one kind of record. *)
Definition plain_files {V : Type} (w : world V) : bool :=
  forallb (fun r => as_written StateCache (row_record r))
          (file_rows (state_cache_file w)) &&
  forallb (fun r => as_written CountyCache (row_record r))
          (file_rows (county_cache_file w)).

(** The same of the entries of a dictionary, each under a key of its kind. *)
Definition plain_data {V : Type} (data : dict (list (record V))) : bool :=
  forallb (fun kv => forallb (as_written (kind_of_key (fst kv))) (snd kv)) data.

(** A file that is there and that [load_cache] cannot read: pandas fails
    on it, or the timestamp of its first row is no date. *)
Definition file_corrupt {V : Type} (f : option (csv_file V)) : bool :=
  match f with
  | Some Unreadable => true
  | Some (Table (first :: _)) =>
      match timestamp first with
      | Some _ => false
      | None => true
      end
  | _ => false
  end.

(** The warning [load_cache] shows for a file. *)
Definition load_warning {V : Type} (which : cache_kind) (w : world V)
  : list notice :=
  if file_corrupt (file_of which w) then [WarnLoadingCache which] else [].

(** The form of the record of a processed row: at state level a state
    record with a two-character code of the jurisdiction map, at county
    level a county record with padded codes. *)
Definition canonical {V : Type} (geography_level : string) (r : record V) : Prop :=
  match r with
  | StateRecord _ fips _ =>
      geography_level = "state" /\ String.length fips = 2%nat /\
      dict_mem fips FIPS_TO_ABBREV = true
  | CountyRecord _ county_fips state_fips _ =>
      geography_level <> "state" /\
      (3 <= String.length county_fips)%nat /\ (2 <= String.length state_fips)%nat
  end.

(** ** The national map and the drill-down *)

(** The arguments [create_choropleth_map] gives to [go.Choropleth] and to
    the title of the layout; the fixed options of the layout are left out.
    The labels are the names of the records, as the JSON values they are. *)
Record choropleth (V : Type) : Type := {
  locations : list string;
  z : list V;
  text : list json;
  colorscale : string;
  zmin : V;
  zmax : V;
  title : string
}.

Section Presentation.

Context {V : Type}.

(** A float that is NaN: with [None], what [pd.isna] holds missing. *)
Variable is_nan : V -> bool.

(** [Series.min] and [Series.max] *)
Variables series_min series_max : list V -> V.

(** Python's [==] on two JSON values. *)
Variable py_eq : json -> json -> bool.

Definition record_value (r : record V) : option V :=
  match r with
  | StateRecord _ _ v => v
  | CountyRecord _ _ _ v => v
  end.

Definition record_name (r : record V) : json :=
  match r with
  | StateRecord name _ _ => name
  | CountyRecord name _ _ _ => name
  end.

(** [pd.notna] *)
Definition notna (v : option V) : bool :=
  match v with
  | Some x => negb (is_nan x)
  | None => false
  end.

(** The frame has a column fips when some record has the key. *)
Definition has_fips (r : record V) : bool :=
  match r with
  | StateRecord _ _ _ => true
  | CountyRecord _ _ _ _ => false
  end.

(** [df['fips'].isin(FIPS_TO_ABBREV.keys())]: a record without the key has
    a missing cell, which is in no list. *)
Definition fips_isin (r : record V) : bool :=
  match r with
  | StateRecord _ fips _ => dict_mem fips FIPS_TO_ABBREV
  | CountyRecord _ _ _ _ => false
  end.

(** One row of the frame with its abbreviation,
    [df['fips'].map(FIPS_TO_ABBREV)]; a row whose mapping fails is dropped
    by [dropna(subset=['abbrev'])]. *)
Definition with_abbrev (r : record V) : list (string * V * json) :=
  match r with
  | StateRecord name fips (Some v) =>
      match dict_get fips FIPS_TO_ABBREV with
      | Some abbrev => [(abbrev, v, name)]
      | None => []
      end
  | _ => []
  end.

Definition create_choropleth_map (data : list (record V))
  (metric_key title_suffix : string) : result (option (choropleth V)) :=
  if is_nil data then Ok None
  else
    (* every record has the key value: the column is there *)
    let df := filter (fun r => notna (record_value r)) data in
    if negb (existsb has_fips data) then Raise KeyError
    else
      let df := filter fips_isin df in
      if is_nil df then Ok None
      else
        match dict_get metric_key SDOH_METRICS with
        | None => Raise KeyError
        | Some metric_config =>
            let color_scale := if positive metric_config then "Greens" else "Reds" in
            let df := flat_map with_abbrev df in
            let values := map (fun row => snd (fst row)) df in
            Ok (Some {| locations := map (fun row => fst (fst row)) df;
                        z := values;
                        text := map (fun row => snd row) df;
                        colorscale := color_scale;
                        zmin := series_min values;
                        zmax := series_max values;
                        title := metric_key ++ " by State" ++ title_suffix |})
        end.


(** [main], the drill-down: the code of the first state of [state_data]
    with the selected name. *)
Fixpoint find_state_fips (state_data : list (record V)) (selected : json)
  : result (option string) :=
  match state_data with
  | [] => Ok None
  | item :: rest =>
      if py_eq (record_name item) selected then
        match item with
        | StateRecord _ fips _ => Ok (Some fips)
        | CountyRecord _ _ _ _ => Raise KeyError
        end
      else find_state_fips rest selected
  end.

(** The scope of the county fetch of [main]: none when no state has the
    name, or when its code is the empty string ([if state_fips:]). *)
Definition drill_down_scope (state_data : list (record V)) (selected : json)
  : result (option string) :=
  fips <~ find_state_fips state_data selected ;;
  match fips with
  | Some EmptyString => Ok None
  | other => Ok other
  end.

End Presentation.

(** A run of the program: one fetch after the other. *)
Fixpoint fetch_all {V : Type} {nan_V : NaN V} (py_float : json -> result V)
  (calls : list ((request -> response) * string * string)) (w : world V)
  : world V :=
  match calls with
  | [] => w
  | (net, metric_key, geography_level) :: rest =>
      fetch_all py_float rest
        (snd (fetch_census_data py_float net metric_key geography_level w))
  end.

(** ** Sample data *)

Fixpoint digits_value (s : string) (acc : Z) : option Z :=
  match s with
  | EmptyString => Some acc
  | String c rest =>
      let n := Z.of_nat (nat_of_ascii c) in
      if (48 <=? n) && (n <=? 57) then digits_value rest (10 * acc + (n - 48))
      else None
  end.

(** A stand-in for [float] on whole-number literals, for the examples. *)
Definition whole_float (x : json) : result Z :=
  match x with
  | JStr EmptyString => Raise ValueError
  | JStr s | JNum s =>
      match digits_value s 0 with
      | Some z => Ok z
      | None => Raise ValueError
      end
  | JBool b => Ok (if b then 1 else 0)
  | _ => Raise TypeError
  end.

(** A stand-in for NaN among the whole numbers: no literal is parsed to it. *)
#[export] Instance sample_nan : NaN Z := -1.

Definition sample_now : Z := 1700000000000000.

Definition still_clock : nat -> Z := fun _ => sample_now.

(** A clock that advances by one second at each reading. *)
Definition ticking_clock : nat -> Z := fun n => sample_now + 1000000 * Z.of_nat n.

(** No cache file yet, and a running clock. *)
Definition first_run : world Z :=
  {| state_cache_file := None;
     county_cache_file := None;
     disk_writable := true;
     clock := ticking_clock;
     ticks := 0;
     requests_sent := [];
     notices := [] |}.

Definition empty_world : world Z :=
  {| state_cache_file := None;
     county_cache_file := None;
     disk_writable := true;
     clock := still_clock;
     ticks := 0;
     requests_sent := [];
     notices := [] |}.

Definition with_state_file (rows : list (cache_row Z)) : world Z :=
  {| state_cache_file := Some (Table rows);
     county_cache_file := None;
     disk_writable := true;
     clock := still_clock;
     ticks := 0;
     requests_sent := [];
     notices := [] |}.

Definition alabama : record Z := StateRecord (JStr "Alabama") "01" (Some 59609).
Definition alaska : record Z := StateRecord (JStr "Alaska") "02" (Some 86370).

Definition income_key : string := "Median Household Income_state".
Definition poverty_key : string := "Poverty Rate_state".

(** A state file whose first entry is fresh and whose second entry carries
    a timestamp two weeks old. *)
Definition mixed_rows : list (cache_row Z) :=
  [ {| cache_key := income_key; timestamp := Some sample_now; row_record := alabama |};
    {| cache_key := poverty_key;
       timestamp := Some (sample_now - 2 * cache_duration);
       row_record := alaska |} ].

(** The same two entries, the old one first. *)
Definition mixed_rows_old_first : list (cache_row Z) :=
  [ {| cache_key := poverty_key;
       timestamp := Some (sample_now - 2 * cache_duration);
       row_record := alaska |};
    {| cache_key := income_key; timestamp := Some sample_now; row_record := alabama |} ].

(** Two entries written two weeks ago. *)
Definition expired_rows : list (cache_row Z) :=
  [ {| cache_key := income_key;
       timestamp := Some (sample_now - 2 * cache_duration);
       row_record := alabama |};
    {| cache_key := poverty_key;
       timestamp := Some (sample_now - 2 * cache_duration);
       row_record := alaska |} ].

(** An entry written exactly one retention window ago. *)
Definition boundary_rows : list (cache_row Z) :=
  [ {| cache_key := income_key;
       timestamp := Some (sample_now - cache_duration);
       row_record := alabama |} ].

(** A fresh entry under a key whose metric is not registered. *)
Definition bogus_rows : list (cache_row Z) :=
  [ {| cache_key := "Bogus_state"; timestamp := Some sample_now; row_record := alabama |} ].

Definition fresh_rows : list (cache_row Z) :=
  [ {| cache_key := income_key; timestamp := Some sample_now; row_record := alabama |};
    {| cache_key := poverty_key; timestamp := Some sample_now; row_record := alaska |} ].

Definition header : json := JArr [JStr "DP03_0062E"; JStr "NAME"; JStr "state"].

Definition net_down : request -> response := fun _ => TransportError.

Definition net_header_only : request -> response :=
  fun _ => HttpResponse 200 (Some (JArr [header])).

Definition net_states : request -> response :=
  fun _ => HttpResponse 200
             (Some (JArr [header;
                          JArr [JStr "59609"; JStr "Alabama"; JStr "01"];
                          JArr [JStr "-"; JStr "Puerto Rico"; JStr "72"];
                          JArr [JStr "-"; JStr "Alaska"; JStr "02"]])).

Definition puerto_rico_row : json := JArr [JStr "-"; JStr "Puerto Rico"; JStr "72"].
Definition alaska_missing_row : json := JArr [JStr "-"; JStr "Alaska"; JStr "02"].
Definition county_row : json := JArr [JStr ""; JStr "Adjuntas Municipio"; JStr "72"; JStr "1"].

(** More sample data: answers of the network, worlds and a map. *)

Definition state_rows : list json :=
  [JArr [JStr "59609"; JStr "Alabama"; JStr "01"]; puerto_rico_row; alaska_missing_row].

(** A row whose area code is a number, not a string. *)
Definition bad_code_row : json := JArr [JStr "86370"; JStr "Alaska"; JNum "2"].

Definition net_bad_code : request -> response :=
  fun _ => HttpResponse 200
             (Some (JArr [header; JArr [JStr "59609"; JStr "Alabama"; JStr "01"];
                          bad_code_row])).

Definition net_territory_only : request -> response :=
  fun _ => HttpResponse 200 (Some (JArr [header; puerto_rico_row])).

(** A disk that refuses every write. *)
Definition read_only_disk : world Z :=
  {| state_cache_file := None;
     county_cache_file := None;
     disk_writable := false;
     clock := ticking_clock;
     ticks := 0;
     requests_sent := [];
     notices := [] |}.

(** A state file that pandas cannot parse and a county file whose first
    timestamp is no date. *)
Definition corrupt_world : world Z :=
  {| state_cache_file := Some Unreadable;
     county_cache_file :=
       Some (Table [ {| cache_key := "Poverty Rate_01";
                        timestamp := None;
                        row_record := CountyRecord (JStr "Autauga County") "001" "01"
                                        (Some 11) |} ]);
     disk_writable := true;
     clock := still_clock;
     ticks := 0;
     requests_sent := [];
     notices := [] |}.

Definition unpadded_alabama : record Z := StateRecord (JStr "Alabama") "1" (Some 59609).

Definition alaska_no_value : record Z := StateRecord (JStr "Alaska") "02" None.

Definition puerto_rico : record Z := StateRecord (JStr "Puerto Rico") "72" (Some 24002).

Definition no_nan : Z -> bool := fun _ => false.

Definition z_min (l : list Z) : Z :=
  match l with
  | [] => 0
  | x :: rest => fold_left Z.min rest x
  end.

Definition z_max (l : list Z) : Z :=
  match l with
  | [] => 0
  | x :: rest => fold_left Z.max rest x
  end.

(** [==] on names that are strings. *)
Definition name_eq (a b : json) : bool :=
  match a, b with
  | JStr x, JStr y => String.eqb x y
  | _, _ => false
  end.

Definition income_map : choropleth Z :=
  {| locations := ["AL"];
     z := [59609];
     text := [JStr "Alabama"];
     colorscale := "Greens";
     zmin := 59609;
     zmax := 59609;
     title := "Median Household Income by State" |}.

(** * Facts *)

(** ** Dictionaries *)

Section DictFacts.

Context {A : Type}.
Implicit Types (d other : dict A) (k : string).

Lemma dict_get_set_eq k (v : A) d : dict_get k (dict_set k v d) = Some v.
Proof.
  induction d as [|[k' v'] d IH]; simpl.
  - now rewrite String.eqb_refl.
  - destruct (String.eqb k k') eqn:E; simpl.
    + now rewrite String.eqb_refl.
    + now rewrite E.
Qed.

Lemma dict_get_set_neq k k' (v : A) d :
  k <> k' -> dict_get k (dict_set k' v d) = dict_get k d.
Proof.
  intros Hne. apply String.eqb_neq in Hne.
  induction d as [|[k2 v2] d IH]; simpl.
  - now rewrite Hne.
  - destruct (String.eqb k' k2) eqn:E; simpl.
    + apply String.eqb_eq in E. subst k2. now rewrite Hne.
    + now rewrite IH.
Qed.

Lemma dict_keys_set_in k k' (v : A) d :
  In k (dict_keys (dict_set k' v d)) <-> k = k' \/ In k (dict_keys d).
Proof.
  induction d as [|[k2 v2] d IH]; simpl.
  - intuition.
  - destruct (String.eqb k' k2) eqn:E; simpl.
    + apply String.eqb_eq in E. subst k2. intuition.
    + rewrite IH. intuition.
Qed.

Lemma NoDup_dict_set k (v : A) d :
  NoDup (dict_keys d) -> NoDup (dict_keys (dict_set k v d)).
Proof.
  induction d as [|[k2 v2] d IH]; simpl; intros Hnd.
  - constructor; [intros [] | constructor].
  - destruct (String.eqb k k2) eqn:E; simpl.
    + apply String.eqb_eq in E. now subst k2.
    + inversion Hnd as [|? ? Hnotin Hnd']; subst.
      constructor; [|now apply IH].
      intros Hin. apply dict_keys_set_in in Hin.
      destruct Hin as [->|Hin]; [|contradiction].
      now rewrite String.eqb_refl in E.
Qed.

Lemma dict_get_None_iff k d : dict_get k d = None <-> ~ In k (dict_keys d).
Proof.
  induction d as [|[k2 v2] d IH]; simpl.
  - intuition.
  - destruct (String.eqb k k2) eqn:E.
    + apply String.eqb_eq in E. subst. split; [discriminate | intros H; exfalso; apply H; now left].
    + apply String.eqb_neq in E. rewrite IH. intuition.
Qed.

Lemma dict_get_update k d other :
  NoDup (dict_keys other) ->
  dict_get k (dict_update d other) =
  match dict_get k other with
  | Some v => Some v
  | None => dict_get k d
  end.
Proof.
  unfold dict_update. revert d.
  induction other as [|[k1 v1] other IH]; simpl; intros d Hnd; [reflexivity|].
  inversion Hnd as [|? ? Hnotin Hnd']; subst.
  rewrite IH by assumption.
  destruct (String.eqb k k1) eqn:E.
  - apply String.eqb_eq in E. subst k1.
    apply dict_get_None_iff in Hnotin. rewrite Hnotin.
    apply dict_get_set_eq.
  - apply String.eqb_neq in E.
    destruct (dict_get k other); [reflexivity|].
    now apply dict_get_set_neq.
Qed.

Lemma dict_get_update_absent k d other :
  dict_get k other = None ->
  dict_get k (dict_update d other) = dict_get k d.
Proof.
  unfold dict_update. revert d.
  induction other as [|[k1 v1] other IH]; simpl; intros d H; [reflexivity|].
  destruct (String.eqb k k1) eqn:E; [discriminate|].
  rewrite IH by assumption. apply String.eqb_neq in E.
  now apply dict_get_set_neq.
Qed.

Lemma dict_keys_update_in k d other :
  In k (dict_keys (dict_update d other)) ->
  In k (dict_keys d) \/ In k (dict_keys other).
Proof.
  unfold dict_update. revert d.
  induction other as [|[k1 v1] other IH]; simpl; intros d H; [now left|].
  apply IH in H. destruct H as [H|H]; [|now right; right].
  apply dict_keys_set_in in H. destruct H as [->|H]; [right; now left | now left].
Qed.

Lemma NoDup_dict_update d other :
  NoDup (dict_keys d) -> NoDup (dict_keys (dict_update d other)).
Proof.
  unfold dict_update. revert d.
  induction other as [|[k1 v1] other IH]; simpl; intros d Hnd; [assumption|].
  apply IH. now apply NoDup_dict_set.
Qed.

Lemma dict_get_filter (q : string -> bool) k d :
  dict_get k (filter (fun kv => q (fst kv)) d) =
  if q k then dict_get k d else None.
Proof.
  induction d as [|[k2 v2] d IH]; simpl.
  - now destruct (q k).
  - destruct (q k2) eqn:Q2; simpl.
    + destruct (String.eqb k k2) eqn:E.
      * apply String.eqb_eq in E. subst. now rewrite Q2.
      * exact IH.
    + rewrite IH. destruct (String.eqb k k2) eqn:E; [|reflexivity].
      apply String.eqb_eq in E. subst. now rewrite Q2.
Qed.

Lemma dict_keys_filter_in (p : string * A -> bool) k d :
  In k (dict_keys (filter p d)) -> In k (dict_keys d).
Proof.
  unfold dict_keys. rewrite !in_map_iff.
  intros [kv [Hk Hin]]. exists kv. split; [assumption|].
  now apply filter_In in Hin.
Qed.

Lemma NoDup_keys_filter (p : string * A -> bool) d :
  NoDup (dict_keys d) -> NoDup (dict_keys (filter p d)).
Proof.
  induction d as [|[k2 v2] d IH]; simpl; intros Hnd; [constructor|].
  inversion Hnd as [|? ? Hnotin Hnd']; subst.
  destruct (p (k2, v2)); simpl; [|now apply IH].
  constructor; [|now apply IH].
  intros Hin. apply Hnotin. eapply dict_keys_filter_in. exact Hin.
Qed.

End DictFacts.

(** ** Strings *)

Lemma length_zeros n : String.length (zeros n) = n.
Proof. induction n; simpl; congruence. Qed.

Lemma length_string_app (s1 s2 : string) :
  String.length (s1 ++ s2) = (String.length s1 + String.length s2)%nat.
Proof. induction s1; simpl; congruence. Qed.

Lemma zfill_long width s :
  (width <= String.length s)%nat -> zfill width s = s.
Proof.
  intros H. unfold zfill. apply Nat.leb_le in H. now rewrite H.
Qed.

Lemma zfill_length width s : (width <= String.length (zfill width s))%nat.
Proof.
  unfold zfill. destruct (width <=? String.length s)%nat eqn:E.
  - now apply Nat.leb_le.
  - apply Nat.leb_gt in E. destruct s as [|c rest].
    + rewrite length_zeros. simpl. lia.
    + destruct (is_sign c); simpl in *;
        rewrite length_string_app, length_zeros; simpl; lia.
Qed.

Lemma zfill_idempotent width s : zfill width (zfill width s) = zfill width s.
Proof. apply zfill_long, zfill_length. Qed.

(** A raw code that is no key of the jurisdiction map is no key after
    padding either. *)
Lemma unmapped_after_padding s :
  dict_mem s FIPS_TO_ABBREV = false ->
  dict_mem (zfill 2 s) FIPS_TO_ABBREV = false.
Proof.
  destruct s as [|c [|c2 rest]].
  - reflexivity.
  - destruct c as [[] [] [] [] [] [] [] []]; vm_compute; congruence.
  - rewrite zfill_long by (simpl; lia). trivial.
Qed.

(** ** Grouping the rows of a file *)

Section GroupFacts.

Context {V : Type} {nan_V : NaN V}.
Implicit Types (rows : list (cache_row V)) (cd d : dict (list (record V))).

Lemma in_unique k (l : list string) : In k (unique l) <-> In k l.
Proof.
  induction l as [|x t IH]; simpl; [tauto|].
  rewrite filter_In, IH.
  destruct (String.eqb k x) eqn:E.
  - apply String.eqb_eq in E. intuition.
  - simpl. apply String.eqb_neq in E. intuition congruence.
Qed.

Lemma has_key_in k rows :
  has_key k rows = true <-> In k (map (@cache_key V) rows).
Proof.
  unfold has_key. rewrite existsb_exists, in_map_iff.
  split; intros [r [H1 H2]]; exists r.
  - apply String.eqb_eq in H2. tauto.
  - split; [tauto|]. apply String.eqb_eq. tauto.
Qed.

Lemma dict_get_fold_set {A : Type} (f : string -> A) keys (acc : dict A) k :
  dict_get k (fold_left (fun a key => dict_set key (f key) a) keys acc) =
  if existsb (String.eqb k) keys then Some (f k) else dict_get k acc.
Proof.
  revert acc. induction keys as [|a keys IH]; simpl; intros acc; [reflexivity|].
  rewrite IH. destruct (existsb (String.eqb k) keys).
  - now rewrite orb_true_r.
  - rewrite orb_false_r. destruct (String.eqb k a) eqn:E.
    + apply String.eqb_eq in E. subst. apply dict_get_set_eq.
    + apply String.eqb_neq in E. now apply dict_get_set_neq.
Qed.

Lemma existsb_eqb_unique k rows :
  existsb (String.eqb k) (unique (map (@cache_key V) rows)) = has_key k rows.
Proof.
  apply Bool.eq_iff_eq_true.
  rewrite has_key_in, existsb_exists. split.
  - intros [x [Hin E]]. apply String.eqb_eq in E. subst x.
    now apply in_unique.
  - intros Hin. exists k. split; [now apply in_unique | apply String.eqb_refl].
Qed.

Lemma dict_get_load_groups which rows cd k :
  dict_get k (load_groups which rows cd) =
  if has_key k rows then Some (key_data which rows k) else dict_get k cd.
Proof.
  unfold load_groups.
  rewrite (dict_get_fold_set (fun key => key_data which rows key)).
  now rewrite existsb_eqb_unique.
Qed.

Lemma NoDup_load_groups which rows cd :
  NoDup (dict_keys cd) -> NoDup (dict_keys (load_groups which rows cd)).
Proof.
  unfold load_groups. generalize (unique (map (@cache_key V) rows)).
  intros keys. revert cd.
  induction keys as [|a keys IH]; simpl; intros cd Hnd; [assumption|].
  apply IH. now apply NoDup_dict_set.
Qed.

Lemma key_data_nonempty which rows k :
  has_key k rows = true -> key_data which rows k <> [].
Proof.
  unfold has_key, key_data. intros H Hnil.
  apply existsb_exists in H. destruct H as [r [Hin E]].
  apply map_eq_nil in Hnil.
  assert (Hr : In r (filter (fun r => String.eqb (cache_key r) k) rows))
    by (apply filter_In; tauto).
  rewrite Hnil in Hr. contradiction.
Qed.

Lemma fix_fips_idempotent which (r : record V) :
  fix_fips which (fix_fips which r) = fix_fips which r.
Proof.
  destruct which, r; simpl; try reflexivity.
  now rewrite zfill_idempotent.
Qed.

(** Reading gives NaN once and for all, and does not touch the codes. *)
Lemma read_value_idempotent (r : record V) :
  read_value (read_value r) = read_value r.
Proof. destruct r as [n f [v|]|n c s [v|]]; reflexivity. Qed.

Lemma read_value_fix_fips which (r : record V) :
  read_value (fix_fips which r) = fix_fips which (read_value r).
Proof. destruct which, r as [n f [v|]|n c s [v|]]; reflexivity. Qed.

Lemma read_record_idempotent which (r : record V) :
  read_record which (read_record which r) = read_record which r.
Proof.
  unfold read_record.
  now rewrite read_value_fix_fips, read_value_idempotent, fix_fips_idempotent.
Qed.

Lemma read_value_read_record which (r : record V) :
  read_value (read_record which r) = read_record which r.
Proof.
  unfold read_record. now rewrite read_value_fix_fips, read_value_idempotent.
Qed.

(** *** The rows [save_cache] writes *)

Lemma rows_of_in ts d (r : cache_row V) :
  In r (rows_of ts d) ->
  In (cache_key r) (dict_keys d) /\ timestamp r = Some ts.
Proof.
  unfold rows_of. rewrite in_flat_map.
  intros [[k recs] [Hin Hr]]. simpl in Hr.
  apply in_map_iff in Hr. destruct Hr as [rec [<- _]]. simpl.
  split; [|reflexivity].
  unfold dict_keys. apply in_map_iff. now exists (k, recs).
Qed.

Lemma filter_rows_of_absent ts d k :
  ~ In k (dict_keys d) ->
  filter (fun r : cache_row V => String.eqb (cache_key r) k) (rows_of ts d) = [].
Proof.
  intros Hnotin.
  destruct (filter _ (rows_of ts d)) as [|r l] eqn:E; [reflexivity|].
  assert (Hin : In r (filter (fun r : cache_row V => String.eqb (cache_key r) k)
                             (rows_of ts d))) by (rewrite E; now left).
  apply filter_In in Hin. destruct Hin as [Hin Hk].
  apply String.eqb_eq in Hk. apply rows_of_in in Hin.
  subst k. tauto.
Qed.

Lemma filter_rows_of ts d k :
  NoDup (dict_keys d) ->
  filter (fun r : cache_row V => String.eqb (cache_key r) k) (rows_of ts d) =
  match dict_get k d with
  | Some recs =>
      map (fun r => {| cache_key := k; timestamp := Some ts; row_record := r |}) recs
  | None => []
  end.
Proof.
  induction d as [|[k1 recs1] d IH]; simpl; intros Hnd; [reflexivity|].
  inversion Hnd as [|? ? Hnotin Hnd']; subst.
  change (rows_of ts ((k1, recs1) :: d))
    with (map (fun r => {| cache_key := k1; timestamp := Some ts; row_record := r |})
              recs1 ++ rows_of ts d)%list.
  rewrite filter_app.
  destruct (String.eqb k k1) eqn:E.
  - apply String.eqb_eq in E. subst k1.
    rewrite filter_rows_of_absent by assumption. rewrite app_nil_r.
    clear. induction recs1 as [|r recs1 IH]; simpl; [reflexivity|].
    rewrite String.eqb_refl. now rewrite IH.
  - rewrite IH by assumption.
    replace (filter _ (map _ recs1)) with (@nil (cache_row V)); [reflexivity|].
    clear -E. induction recs1 as [|r recs1 IH]; simpl; [reflexivity|].
    rewrite String.eqb_sym, E. exact IH.
Qed.

Lemma key_data_rows_of which ts d k :
  NoDup (dict_keys d) ->
  key_data which (rows_of ts d) k =
  match dict_get k d with
  | Some recs => map (read_record which) recs
  | None => []
  end.
Proof.
  intros Hnd. unfold key_data. rewrite filter_rows_of by assumption.
  destruct (dict_get k d) as [recs|]; [|reflexivity].
  rewrite map_map. reflexivity.
Qed.

Lemma has_key_rows_of ts d k :
  NoDup (dict_keys d) ->
  has_key k (rows_of ts d) =
  match dict_get k d with
  | Some recs => negb (is_nil recs)
  | None => false
  end.
Proof.
  intros Hnd.
  assert (H : has_key k (rows_of ts d) =
              negb (is_nil (filter (fun r : cache_row V => String.eqb (cache_key r) k)
                                   (rows_of ts d)))).
  { unfold has_key. generalize (rows_of ts d). intros l.
    induction l as [|r l IH]; simpl; [reflexivity|].
    destruct (String.eqb (cache_key r) k); simpl; [reflexivity | exact IH]. }
  rewrite H, filter_rows_of by assumption.
  destruct (dict_get k d) as [[|r recs]|]; reflexivity.
Qed.

End GroupFacts.

(** ** The world after each operation *)

Section WorldFacts.

Context {V : Type} {nan_V : NaN V}.
Variable py_float : json -> result V.
Implicit Types (w : world V) (cd : dict (list (record V))).

Lemma advances_trans w1 w2 w3 :
  advances w1 w2 -> advances w2 w3 -> advances w1 w3.
Proof.
  unfold advances. intros (A1 & A2 & A3 & A4 & A5) (B1 & B2 & B3 & B4 & B5).
  repeat split; try congruence. lia.
Qed.

Lemma advances_file which w w' :
  advances w w' -> file_of which w' = file_of which w.
Proof. intros (A1 & A2 & _). destruct which; simpl; assumption. Qed.

Lemma load_cache_file_spec which cd w :
  fst (load_cache_file which cd w) =
    load_groups which (rows_if_fresh (clock w (ticks w)) (file_of which w)) cd /\
  advances w (snd (load_cache_file which cd w)) /\
  ticks (snd (load_cache_file which cd w)) =
    match file_stamp (file_of which w) with
    | Some _ => S (ticks w)
    | None => ticks w
    end.
Proof.
  unfold load_cache_file, bind, read_file, rows_if_fresh, ret, st_notice,
    datetime_now, file_stamp.
  change (match which with
          | StateCache => state_cache_file w
          | CountyCache => county_cache_file w
          end) with (file_of which w).
  destruct (file_of which w) as [[|[|first rest]]|]; simpl;
    try (repeat split; simpl; (reflexivity || lia)).
  destruct (timestamp first) as [cache_time|]; simpl;
    [|repeat split; simpl; (reflexivity || lia)].
  destruct (clock w (ticks w) - cache_time <? cache_duration); simpl;
    repeat split; simpl; (reflexivity || lia).
Qed.

Lemma county_tick_bounds w : (ticks w <= county_tick w <= S (ticks w))%nat.
Proof. unfold county_tick. destruct (file_stamp _); lia. Qed.

Lemma advances_follows w w' : advances w w' -> follows w w'.
Proof. unfold advances, follows. tauto. Qed.

Lemma follows_trans w1 w2 w3 :
  follows w1 w2 -> follows w2 w3 -> follows w1 w3.
Proof.
  unfold follows. intros (A1 & A2 & A3 & A4) (B1 & B2 & B3 & B4).
  repeat split; try congruence. lia.
Qed.

Lemma county_tick_follows w w' :
  follows w w' -> (county_tick w <= county_tick w')%nat.
Proof.
  intros (S1 & _ & _ & L). unfold county_tick. rewrite S1.
  destruct (file_stamp _); lia.
Qed.

(** [load_cache] reads the state file at the current reading of the clock
    and the county file at [county_tick]. *)
Lemma load_cache_spec w :
  fst (load_cache w) =
    load_groups CountyCache
      (rows_if_fresh (clock w (county_tick w)) (county_cache_file w))
      (load_groups StateCache
         (rows_if_fresh (clock w (ticks w)) (state_cache_file w)) []) /\
  advances w (snd (load_cache w)) /\
  (ticks (snd (load_cache w)) <= 2 + ticks w)%nat.
Proof.
  unfold load_cache, bind.
  destruct (load_cache_file_spec StateCache [] w) as (E1 & A1 & T1).
  destruct (load_cache_file StateCache [] w) as [cd1 w1]. simpl in *.
  destruct (load_cache_file_spec CountyCache cd1 w1) as (E2 & A2 & T2).
  destruct (load_cache_file CountyCache cd1 w1) as [cd2 w2]. simpl in *.
  subst cd1 cd2.
  pose proof A1 as (S1 & C1 & K1 & R1 & L1).
  assert (Ht : ticks w1 = county_tick w) by exact T1.
  split; [now rewrite K1, C1, Ht|].
  split; [now apply advances_trans with w1|].
  pose proof (county_tick_bounds w).
  destruct (file_stamp (county_cache_file w1)); lia.
Qed.

Lemma load_cache_ticks w : ticks (snd (load_cache w)) = after_load w.
Proof.
  unfold load_cache, bind, after_load.
  destruct (load_cache_file_spec StateCache [] w) as (_ & A1 & T1).
  destruct (load_cache_file StateCache [] w) as [cd1 w1]. simpl in *.
  destruct (load_cache_file_spec CountyCache cd1 w1) as (_ & _ & T2).
  destruct (load_cache_file CountyCache cd1 w1) as [cd2 w2]. simpl in *.
  destruct A1 as (_ & C1 & _).
  rewrite T2, C1. unfold county_tick. now rewrite T1.
Qed.

Lemma after_load_follows w w' :
  follows w w' ->
  (county_tick w <= county_tick w')%nat /\ (after_load w <= after_load w')%nat.
Proof.
  intros (S1 & C1 & _ & L). unfold after_load, county_tick. rewrite S1, C1.
  destruct (file_stamp (state_cache_file w)), (file_stamp (county_cache_file w));
    lia.
Qed.

Lemma NoDup_load_cache w : NoDup (dict_keys (fst (load_cache w))).
Proof.
  destruct (load_cache_spec w) as (E & _). rewrite E.
  apply NoDup_load_groups, NoDup_load_groups. constructor.
Qed.

(** A key is read from the county file if it is there and fresh, else from
    the state file. *)
Lemma dict_get_load_cache w k :
  dict_get k (fst (load_cache w)) =
    let county := rows_if_fresh (clock w (county_tick w)) (county_cache_file w) in
    let state := rows_if_fresh (clock w (ticks w)) (state_cache_file w) in
    if has_key k county then Some (key_data CountyCache county k)
    else if has_key k state then Some (key_data StateCache state k)
    else None.
Proof.
  destruct (load_cache_spec w) as (E & _). rewrite E. simpl.
  now rewrite !dict_get_load_groups.
Qed.

Lemma loaded_nonempty w k recs :
  dict_get k (fst (load_cache w)) = Some recs -> recs <> [].
Proof.
  rewrite dict_get_load_cache. simpl.
  destruct (has_key k (rows_if_fresh _ (county_cache_file w))) eqn:Hc.
  - intros [= <-]. now apply key_data_nonempty.
  - destruct (has_key k (rows_if_fresh _ (state_cache_file w))) eqn:Hs;
      [|discriminate].
    intros [= <-]. now apply key_data_nonempty.
Qed.

(** *** Freshness *)

Lemma rows_if_fresh_cases now (f : option (csv_file V)) :
  (rows_if_fresh now f = [] ) \/
  (exists ts, file_stamp f = Some ts /\ now - ts < cache_duration /\
              rows_if_fresh now f = file_rows f).
Proof.
  unfold rows_if_fresh, file_stamp, file_rows.
  destruct f as [[|[|first rest]]|]; auto.
  destruct (timestamp first) as [ts|]; auto.
  destruct (now - ts <? cache_duration) eqn:E; auto.
  right. exists ts. apply Z.ltb_lt in E. auto.
Qed.

Lemma rows_if_fresh_stamped now (f : option (csv_file V)) ts :
  file_stamp f = Some ts ->
  rows_if_fresh now f = if now - ts <? cache_duration then file_rows f else [].
Proof.
  unfold rows_if_fresh, file_stamp, file_rows.
  destruct f as [[|[|first rest]]|]; try discriminate.
  now intros ->.
Qed.

Lemma rows_if_fresh_unstamped now (f : option (csv_file V)) :
  file_stamp f = None -> rows_if_fresh now f = [].
Proof.
  unfold rows_if_fresh, file_stamp.
  destruct f as [[|[|first rest]]|]; try reflexivity.
  now intros ->.
Qed.

(** A key read at a later time was readable before, if the clock does not
    run backwards. *)
Lemma has_key_fresh_earlier k now now' (f : option (csv_file V)) :
  now <= now' ->
  has_key k (rows_if_fresh now' f) = true ->
  has_key k (rows_if_fresh now f) = true.
Proof.
  intros Hle. destruct (file_stamp f) as [ts|] eqn:Hs.
  - rewrite !(rows_if_fresh_stamped _ _ Hs).
    destruct (now' - ts <? cache_duration) eqn:E'; [|discriminate].
    apply Z.ltb_lt in E'.
    assert (E : (now - ts <? cache_duration) = true) by (apply Z.ltb_lt; lia).
    now rewrite E.
  - now rewrite !(rows_if_fresh_unstamped _ _ Hs).
Qed.

Lemma readable_later w w' k :
  follows w w' -> monotone (clock w) ->
  dict_get k (fst (load_cache w)) = None ->
  dict_get k (fst (load_cache w')) = None.
Proof.
  intros A Hm. pose proof (county_tick_follows A) as Hc.
  destruct A as (S1 & C1 & K1 & L1).
  rewrite !dict_get_load_cache. simpl. rewrite S1, C1, K1.
  destruct (has_key k (rows_if_fresh (clock w (county_tick w)) _)) eqn:E1;
    [discriminate|].
  destruct (has_key k (rows_if_fresh (clock w (ticks w)) _)) eqn:E2;
    [discriminate|].
  intros _.
  destruct (has_key k (rows_if_fresh (clock w (county_tick w')) _)) eqn:E3.
  - apply has_key_fresh_earlier with (now := clock w (county_tick w)) in E3;
      [congruence | now apply Hm].
  - destruct (has_key k (rows_if_fresh (clock w (ticks w')) _)) eqn:E4;
      [|reflexivity].
    apply has_key_fresh_earlier with (now := clock w (ticks w)) in E4;
      [congruence | now apply Hm].
Qed.

Lemma datetime_now_spec w :
  fst (datetime_now w) = clock w (ticks w) /\
  advances w (snd (datetime_now w)) /\
  ticks (snd (datetime_now w)) = S (ticks w).
Proof. unfold datetime_now, advances. simpl. repeat split; lia. Qed.

Lemma load_cache_file_writable which cd w :
  disk_writable (snd (load_cache_file which cd w)) = disk_writable w.
Proof.
  unfold load_cache_file, bind, read_file, ret, st_notice, datetime_now.
  destruct (match which with
            | StateCache => state_cache_file w
            | CountyCache => county_cache_file w
            end) as [[|[|first rest]]|]; simpl; try reflexivity.
  destruct (timestamp first) as [cache_time|]; simpl; [|reflexivity].
  destruct (clock w (ticks w) - cache_time <? cache_duration); reflexivity.
Qed.

Lemma load_cache_writable w :
  disk_writable (snd (load_cache w)) = disk_writable w.
Proof.
  unfold load_cache, bind.
  pose proof (load_cache_file_writable StateCache [] w) as H1.
  destruct (load_cache_file StateCache [] w) as [cd1 w1]. simpl in *.
  pose proof (load_cache_file_writable CountyCache cd1 w1) as H2.
  destruct (load_cache_file CountyCache cd1 w1) as [cd2 w2]. simpl in *.
  congruence.
Qed.

Lemma save_rows_spec which ts (data : dict (list (record V))) w :
  let w' := snd (save_rows which ts data w) in
  file_of which w' =
    (if is_nil (rows_of ts data) || negb (disk_writable w) then file_of which w
     else Some (Table (rows_of ts data))) /\
  fst (save_rows which ts data w) =
    (if is_nil (rows_of ts data) || disk_writable w then Ok tt
     else Raise OSError) /\
  (forall other, other <> which -> file_of other w' = file_of other w) /\
  clock w' = clock w /\ requests_sent w' = requests_sent w /\
  ticks w' = ticks w /\ disk_writable w' = disk_writable w.
Proof.
  unfold save_rows.
  remember (rows_of ts data) as rows eqn:Hrows.
  destruct data as [|kv data]; cbn [is_nil].
  - subst rows. cbn. repeat split; reflexivity.
  - clear Hrows. destruct rows as [|r rows]; cbn [is_nil orb].
    + unfold ret. cbn. repeat split; reflexivity.
    + unfold write_file. destruct (disk_writable w) eqn:Hd; cbn [negb];
        destruct which; cbn; repeat split; try reflexivity; try assumption;
        intros [] H; cbn; congruence.
Qed.

(** What a save never touches; it reads the clock once more than the
    [load_cache] it starts with. *)
Lemma save_cache_frame (data : dict (list (record V))) w :
  let w' := snd (save_cache data w) in
  clock w' = clock w /\ requests_sent w' = requests_sent w /\
  ticks w' = ticks (snd (load_cache (snd (datetime_now w)))) /\
  (ticks w < ticks w')%nat /\ disk_writable w' = disk_writable w.
Proof.
  unfold save_cache, bind.
  destruct (datetime_now_spec w) as (E0 & A0 & T0).
  assert (D0 : disk_writable (snd (datetime_now w)) = disk_writable w)
    by reflexivity.
  destruct (datetime_now w) as [ts w0]. simpl in *. subst ts.
  destruct (load_cache_spec w0) as (_ & A1 & _).
  pose proof (load_cache_writable w0) as D1.
  destruct (load_cache w0) as [existing w1]. simpl in *.
  pose proof (advances_trans A0 A1) as (S1 & C1 & K1 & R1 & L1).
  destruct A0 as (_ & _ & _ & _ & L0). destruct A1 as (_ & _ & _ & _ & L1').
  set (ed := dict_update existing data).
  destruct (save_rows_spec StateCache (clock w (ticks w))
              (filter (@is_state_key V) ed) w1) as (_ & _ & _ & K2 & R2 & T2 & D2).
  destruct (save_rows StateCache (clock w (ticks w))
              (filter (@is_state_key V) ed) w1) as [[[]|e] w2]; simpl in *.
  - destruct (save_rows_spec CountyCache (clock w (ticks w))
                (filter (fun kv => negb (is_state_key kv)) ed) w2)
      as (_ & _ & _ & K3 & R3 & T3 & D3).
    destruct (save_rows CountyCache (clock w (ticks w))
                (filter (fun kv => negb (is_state_key kv)) ed) w2)
      as [[[]|e] w3]; simpl in *; repeat split; try congruence; lia.
  - repeat split; try congruence; lia.
Qed.

(** The files after a save that the disk accepts: each kind of file is
    rewritten when the merged data holds a row of its kind, and is left as
    it was otherwise. *)
Lemma save_cache_spec (data : dict (list (record V))) w :
  disk_writable w = true ->
  let ts := clock w (ticks w) in
  let existing_data :=
    dict_update (fst (load_cache (snd (datetime_now w)))) data in
  let state_rows := rows_of ts (filter (@is_state_key V) existing_data) in
  let county_rows :=
    rows_of ts (filter (fun kv => negb (is_state_key kv)) existing_data) in
  let w' := snd (save_cache data w) in
  state_cache_file w' =
    (if is_nil state_rows then state_cache_file w else Some (Table state_rows)) /\
  county_cache_file w' =
    (if is_nil county_rows then county_cache_file w else Some (Table county_rows)).
Proof.
  intros Hd. unfold save_cache, bind.
  destruct (datetime_now_spec w) as (E0 & A0 & T0).
  assert (D0 : disk_writable (snd (datetime_now w)) = disk_writable w)
    by reflexivity.
  destruct (datetime_now w) as [ts w0]. simpl in *. subst ts.
  destruct (load_cache_spec w0) as (_ & A1 & _).
  pose proof (load_cache_writable w0) as D1.
  destruct (load_cache w0) as [existing w1]. simpl in *.
  pose proof (advances_trans A0 A1) as (S1 & C1 & K1 & R1 & L1).
  set (ed := dict_update existing data).
  assert (Hd1 : disk_writable w1 = true) by congruence.
  destruct (save_rows_spec StateCache (clock w (ticks w))
              (filter (@is_state_key V) ed) w1)
    as (F2 & E2 & O2 & K2 & R2 & T2 & D2).
  rewrite Hd1, orb_false_r, orb_true_r in *.
  destruct (save_rows StateCache (clock w (ticks w))
              (filter (@is_state_key V) ed) w1) as [saved w2]. simpl in *.
  subst saved.
  assert (Hd2 : disk_writable w2 = true) by congruence.
  destruct (save_rows_spec CountyCache (clock w (ticks w))
              (filter (fun kv => negb (is_state_key kv)) ed) w2)
    as (F3 & E3 & O3 & K3 & R3 & T3 & D3).
  rewrite Hd2, orb_false_r, orb_true_r in *.
  destruct (save_rows CountyCache (clock w (ticks w))
              (filter (fun kv => negb (is_state_key kv)) ed) w2) as [saved w3].
  simpl in *. subst saved. simpl.
  assert (G2 := O2 CountyCache ltac:(discriminate)).
  assert (G3 := O3 StateCache ltac:(discriminate)). simpl in G2, G3.
  split.
  - rewrite G3, F2, S1. reflexivity.
  - rewrite F3, G2, C1. reflexivity.
Qed.

(** A save that the disk refuses leaves both files as they were. *)
Lemma save_cache_refused (data : dict (list (record V))) w :
  disk_writable w = false ->
  state_cache_file (snd (save_cache data w)) = state_cache_file w /\
  county_cache_file (snd (save_cache data w)) = county_cache_file w.
Proof.
  intros Hd. unfold save_cache, bind.
  destruct (datetime_now_spec w) as (E0 & A0 & T0).
  assert (D0 : disk_writable (snd (datetime_now w)) = disk_writable w)
    by reflexivity.
  destruct (datetime_now w) as [ts w0]. simpl in *. subst ts.
  destruct (load_cache_spec w0) as (_ & A1 & _).
  pose proof (load_cache_writable w0) as D1.
  destruct (load_cache w0) as [existing w1]. simpl in *.
  pose proof (advances_trans A0 A1) as (S1 & C1 & K1 & R1 & L1).
  set (ed := dict_update existing data).
  assert (Hd1 : disk_writable w1 = false) by congruence.
  destruct (save_rows_spec StateCache (clock w (ticks w))
              (filter (@is_state_key V) ed) w1)
    as (F2 & _ & O2 & _ & _ & _ & D2).
  rewrite Hd1, orb_true_r in F2.
  assert (G2 := O2 CountyCache ltac:(discriminate)). simpl in F2, G2.
  destruct (save_rows StateCache (clock w (ticks w))
              (filter (@is_state_key V) ed) w1) as [[[]|e] w2]; simpl in *.
  - assert (Hd2 : disk_writable w2 = false) by congruence.
    destruct (save_rows_spec CountyCache (clock w (ticks w))
                (filter (fun kv => negb (is_state_key kv)) ed) w2)
      as (F3 & _ & O3 & _ & _ & _ & _).
    rewrite Hd2, orb_true_r in F3.
    assert (G3 := O3 StateCache ltac:(discriminate)). simpl in F3, G3.
    destruct (save_rows CountyCache (clock w (ticks w))
                (filter (fun kv => negb (is_state_key kv)) ed) w2)
      as [[[]|e] w3]; simpl in *; split; congruence.
  - split; congruence.
Qed.

End WorldFacts.

(** ** The pipeline, case by case *)

Section FetchFacts.

Context {V : Type} {nan_V : NaN V}.
Variable py_float : json -> result V.
Implicit Types (w : world V) (cd : dict (list (record V))).

(** The world once the request is sent. *)
Lemma requests_get_spec net req w :
  let w' := snd (requests_get net req w) in
  fst (requests_get net req w) = net req /\
  state_cache_file w' = state_cache_file w /\
  county_cache_file w' = county_cache_file w /\
  clock w' = clock w /\ ticks w' = ticks w /\
  requests_sent w' = (requests_sent w ++ [req])%list.
Proof. unfold requests_get. simpl. intuition. Qed.

Lemma fetch_unfold net metric_key geography_level w :
  fetch_census_data py_float net metric_key geography_level w =
  let cached_data := fst (load_cache w) in
  let w1 := snd (load_cache w) in
  match dict_get (cache_key_of metric_key geography_level) cached_data with
  | Some records => (Ok records, w1)
  | None =>
      match dict_get metric_key SDOH_METRICS with
      | None => (Raise KeyError, w1)
      | Some metric =>
          let tried :=
            fetch_try py_float net (cache_key_of metric_key geography_level)
              cached_data metric geography_level w1 in
          match fst tried with
          | Ok records => (Ok records, snd tried)
          | Raise RequestException =>
              (Ok [], snd (st_notice ErrorApiRequest (snd tried)))
          | Raise _ => (Ok [], snd (st_notice ErrorProcessingData (snd tried)))
          end
      end
  end.
Proof.
  unfold fetch_census_data, bind, cache_key_of.
  destruct (load_cache w) as [cached_data w1]. cbn [fst snd].
  destruct (dict_get _ cached_data); [reflexivity|].
  destruct (dict_get metric_key SDOH_METRICS) as [metric|]; [|reflexivity].
  destruct (fetch_try _ _ _ _ _ _ _) as [[records|e] w2]; cbn [fst snd];
    [reflexivity|].
  destruct e; reflexivity.
Qed.

(** What the [try] block does: it sends one request, and then either leaves
    the files alone, or saves the processed rows of a body with data rows. *)
Lemma fetch_try_cases net key cd metric geography_level w :
  let req := build_request metric geography_level in
  let sent := snd (requests_get net req w) in
  let tried := fetch_try py_float net key cd metric geography_level w in
  (snd tried = sent /\
   (fst tried = Ok [] \/ exists e, fst tried = Raise e)) \/
  (exists status data rows processed,
      net req = HttpResponse status (Some data) /\
      is_error_status status = false /\
      py_slice_from_1 data = Ok rows /\
      process_rows py_float geography_level rows = Ok processed /\
      fst tried = Ok processed /\
      snd tried = snd (save_cache (dict_set key processed cd) sent)).
Proof.
  cbv zeta. unfold fetch_try, bind.
  destruct (requests_get net (build_request metric geography_level) w)
    as [resp sent] eqn:Hget.
  assert (Hresp : resp = net (build_request metric geography_level))
    by (unfold requests_get in Hget; now inversion Hget).
  cbn [snd]. rewrite <- Hresp.
  destruct resp as [|status body]; [left; cbn; eauto|].
  destruct (is_error_status status) eqn:Hst; [left; cbn; eauto|].
  destruct body as [data|]; [|left; cbn; eauto].
  destruct (py_len data) as [n|e]; [|left; cbn; eauto].
  destruct (1 <? n)%nat; [|left; cbn; eauto].
  destruct (py_slice_from_1 data) as [rows|e] eqn:Hrows; [|left; cbn; eauto].
  destruct (process_rows py_float geography_level rows) as [processed|e] eqn:Hp;
    [|left; cbn; eauto].
  right. exists status, data, rows, processed.
  destruct (save_cache (dict_set key processed cd) sent) as [[] w3].
  cbn. repeat split; (reflexivity || assumption).
Qed.

Lemma fetch_try_failed net key cd metric geography_level w :
  request_failed (net (build_request metric geography_level)) = true ->
  fetch_try py_float net key cd metric geography_level w =
  (Raise RequestException,
   snd (requests_get net (build_request metric geography_level) w)).
Proof.
  unfold fetch_try, bind, request_failed. intros H.
  destruct (requests_get net (build_request metric geography_level) w)
    as [resp sent] eqn:Hget.
  assert (Hresp : resp = net (build_request metric geography_level))
    by (unfold requests_get in Hget; now inversion Hget).
  rewrite <- Hresp in H. cbn [snd].
  destruct resp as [|status body]; [reflexivity|].
  now rewrite H.
Qed.

Lemma fetch_try_requests net key cd metric geography_level w :
  requests_sent (snd (fetch_try py_float net key cd metric geography_level w)) =
  (requests_sent w ++ [build_request metric geography_level])%list.
Proof.
  destruct (requests_get_spec net (build_request metric geography_level) w)
    as (_ & _ & _ & _ & _ & R).
  destruct (fetch_try_cases net key cd metric geography_level w)
    as [[E _] | (status & data & rows & processed & _ & _ & _ & _ & _ & E)];
    rewrite E.
  - exact R.
  - destruct (save_cache_frame (dict_set key processed cd)
                (snd (requests_get net (build_request metric geography_level) w)))
      as (_ & R' & _).
    now rewrite R'.
Qed.

(** A fetch reads the clock at least as often as the [load_cache] it
    starts with. *)
Lemma fetch_ticks net metric_key geography_level w :
  (ticks (snd (load_cache w)) <=
   ticks (snd (fetch_census_data py_float net metric_key geography_level w)))%nat.
Proof.
  rewrite fetch_unfold. cbv zeta.
  destruct (dict_get (cache_key_of _ _) _) as [records|]; [reflexivity|].
  destruct (dict_get metric_key SDOH_METRICS) as [metric|]; [|reflexivity].
  assert (Ht : (ticks (snd (load_cache w)) <=
                ticks (snd (fetch_try py_float net
                              (cache_key_of metric_key geography_level)
                              (fst (load_cache w)) metric geography_level
                              (snd (load_cache w)))))%nat).
  { destruct (fetch_try_cases net (cache_key_of metric_key geography_level)
                (fst (load_cache w)) metric geography_level (snd (load_cache w)))
      as [[E _] | (status & data & rows & processed & _ & _ & _ & _ & _ & E)];
      rewrite E.
    - reflexivity.
    - destruct (save_cache_frame
                  (dict_set (cache_key_of metric_key geography_level) processed
                     (fst (load_cache w)))
                  (snd (requests_get net (build_request metric geography_level)
                          (snd (load_cache w)))))
        as (_ & _ & _ & T & _).
      cbn in T |- *. lia. }
  destruct (fst (fetch_try _ _ _ _ _ _ _)) as [records|e]; [exact Ht|].
  destruct e; exact Ht.
Qed.

Lemma fetch_try_header_only net key cd metric geography_level w status header :
  net (build_request metric geography_level) =
    HttpResponse status (Some (JArr [header])) ->
  is_error_status status = false ->
  fetch_try py_float net key cd metric geography_level w =
  (Ok [], snd (requests_get net (build_request metric geography_level) w)).
Proof.
  intros Hnet Hst. unfold fetch_try, bind.
  destruct (requests_get net (build_request metric geography_level) w)
    as [resp sent] eqn:Hget.
  assert (Hresp : resp = net (build_request metric geography_level))
    by (unfold requests_get in Hget; now inversion Hget).
  rewrite Hnet in Hresp. subst resp. rewrite Hst. reflexivity.
Qed.

(** A call that sends a request missed the cache and found its metric in
    the registry; the request is the one built for that metric. *)
Lemma fetch_sent_request net metric_key geography_level w req :
  requests_sent (snd (fetch_census_data py_float net metric_key geography_level w)) =
    (requests_sent w ++ [req])%list ->
  dict_get (cache_key_of metric_key geography_level) (fst (load_cache w)) = None /\
  exists metric,
    dict_get metric_key SDOH_METRICS = Some metric /\
    req = build_request metric geography_level.
Proof.
  rewrite fetch_unfold. cbv zeta.
  destruct (load_cache_spec w) as (_ & (S1 & C1 & K1 & R1 & L1) & _).
  assert (Hno : forall l : list request, l = (l ++ [req])%list -> False).
  { intros l H. apply (f_equal (@List.length request)) in H.
    rewrite length_app in H. simpl in H. lia. }
  destruct (dict_get (cache_key_of _ _) _) as [records|].
  { cbn [fst snd]. rewrite R1. intros H. now apply Hno in H. }
  destruct (dict_get metric_key SDOH_METRICS) as [metric|].
  2: { cbn [fst snd]. rewrite R1. intros H. now apply Hno in H. }
  intros Hsent. split; [reflexivity|]. exists metric. split; [reflexivity|].
  pose proof (fetch_try_requests net
                (cache_key_of metric_key geography_level)
                (fst (load_cache w)) metric geography_level
                (snd (load_cache w))) as R.
  destruct (fst (fetch_try _ _ _ _ _ _ _)) as [records|e].
  - cbn [snd] in Hsent. rewrite R, R1 in Hsent.
    apply app_inj_tail in Hsent. symmetry. tauto.
  - assert (Hs : requests_sent
                   (snd (fetch_try py_float net
                           (cache_key_of metric_key geography_level)
                           (fst (load_cache w)) metric geography_level
                           (snd (load_cache w)))) =
                 (requests_sent w ++ [req])%list)
      by (destruct e; exact Hsent).
    rewrite R, R1 in Hs. apply app_inj_tail in Hs. symmetry. tauto.
Qed.

Lemma fetch_miss_requests net metric_key geography_level w metric :
  dict_get (cache_key_of metric_key geography_level) (fst (load_cache w)) = None ->
  dict_get metric_key SDOH_METRICS = Some metric ->
  requests_sent (snd (fetch_census_data py_float net metric_key geography_level w)) =
    (requests_sent w ++ [build_request metric geography_level])%list.
Proof.
  intros Hmiss Hreg. rewrite fetch_unfold. cbv zeta. rewrite Hmiss, Hreg.
  destruct (load_cache_spec w) as (_ & (S1 & C1 & K1 & R1 & L1) & _).
  pose proof (fetch_try_requests net
                (cache_key_of metric_key geography_level)
                (fst (load_cache w)) metric geography_level
                (snd (load_cache w))) as R.
  rewrite R1 in R.
  destruct (fst (fetch_try _ _ _ _ _ _ _)) as [records|e]; [exact R|].
  destruct e; exact R.
Qed.

Lemma has_key_fresh_file k now (f : option (csv_file V)) :
  has_key k (rows_if_fresh now f) = true ->
  has_key k (file_rows f) = true /\
  exists ts, file_stamp f = Some ts /\ now - ts < cache_duration.
Proof.
  destruct (rows_if_fresh_cases now f) as [E | (ts & Hs & Hlt & E)]; rewrite E.
  - discriminate.
  - intros H. split; [assumption|]. now exists ts.
Qed.

Lemma process_rows_kept geography_level row rows (r : record V) processed :
  process_row py_float geography_level row = Ok (Some r) ->
  process_rows py_float geography_level rows = Ok processed ->
  process_rows py_float geography_level (row :: rows) = Ok (r :: processed).
Proof. intros H1 H2. simpl. now rewrite H1, H2. Qed.

Lemma process_rows_dropped geography_level row rows :
  process_row py_float geography_level row = Ok None ->
  process_rows py_float geography_level (row :: rows) =
  process_rows py_float geography_level rows.
Proof. intros H1. simpl. now rewrite H1. Qed.

End FetchFacts.

(** ** Reading back what was saved *)

Section SaveFacts.

Context {V : Type} {nan_V : NaN V}.
Variable py_float : json -> result V.
Implicit Types (w : world V) (cd data : dict (list (record V))).

Lemma rows_of_stamp ts data (r : cache_row V) rest :
  rows_of ts data = r :: rest -> timestamp r = Some ts.
Proof.
  intros H. assert (Hin : In r (rows_of ts data)) by (rewrite H; now left).
  now apply rows_of_in in Hin.
Qed.

Lemma rows_if_fresh_written now ts data :
  now - ts < cache_duration ->
  rows_if_fresh now (Some (Table (rows_of ts data))) = rows_of ts data.
Proof.
  intros Hlt. unfold rows_if_fresh.
  destruct (rows_of ts data) as [|r rest] eqn:E; [reflexivity|].
  pose proof E as Hs. apply rows_of_stamp in Hs. rewrite Hs.
  apply Z.ltb_lt in Hlt. now rewrite Hlt.
Qed.

Lemma has_key_not_nil k (rows : list (cache_row V)) :
  has_key k rows = true -> is_nil rows = false.
Proof. destruct rows; [discriminate | reflexivity]. Qed.

Lemma file_stamp_written k ts data :
  has_key k (rows_of ts data) = true ->
  file_stamp (Some (Table (rows_of ts data))) = Some ts.
Proof.
  intros H. cbn [file_stamp].
  destruct (rows_of ts data) as [|r rest] eqn:E; [discriminate|].
  now apply rows_of_stamp in E.
Qed.

Lemma steady_rows h w which n :
  steady h w -> (ticks w <= n)%nat ->
  (file_stamp (file_of which w) <> None -> (n < h)%nat) ->
  rows_if_fresh (clock w n) (file_of which w) =
  rows_if_fresh (clock w (ticks w)) (file_of which w).
Proof.
  intros Hs Hn Hh. destruct (file_stamp (file_of which w)) as [ts|] eqn:E.
  - rewrite !(rows_if_fresh_stamped _ _ E).
    rewrite (Hs which ts E n); [reflexivity|].
    split; [exact Hn | apply Hh; discriminate].
  - now rewrite !(rows_if_fresh_unstamped _ _ E).
Qed.

(** While no file changes status, [load_cache] returns the same entries. *)
Lemma load_cache_steady h w w' :
  steady h w -> follows w w' -> (ticks (snd (load_cache w')) <= h)%nat ->
  fst (load_cache w') = fst (load_cache w).
Proof.
  intros Hs Hf Hh. destruct (after_load_follows Hf) as [Hc Ha].
  rewrite load_cache_ticks in Hh.
  destruct Hf as (S1 & C1 & K1 & L1).
  destruct (load_cache_spec w) as (E & _).
  destruct (load_cache_spec w') as (E' & _).
  rewrite E, E', S1, C1, K1.
  pose proof (county_tick_bounds w) as B. pose proof (county_tick_bounds w') as B'.
  assert (Hst : file_stamp (file_of StateCache w) <> None ->
                (ticks w' < h)%nat).
  { intros Hne. cbn [file_of] in Hne.
    assert (county_tick w' = S (ticks w')).
    { unfold county_tick. rewrite S1.
      destruct (file_stamp (state_cache_file w)); [reflexivity | congruence]. }
    unfold after_load in Hh. destruct (file_stamp (county_cache_file w')); lia. }
  assert (Hco : file_stamp (file_of CountyCache w) <> None ->
                (county_tick w' < h)%nat /\ (county_tick w < h)%nat).
  { intros Hne. cbn [file_of] in Hne.
    unfold after_load in Hh. rewrite C1 in Hh.
    destruct (file_stamp (county_cache_file w)); [lia | congruence]. }
  change (county_cache_file w) with (file_of CountyCache w).
  change (state_cache_file w) with (file_of StateCache w).
  rewrite steady_rows with (h := h) (n := county_tick w')
    by (assumption || lia || (intros Hne; now apply Hco)).
  rewrite steady_rows with (h := h) (n := ticks w') by (assumption || lia).
  rewrite steady_rows with (h := h) (n := county_tick w)
    by (assumption || lia || (intros Hne; now apply Hco)).
  reflexivity.
Qed.

(** The records of a processed row are in the form the cache reads back. *)
Lemma process_row_normal geography_level row (r : record V) which :
  process_row py_float geography_level row = Ok (Some r) ->
  fix_fips which r = r.
Proof.
  unfold process_row.
  destruct (py_index row 0) as [x0|]; [|discriminate]. cbn [result_bind].
  destruct (if is_missing x0 then _ else _) as [value|]; [|discriminate].
  cbn [result_bind].
  destruct (py_index row 1) as [name|]; [|discriminate]. cbn [result_bind].
  destruct (String.eqb geography_level "state").
  - destruct (py_index row 2) as [x2|]; [|discriminate]. cbn [result_bind].
    destruct x2; try discriminate. cbn [py_zfill result_bind].
    destruct (negb _); [discriminate|]. intros [= <-].
    destruct which; simpl; [|reflexivity]. now rewrite zfill_idempotent.
  - destruct (py_index row 2) as [x2|]; [|discriminate]. cbn [result_bind].
    destruct (py_zfill x2 2); [|discriminate]. cbn [result_bind].
    destruct (py_index row 3) as [x3|]; [|discriminate]. cbn [result_bind].
    destruct (py_zfill x3 3); [|discriminate]. cbn [result_bind].
    intros [= <-]. now destruct which.
Qed.

Lemma process_rows_normal geography_level rows processed which :
  process_rows py_float geography_level rows = Ok processed ->
  map (fix_fips which) processed = processed.
Proof.
  revert processed. induction rows as [|row rows IH]; simpl; intros processed H.
  - now injection H as <-.
  - destruct (process_row py_float geography_level row) as [[r|]|e] eqn:E.
    + destruct (process_rows py_float geography_level rows) as [p|]; [|discriminate].
      simpl in H. injection H as <-. simpl.
      rewrite (process_row_normal _ _ which E). f_equal. now apply IH.
    + now apply IH.
    + destruct (is_row_error e); [now apply IH | discriminate].
Qed.

Lemma key_data_normal which (rows : list (cache_row V)) k :
  map (read_record which) (key_data which rows k) = key_data which rows k.
Proof.
  unfold key_data. rewrite map_map. apply map_ext.
  intros r. apply read_record_idempotent.
Qed.

Lemma key_data_read which (rows : list (cache_row V)) k :
  map (@read_value V _) (key_data which rows k) = key_data which rows k.
Proof.
  unfold key_data. rewrite map_map. apply map_ext.
  intros r. apply read_value_read_record.
Qed.

(** A record in the form the cache reads back only has its value read. *)
Lemma read_record_normal which (recs : list (record V)) :
  map (fix_fips which) recs = recs ->
  map (read_record which) recs = map (@read_value V _) recs.
Proof.
  intros H. rewrite <- H at 2. rewrite map_map. apply map_ext.
  intros r. unfold read_record. now rewrite read_value_fix_fips.
Qed.

(** An entry of the merged data with at least one record is read back after
    the save (if the disk accepts it), as [load_cache] reads its records,
    while the timestamp of the save is fresh.  For a state key the county
    file, read last, must not hold the
    key. *)
Lemma save_cache_readable data w k recs :
  disk_writable w = true ->
  dict_get k (dict_update (fst (load_cache (snd (datetime_now w)))) data) = Some recs ->
  recs <> [] ->
  (forall n,
      (ticks w <= n < ticks (snd (load_cache (snd (save_cache data w)))))%nat ->
      clock w n - clock w (ticks w) < cache_duration) ->
  (endswith k "_state" = true ->
   forall n,
     (ticks w <= n < ticks (snd (load_cache (snd (save_cache data w)))))%nat ->
     has_key k (rows_if_fresh (clock w n) (county_cache_file w)) = false) ->
  dict_get k (fst (load_cache (snd (save_cache data w)))) =
  Some (map (read_record (kind_of_key k)) recs).
Proof.
  intros Hd Hget Hne Hwin Hcounty.
  destruct (save_cache_spec data w Hd) as (Fs & Fc).
  destruct (save_cache_frame data w) as (K & _ & _ & T & _).
  cbv zeta in Fs, Fc, K, T.
  rewrite load_cache_ticks in Hwin, Hcounty.
  set (ed := dict_update (fst (load_cache (snd (datetime_now w)))) data) in *.
  set (w' := snd (save_cache data w)) in *.
  set (ts := clock w (ticks w)) in *.
  assert (Hnd : NoDup (dict_keys ed))
    by (apply NoDup_dict_update, NoDup_load_cache).
  pose proof (county_tick_bounds w') as Hb.
  rewrite dict_get_load_cache. cbv zeta. rewrite K.
  unfold kind_of_key.
  destruct (endswith k "_state") eqn:Ek.
  - (* a state key *)
    assert (Hks : has_key k (rows_of ts (filter (@is_state_key V) ed)) = true).
    { rewrite has_key_rows_of by now apply NoDup_keys_filter.
      unfold is_state_key.
      rewrite (dict_get_filter (fun s => endswith s "_state")), Ek, Hget.
      destruct recs; [congruence | reflexivity]. }
    rewrite (has_key_not_nil _ _ Hks) in Fs.
    assert (Hct : county_tick w' = S (ticks w')).
    { unfold county_tick. rewrite Fs. now rewrite (file_stamp_written _ _ _ Hks). }
    assert (Hal : (county_tick w' <= after_load w')%nat)
      by (unfold after_load; destruct (file_stamp (county_cache_file w')); lia).
    assert (Hkc : has_key k (rows_if_fresh (clock w (county_tick w'))
                               (county_cache_file w')) = false).
    { destruct (file_stamp (county_cache_file w')) as [tc|] eqn:Hsc;
        [|now rewrite (rows_if_fresh_unstamped _ _ Hsc)].
      assert (Hn : (ticks w <= county_tick w' < after_load w')%nat)
        by (unfold after_load; rewrite Hsc; lia).
      clear Hsc. rewrite Fc.
      destruct (is_nil (rows_of ts (filter _ ed))) eqn:En.
      - now apply Hcounty.
      - rewrite rows_if_fresh_written by now apply Hwin.
        rewrite has_key_rows_of by now apply NoDup_keys_filter.
        unfold is_state_key.
        rewrite (dict_get_filter (fun s => negb (endswith s "_state"))), Ek.
        reflexivity. }
    rewrite Hkc, Fs.
    rewrite rows_if_fresh_written by (apply Hwin; lia).
    rewrite Hks. f_equal.
    rewrite key_data_rows_of by now apply NoDup_keys_filter.
    unfold is_state_key.
    now rewrite (dict_get_filter (fun s => endswith s "_state")), Ek, Hget.
  - (* a county key *)
    assert (Hkc : has_key k (rows_of ts (filter (fun kv : string * list (record V) =>
                                                   negb (is_state_key kv)) ed)) = true).
    { rewrite has_key_rows_of by now apply NoDup_keys_filter.
      unfold is_state_key.
      rewrite (dict_get_filter (fun s => negb (endswith s "_state"))), Ek, Hget.
      destruct recs; [congruence | reflexivity]. }
    rewrite (has_key_not_nil _ _ Hkc) in Fc.
    assert (Hn : (ticks w <= county_tick w' < after_load w')%nat).
    { unfold after_load. rewrite Fc.
      rewrite (file_stamp_written _ _ _ Hkc). lia. }
    rewrite Fc.
    rewrite rows_if_fresh_written by now apply Hwin.
    rewrite Hkc. f_equal.
    rewrite key_data_rows_of by now apply NoDup_keys_filter.
    unfold is_state_key.
    now rewrite (dict_get_filter (fun s => negb (endswith s "_state"))), Ek, Hget.
Qed.

(** A save that the disk accepts rewrites the file of every entry of the
    merged data that has a record. *)
Lemma save_cache_rewrites data w k recs :
  disk_writable w = true ->
  dict_get k (dict_update (fst (load_cache (snd (datetime_now w)))) data) = Some recs ->
  recs <> [] ->
  file_of (kind_of_key k) (snd (save_cache data w)) =
  Some (Table (rows_of (clock w (ticks w))
                 (filter (of_kind (kind_of_key k))
                    (dict_update (fst (load_cache (snd (datetime_now w)))) data)))).
Proof.
  intros Hd Hget Hne.
  destruct (save_cache_spec data w Hd) as (Fs & Fc). cbv zeta in Fs, Fc.
  set (ed := dict_update (fst (load_cache (snd (datetime_now w)))) data) in *.
  assert (Hnd : NoDup (dict_keys ed))
    by (apply NoDup_dict_update, NoDup_load_cache).
  unfold kind_of_key. destruct (endswith k "_state") eqn:Ek; cbn [file_of].
  - assert (Hks : has_key k (rows_of (clock w (ticks w))
                               (filter (@is_state_key V) ed)) = true).
    { rewrite has_key_rows_of by now apply NoDup_keys_filter.
      unfold is_state_key.
      rewrite (dict_get_filter (fun s => endswith s "_state")), Ek, Hget.
      destruct recs; [congruence | reflexivity]. }
    rewrite (has_key_not_nil _ _ Hks) in Fs. exact Fs.
  - assert (Hkc : has_key k (rows_of (clock w (ticks w))
                               (filter (fun kv : string * list (record V) =>
                                          negb (is_state_key kv)) ed)) = true).
    { rewrite has_key_rows_of by now apply NoDup_keys_filter.
      unfold is_state_key.
      rewrite (dict_get_filter (fun s => negb (endswith s "_state"))), Ek, Hget.
      destruct recs; [congruence | reflexivity]. }
    rewrite (has_key_not_nil _ _ Hkc) in Fc. exact Fc.
Qed.

Lemma has_key_row k (rows : list (cache_row V)) :
  has_key k rows = true -> exists r, In r rows /\ cache_key r = k.
Proof.
  unfold has_key. rewrite existsb_exists. intros [r [Hin E]].
  apply String.eqb_eq in E. now exists r.
Qed.

Lemma dict_keys_filter_key {A : Type} (q : string -> bool) k (d : dict A) :
  In k (dict_keys (filter (fun kv => q (fst kv)) d)) -> q k = true.
Proof.
  unfold dict_keys. rewrite in_map_iff. intros [[k' v] [E Hin]].
  simpl in E. subst k'. apply filter_In in Hin. tauto.
Qed.

(** In well-sorted files a fresh key is of the kind of its file. *)
Lemma fresh_key_kind w which k now :
  well_sorted w ->
  has_key k (rows_if_fresh now (file_of which w)) = true ->
  kind_of_key k = which.
Proof.
  intros [Hst Hco] H. apply has_key_fresh_file in H. destruct H as [H _].
  apply has_key_row in H. destruct H as (r & Hin & <-).
  unfold kind_of_key. destruct which; simpl in Hin.
  - now rewrite (Hst r Hin).
  - now rewrite (Hco r Hin).
Qed.

(** What [load_cache] returns is in the form the cache reads back. *)
Lemma loaded_normal w k recs :
  well_sorted w ->
  dict_get k (fst (load_cache w)) = Some recs ->
  map (read_record (kind_of_key k)) recs = recs.
Proof.
  intros Hws. rewrite dict_get_load_cache. cbv zeta.
  destruct (has_key k (rows_if_fresh _ (county_cache_file w))) eqn:Ec.
  - intros [= <-].
    rewrite (@fresh_key_kind w CountyCache _ _ Hws Ec). apply key_data_normal.
  - destruct (has_key k (rows_if_fresh _ (state_cache_file w))) eqn:Es;
      [|discriminate].
    intros [= <-].
    rewrite (@fresh_key_kind w StateCache _ _ Hws Es). apply key_data_normal.
Qed.

(** What [load_cache] returns has been read: no value is [None]. *)
Lemma loaded_read w k recs :
  dict_get k (fst (load_cache w)) = Some recs ->
  map (@read_value V _) recs = recs.
Proof.
  rewrite dict_get_load_cache. cbv zeta.
  destruct (has_key k (rows_if_fresh _ (county_cache_file w))).
  - intros [= <-]. apply key_data_read.
  - destruct (has_key k (rows_if_fresh _ (state_cache_file w))); [|discriminate].
    intros [= <-]. apply key_data_read.
Qed.

End SaveFacts.

(** ** The files the program writes *)

Section Invariants.

Context {V : Type} {nan_V : NaN V}.
Variable py_float : json -> result V.
Implicit Types (w : world V) (data : dict (list (record V))).

(** A file after a save is the file before, or the rows of the entries of
    its kind, stamped with the time of the save. *)
Lemma save_cache_file_cases data w which :
  file_of which (snd (save_cache data w)) = file_of which w \/
  exists merged,
    file_of which (snd (save_cache data w)) =
    Some (Table (rows_of (clock w (ticks w)) (filter (of_kind which) merged))).
Proof.
  destruct (disk_writable w) eqn:Hd.
  - destruct (save_cache_spec data w Hd) as (Fs & Fc). cbv zeta in Fs, Fc.
    destruct which; cbn [file_of].
    + destruct (is_nil _) in Fs; [now left | right; eauto].
    + destruct (is_nil _) in Fc; [now left | right; eauto].
  - destruct (save_cache_refused data w Hd) as (Fs & Fc).
    left. destruct which; assumption.
Qed.

Lemma rows_of_kind which ts (merged : dict (list (record V))) r :
  In r (rows_of ts (filter (of_kind which) merged)) ->
  kind_of_key (cache_key r) = which.
Proof.
  intros Hin. apply rows_of_in in Hin. destruct Hin as [Hin _].
  unfold dict_keys in Hin. apply in_map_iff in Hin.
  destruct Hin as [kv [E Hin]]. apply filter_In in Hin. destruct Hin as [_ Hk].
  rewrite <- E. unfold kind_of_key, of_kind in *.
  destruct which, (endswith (fst kv) "_state"); simpl in Hk; congruence.
Qed.

Lemma well_sorted_kind w :
  well_sorted w <->
  forall which r, In r (file_rows (file_of which w)) ->
                  kind_of_key (cache_key r) = which.
Proof.
  unfold well_sorted, kind_of_key. split.
  - intros [Hs Hc] [] r Hin; cbn [file_of] in Hin.
    + now rewrite (Hs r Hin).
    + now rewrite (Hc r Hin).
  - intros H. split; intros r Hin.
    + specialize (H StateCache r Hin).
      destruct (endswith (cache_key r) "_state"); [reflexivity | discriminate].
    + specialize (H CountyCache r Hin).
      destruct (endswith (cache_key r) "_state"); [discriminate | reflexivity].
Qed.

(** [save_cache] keeps state keys in the state file and the other keys in
    the county file. *)
Lemma save_cache_well_sorted data w :
  well_sorted w -> well_sorted (snd (save_cache data w)).
Proof.
  rewrite !well_sorted_kind. intros H which r.
  destruct (save_cache_file_cases data w which) as [E | [merged E]]; rewrite E.
  - apply H.
  - cbn [file_rows]. apply rows_of_kind.
Qed.

(** [save_cache] writes one timestamp per file. *)
Lemma save_cache_one_stamp data w :
  (forall which, one_stamp (file_of which w)) ->
  forall which, one_stamp (file_of which (snd (save_cache data w))).
Proof.
  intros H which.
  destruct (save_cache_file_cases data w which) as [E | [merged E]]; rewrite E.
  - apply H.
  - intros r r' Hr Hr'. cbn [file_rows] in Hr, Hr'.
    apply rows_of_in in Hr, Hr'. destruct Hr as [_ ->], Hr' as [_ ->].
    reflexivity.
Qed.

(** The files after a fetch are the files before, or those of a save. *)
Lemma fetch_files_cases net metric_key geography_level w :
  (forall which,
      file_of which (snd (fetch_census_data py_float net metric_key geography_level w)) =
      file_of which w) \/
  (exists data w0,
      (forall which, file_of which w0 = file_of which w) /\
      forall which,
        file_of which (snd (fetch_census_data py_float net metric_key geography_level w)) =
        file_of which (snd (save_cache data w0))).
Proof.
  rewrite fetch_unfold. cbv zeta.
  destruct (load_cache_spec w) as (_ & A & _).
  assert (Hl : forall which, file_of which (snd (load_cache w)) = file_of which w)
    by (intros which; now apply advances_file).
  destruct (dict_get (cache_key_of _ _) _) as [records|]; [now left|].
  destruct (dict_get metric_key SDOH_METRICS) as [metric|]; [|now left].
  pose proof (fetch_try_cases py_float net
                (cache_key_of metric_key geography_level) (fst (load_cache w))
                metric geography_level (snd (load_cache w))) as Hcases.
  cbv zeta in Hcases.
  destruct Hcases
    as [[Ew [E | [e E]]]
       | (status & data & rows & processed & _ & _ & _ & _ & E & Ew)];
    rewrite E.
  - left. intros which. cbn [snd]. rewrite Ew.
    destruct which; [exact (Hl StateCache) | exact (Hl CountyCache)].
  - left. intros which.
    assert (Hs : file_of which
                   (snd (fetch_try py_float net
                           (cache_key_of metric_key geography_level)
                           (fst (load_cache w)) metric geography_level
                           (snd (load_cache w)))) = file_of which w)
      by (rewrite Ew; destruct which;
          [exact (Hl StateCache) | exact (Hl CountyCache)]).
    destruct e, which; exact Hs.
  - right. cbn [snd]. rewrite Ew.
    eexists _, _. split; [|reflexivity].
    intros which. destruct which; [exact (Hl StateCache) | exact (Hl CountyCache)].
Qed.

(** Both properties hold of every world the program reaches from files it
    wrote itself. *)
Lemma fetch_well_sorted net metric_key geography_level w :
  well_sorted w ->
  well_sorted (snd (fetch_census_data py_float net metric_key geography_level w)).
Proof.
  intros H.
  destruct (fetch_files_cases net metric_key geography_level w)
    as [E | (data & w0 & E0 & E)].
  - apply well_sorted_kind. intros which r. rewrite E.
    now apply well_sorted_kind.
  - assert (H0 : well_sorted w0).
    { apply well_sorted_kind. intros which r. rewrite E0.
      now apply well_sorted_kind. }
    apply (save_cache_well_sorted data) in H0.
    apply well_sorted_kind. intros which r. rewrite E.
    now apply well_sorted_kind.
Qed.

Lemma fetch_one_stamp net metric_key geography_level w :
  (forall which, one_stamp (file_of which w)) ->
  forall which,
    one_stamp (file_of which
                 (snd (fetch_census_data py_float net metric_key geography_level w))).
Proof.
  intros H which.
  destruct (fetch_files_cases net metric_key geography_level w)
    as [E | (data & w0 & E0 & E)]; rewrite E.
  - apply H.
  - apply save_cache_one_stamp. intros which'. rewrite E0. apply H.
Qed.

(** In a file with one timestamp, the timestamp [load_cache] reads is the
    timestamp of every row. *)
Lemma file_stamp_of_row (f : option (csv_file V)) r :
  one_stamp f -> In r (file_rows f) -> file_stamp f = timestamp r.
Proof.
  intros H Hin. destruct f as [[|[|first rest]]|]; try contradiction.
  cbn [file_stamp]. apply H; [now left | exact Hin].
Qed.

End Invariants.

(** * The properties of the specification *)

Section Properties.

Context {V : Type} {nan_V : NaN V}.
Variable py_float : json -> result V.
Implicit Types (w : world V) (cd : dict (list (record V))).

(** C1 (as amended): [load_cache] groups the rows of a file into entries by
    cache key, and decides staleness once for the whole file, from the
    timestamp of the file's first row: when that timestamp is within the
    retention window every key of the file is returned with its own rows,
    and when it is not, no key of the file is returned.  This holds of each
    of the two blocks of [load_cache], and so of [load_cache]: a key is read
    from the county file when that file is fresh and holds it, and else from
    the state file when that file is fresh and holds it. *)
Theorem load_cache_one_stamp_per_file :
  (forall which w first rest ts cd k,
      file_of which w = Some (Table (first :: rest)) ->
      timestamp first = Some ts ->
      dict_get k (fst (load_cache_file which cd w)) =
        if clock w (ticks w) - ts <? cache_duration
        then (if has_key k (first :: rest)
              then Some (key_data which (first :: rest) k)
              else dict_get k cd)
        else dict_get k cd) /\
  (forall w k,
      dict_get k (fst (load_cache w)) =
        let county := rows_if_fresh (clock w (county_tick w)) (county_cache_file w) in
        let state := rows_if_fresh (clock w (ticks w)) (state_cache_file w) in
        if has_key k county then Some (key_data CountyCache county k)
        else if has_key k state then Some (key_data StateCache state k)
        else None).
Proof.
  split.
  - intros which w first rest ts cd k Hf Hts.
    destruct (load_cache_file_spec which cd w) as (E & _). rewrite E.
    rewrite (@rows_if_fresh_stamped V _ _ ts) by (rewrite Hf; exact Hts).
    rewrite Hf. simpl file_rows.
    destruct (clock w (ticks w) - ts <? cache_duration).
    + apply dict_get_load_groups.
    + reflexivity.
  - intros w k. apply dict_get_load_cache.
Qed.

(** C10: for a registered metric name and any scope, [fetch_census_data]
    returns a list and raises nothing, whatever the network answers and
    whatever the cache files hold. *)
Theorem fetch_census_data_total net metric_key geography_level w :
  dict_mem metric_key SDOH_METRICS = true ->
  exists records,
    fst (fetch_census_data py_float net metric_key geography_level w) = Ok records.
Proof.
  unfold dict_mem. intros Hreg. rewrite fetch_unfold. cbv zeta.
  destruct (dict_get (cache_key_of _ _) _) as [records|]; [now exists records|].
  destruct (dict_get metric_key SDOH_METRICS) as [metric|]; [|discriminate].
  destruct (fst (fetch_try _ _ _ _ _ _ _)) as [records|e].
  - now exists records.
  - exists []. destruct e; reflexivity.
Qed.

(** C4: when the request that [fetch_census_data] sends fails (the transport
    fails, or the status is an HTTP error), the call returns the empty list,
    raises nothing, and leaves both cache files as they were. *)
Theorem fetch_failed_request_returns_empty net metric_key geography_level w req :
  requests_sent (snd (fetch_census_data py_float net metric_key geography_level w)) =
    (requests_sent w ++ [req])%list ->
  request_failed (net req) = true ->
  fst (fetch_census_data py_float net metric_key geography_level w) = Ok [] /\
  state_cache_file (snd (fetch_census_data py_float net metric_key geography_level w)) =
    state_cache_file w /\
  county_cache_file (snd (fetch_census_data py_float net metric_key geography_level w)) =
    county_cache_file w.
Proof.
  intros Hsent Hfail.
  pose proof Hsent as H0. apply fetch_sent_request in H0.
  destruct H0 as (Hmiss & metric & Hreg & ->).
  rewrite fetch_unfold. cbv zeta. rewrite Hmiss, Hreg.
  rewrite fetch_try_failed by assumption. cbn.
  destruct (load_cache_spec w) as (_ & (S1 & C1 & _) & _).
  repeat split; assumption.
Qed.

(** C7 (as amended): [fetch_census_data] consults the cache first and the
    registry only on a miss.  For a metric name that is not registered it
    returns the cached records when the cache files hold a fresh entry under
    the key, and raises [KeyError] otherwise; either way no request is sent
    and the cache files are left as they were. *)
Theorem fetch_unregistered_metric net metric_key geography_level w :
  dict_get metric_key SDOH_METRICS = None ->
  fst (fetch_census_data py_float net metric_key geography_level w) =
    match dict_get (cache_key_of metric_key geography_level) (fst (load_cache w)) with
    | Some records => Ok records
    | None => Raise KeyError
    end /\
  advances w (snd (fetch_census_data py_float net metric_key geography_level w)).
Proof.
  intros Hreg. rewrite fetch_unfold. cbv zeta. rewrite Hreg.
  destruct (load_cache_spec w) as (_ & A & _).
  destruct (dict_get (cache_key_of _ _) _); split; (reflexivity || exact A).
Qed.

(** C6: when the request is answered successfully by the header row alone,
    [fetch_census_data] returns the empty list and writes nothing: both
    cache files are as before, and the key stays unreadable afterwards
    (as long as the clock does not run backwards). *)
Theorem fetch_header_only_not_cached net metric_key geography_level w req status header :
  requests_sent (snd (fetch_census_data py_float net metric_key geography_level w)) =
    (requests_sent w ++ [req])%list ->
  net req = HttpResponse status (Some (JArr [header])) ->
  is_error_status status = false ->
  fst (fetch_census_data py_float net metric_key geography_level w) = Ok [] /\
  state_cache_file (snd (fetch_census_data py_float net metric_key geography_level w)) =
    state_cache_file w /\
  county_cache_file (snd (fetch_census_data py_float net metric_key geography_level w)) =
    county_cache_file w /\
  (monotone (clock w) ->
   forall w',
     follows (snd (fetch_census_data py_float net metric_key geography_level w)) w' ->
     dict_get (cache_key_of metric_key geography_level) (fst (load_cache w')) = None).
Proof.
  intros Hsent Hnet Hst.
  pose proof Hsent as H0. apply fetch_sent_request in H0.
  destruct H0 as (Hmiss & metric & Hreg & ->).
  rewrite fetch_unfold. cbv zeta. rewrite Hmiss, Hreg.
  rewrite fetch_try_header_only with (status := status) (header := header)
    by assumption.
  cbn [fst snd].
  destruct (load_cache_spec w) as (_ & A & _).
  pose proof A as (S1 & C1 & K1 & R1 & L1).
  split; [reflexivity|]. split; [exact S1|]. split; [exact C1|].
  intros Hm w' Hf.
  apply readable_later with (w := w); [|assumption|assumption].
  apply follows_trans with (w2 := snd (load_cache w));
    [now apply advances_follows | exact Hf].
Qed.


(** C8: an entry whose timestamp is exactly one retention window behind the
    clock is expired: it is not read, and a fetch of a registered metric at
    that instant sends a request instead of answering from the cache.  (The
    files are as [save_cache] writes them, one timestamp per file, so that
    the timestamp of the entry is the one [load_cache] reads; the clock
    does not run backwards during the call.) *)
Theorem expiry_boundary_is_expired net metric_key geography_level w ts metric :
  dict_get metric_key SDOH_METRICS = Some metric ->
  (forall which, one_stamp (file_of which w)) ->
  (forall which r,
      In r (file_rows (file_of which w)) ->
      cache_key r = cache_key_of metric_key geography_level ->
      timestamp r = Some ts) ->
  clock w (ticks w) - ts = cache_duration ->
  monotone (clock w) ->
  dict_get (cache_key_of metric_key geography_level) (fst (load_cache w)) = None /\
  requests_sent (snd (fetch_census_data py_float net metric_key geography_level w)) =
    (requests_sent w ++ [build_request metric geography_level])%list.
Proof.
  intros Hreg Hone Hentry Hnow Hmono.
  assert (Hstamp : forall which,
             has_key (cache_key_of metric_key geography_level)
                     (file_rows (file_of which w)) = true ->
             file_stamp (file_of which w) = Some ts).
  { intros which Hk. apply has_key_row in Hk. destruct Hk as (r & Hin & Hkey).
    rewrite (@file_stamp_of_row _ _ r (Hone which) Hin).
    now apply Hentry with (which := which). }
  assert (Hmiss : dict_get (cache_key_of metric_key geography_level)
                           (fst (load_cache w)) = None).
  { rewrite dict_get_load_cache. cbv zeta.
    pose proof (county_tick_bounds w) as Hb.
    assert (Hlater := Hmono (ticks w) (county_tick w) (proj1 Hb)).
    destruct (has_key _ (rows_if_fresh (clock w (county_tick w)) _)) eqn:Ec.
    { apply has_key_fresh_file in Ec. destruct Ec as (Hk & ts' & Hs & Hlt).
      assert (Hs' := Hstamp CountyCache Hk). cbn [file_of] in Hs'.
      rewrite Hs' in Hs. injection Hs as <-. lia. }
    destruct (has_key _ (rows_if_fresh (clock w (ticks w)) _)) eqn:Es;
      [|reflexivity].
    apply has_key_fresh_file in Es. destruct Es as (Hk & ts' & Hs & Hlt).
    assert (Hs' := Hstamp StateCache Hk). cbn [file_of] in Hs'.
    rewrite Hs' in Hs. injection Hs as <-. lia. }
  split; [exact Hmiss|].
  now apply fetch_miss_requests.
Qed.

(** C3: a row whose value field is [None], the empty string or the dash is
    not a parse failure: when its identity fields parse it is kept, as a
    record with an absent value.  This holds at county level always, and at
    state level for every row that passes the jurisdiction guard (a row
    whose padded area code is no key of the jurisdiction map is dropped by
    that guard, whatever its value: see C5). *)
Theorem missing_value_row_kept geography_level row x0 name code rows processed :
  py_index row 0 = Ok x0 ->
  is_missing x0 = true ->
  py_index row 1 = Ok name ->
  py_index row 2 = Ok (JStr code) ->
  process_rows py_float geography_level rows = Ok processed ->
  (geography_level = "state" ->
   process_rows py_float geography_level (row :: rows) =
     if dict_mem (zfill 2 code) FIPS_TO_ABBREV
     then Ok (StateRecord name (zfill 2 code) None :: processed)
     else Ok processed) /\
  (geography_level <> "state" ->
   forall county,
     py_index row 3 = Ok (JStr county) ->
     process_rows py_float geography_level (row :: rows) =
       Ok (CountyRecord name (zfill 3 county) (zfill 2 code) None :: processed)).
Proof.
  intros H0 Hm H1 H2 Hrows. split.
  - intros ->.
    destruct (dict_mem (zfill 2 code) FIPS_TO_ABBREV) eqn:E.
    + apply process_rows_kept; [|assumption].
      unfold process_row. rewrite H0. cbn [result_bind]. rewrite Hm, H1.
      cbn [result_bind]. rewrite String.eqb_refl, H2. cbn [result_bind py_zfill].
      now rewrite E.
    + rewrite process_rows_dropped; [assumption|].
      unfold process_row. rewrite H0. cbn [result_bind]. rewrite Hm, H1.
      cbn [result_bind]. rewrite String.eqb_refl, H2. cbn [result_bind py_zfill].
      now rewrite E.
  - intros Hne county H3. apply String.eqb_neq in Hne.
    apply process_rows_kept; [|assumption].
    unfold process_row. rewrite H0. cbn [result_bind]. rewrite Hm, H1.
    cbn [result_bind]. rewrite Hne, H2. cbn [result_bind py_zfill].
    rewrite H3. reflexivity.
Qed.

(** C5: in a state-level fetch every record of the normalised result has an
    area code that is a key of the jurisdiction map, and a row whose area
    code is not a key of the map (as received, or once padded) yields no
    record; in a county-level fetch the jurisdiction guard never drops a
    row, and a row whose fields parse is kept whatever its state code. *)
Theorem jurisdiction_filter_state_only :
  (forall rows processed,
      process_rows py_float "state" rows = Ok processed ->
      Forall (fun r => exists name fips value,
                  r = StateRecord name fips value /\
                  dict_mem fips FIPS_TO_ABBREV = true) processed) /\
  (forall row code rows,
      py_index row 2 = Ok (JStr code) ->
      dict_mem code FIPS_TO_ABBREV = false \/
      dict_mem (zfill 2 code) FIPS_TO_ABBREV = false ->
      (forall r, process_row py_float "state" row <> Ok (Some r)) /\
      (forall processed,
          process_rows py_float "state" (row :: rows) = Ok processed ->
          process_rows py_float "state" rows = Ok processed)) /\
  (forall geography_level row,
      geography_level <> "state" ->
      process_row py_float geography_level row <> Ok None) /\
  (forall geography_level row x0 value name state county,
      geography_level <> "state" ->
      py_index row 0 = Ok x0 ->
      (if is_missing x0 then Ok None else v <~ py_float x0 ;; Ok (Some v)) = Ok value ->
      py_index row 1 = Ok name ->
      py_index row 2 = Ok (JStr state) ->
      py_index row 3 = Ok (JStr county) ->
      process_row py_float geography_level row =
        Ok (Some (CountyRecord name (zfill 3 county) (zfill 2 state) value))).
Proof.
  split; [|split; [|split]].
  - induction rows as [|row rows IH]; simpl; intros processed H.
    + injection H as <-. constructor.
    + destruct (process_row py_float "state" row) as [[r|]|e] eqn:E.
      * destruct (process_rows py_float "state" rows) as [p|] eqn:Ep;
          [|discriminate].
        simpl in H. injection H as <-. constructor; [|now apply IH].
        unfold process_row in E.
        destruct (py_index row 0) as [x0|]; [|discriminate]. cbn [result_bind] in E.
        destruct (if is_missing x0 then _ else _) as [value|]; [|discriminate].
        cbn [result_bind] in E.
        destruct (py_index row 1) as [name|]; [|discriminate].
        cbn [result_bind] in E. rewrite String.eqb_refl in E.
        destruct (py_index row 2) as [x2|]; [|discriminate]. cbn [result_bind] in E.
        destruct (py_zfill x2 2) as [fips|]; [|discriminate]. cbn [result_bind] in E.
        destruct (dict_mem fips FIPS_TO_ABBREV) eqn:Hmem; [|discriminate].
        cbn [negb] in E. injection E as <-. now exists name, fips, value.
      * now apply IH.
      * destruct (is_row_error e); [now apply IH | discriminate].
  - intros row code rows H2 Hun.
    assert (Hpad : dict_mem (zfill 2 code) FIPS_TO_ABBREV = false).
    { destruct Hun as [Hraw|Hpad]; [now apply unmapped_after_padding | exact Hpad]. }
    assert (Hrow : forall r, process_row py_float "state" row <> Ok (Some r)).
    { intros r. unfold process_row.
      destruct (py_index row 0) as [x0|]; [|discriminate]. cbn [result_bind].
      destruct (if is_missing x0 then _ else _) as [value|]; [|discriminate].
      cbn [result_bind].
      destruct (py_index row 1) as [name|]; [|discriminate].
      cbn [result_bind]. rewrite String.eqb_refl, H2. cbn [result_bind py_zfill].
      rewrite Hpad. discriminate. }
    split; [exact Hrow|].
    intros processed. simpl.
    destruct (process_row py_float "state" row) as [[r|]|e] eqn:E.
    + now elim (Hrow r).
    + trivial.
    + destruct (is_row_error e); [trivial | discriminate].
  - intros geography_level row Hne. apply String.eqb_neq in Hne.
    unfold process_row.
    destruct (py_index row 0) as [x0|]; [|discriminate]. cbn [result_bind].
    destruct (if is_missing x0 then _ else _) as [value|]; [|discriminate].
    cbn [result_bind].
    destruct (py_index row 1) as [name|]; [|discriminate].
    cbn [result_bind]. rewrite Hne.
    destruct (py_index row 2) as [x2|]; [|discriminate]. cbn [result_bind].
    destruct (py_zfill x2 2) as [state_fips|]; [|discriminate]. cbn [result_bind].
    destruct (py_index row 3) as [x3|]; [|discriminate]. cbn [result_bind].
    destruct (py_zfill x3 3) as [county_fips|]; discriminate.
  - intros geography_level row x0 value name state county Hne H0 Hv H1 H2 H3.
    apply String.eqb_neq in Hne.
    unfold process_row. rewrite H0. cbn [result_bind]. rewrite Hv, H1.
    cbn [result_bind]. rewrite Hne, H2. cbn [result_bind py_zfill].
    rewrite H3. reflexivity.
Qed.

(** Fetching again while the cache is warm.  Once a call has returned
    records, from the cache or from the network through the cache (the
    disk accepting the write), the next call within the retention window
    sends no request and returns these records as the cache reads them:
    in the same order, a value that was [None] now the float NaN.
    "Within the retention window" is over the readings of the clock that
    the two calls take: no file changes status, and what the first call
    stamps is still fresh at the second. *)
Lemma fetch_again_reads_back net1 net2 metric_key geography_level w records :
  fst (fetch_census_data py_float net1 metric_key geography_level w) = Ok records ->
  records <> [] ->
  disk_writable w = true ->
  steady
    (ticks (snd (fetch_census_data py_float net2 metric_key geography_level
                   (snd (fetch_census_data py_float net1 metric_key geography_level w)))))
    w ->
  within_window
    (ticks (snd (fetch_census_data py_float net2 metric_key geography_level
                   (snd (fetch_census_data py_float net1 metric_key geography_level w)))))
    w ->
  fst (fetch_census_data py_float net2 metric_key geography_level
         (snd (fetch_census_data py_float net1 metric_key geography_level w))) =
    Ok (map (@read_value V _) records) /\
  requests_sent
    (snd (fetch_census_data py_float net2 metric_key geography_level
            (snd (fetch_census_data py_float net1 metric_key geography_level w)))) =
  requests_sent (snd (fetch_census_data py_float net1 metric_key geography_level w)).
Proof.
  intros H1 Hne Hd Hs Hw.
  set (key := cache_key_of metric_key geography_level).
  pose proof (fetch_ticks py_float net2 metric_key geography_level
                (snd (fetch_census_data py_float net1 metric_key geography_level w)))
    as Hh.
  set (h := ticks (snd (fetch_census_data py_float net2 metric_key geography_level
                          (snd (fetch_census_data py_float net1 metric_key
                                  geography_level w))))) in *.
  clearbody h.
  assert (Hwarm : dict_get key
                    (fst (load_cache
                            (snd (fetch_census_data py_float net1 metric_key
                                    geography_level w)))) =
                  Some (map (@read_value V _) records)).
  { revert H1 Hh. rewrite fetch_unfold. cbv zeta. fold key.
    destruct (load_cache_spec w) as (_ & A & _).
    pose proof (load_cache_ticks w) as Tl.
    destruct (dict_get key (fst (load_cache w))) as [cached|] eqn:Hhit.
    - (* the first call is a hit *)
      cbn [fst snd]. intros [= ->] Hh.
      rewrite (load_cache_steady Hs (advances_follows A) Hh).
      pose proof Hhit as Hread. apply loaded_read in Hread.
      rewrite Hread. exact Hhit.
    - (* the first call goes to the network *)
      destruct (dict_get metric_key SDOH_METRICS) as [metric|];
        [|discriminate].
      pose proof (fetch_try_cases py_float net1 key (fst (load_cache w)) metric
                    geography_level (snd (load_cache w))) as Hcases.
      cbv zeta in Hcases.
      destruct Hcases
        as [[_ [E | [e E]]]
           | (status & data & rows & processed & _ & _ & _ & Hp & E & Ew)];
        rewrite E.
      + cbn. congruence.
      + destruct e; cbn; congruence.
      + cbn [fst snd]. intros [= ->]. rewrite Ew. intros Hh.
        destruct (requests_get_spec net1 (build_request metric geography_level)
                    (snd (load_cache w))) as (_ & S2 & C2 & K2 & T2 & _).
        destruct A as (S1 & C1 & K1 & _ & L1).
        set (sent := snd (requests_get net1 (build_request metric geography_level)
                            (snd (load_cache w)))) in *.
        set (saved := dict_set key records (fst (load_cache w))) in *.
        assert (Hk : clock sent = clock w) by congruence.
        assert (Ht : (ticks w <= ticks sent)%nat) by lia.
        destruct (save_cache_frame saved sent) as (_ & _ & _ & Tlt & _).
        destruct (load_cache_spec (snd (save_cache saved sent)))
          as (_ & (_ & _ & _ & _ & Tle) & _).
        cbv zeta in Tlt.
        apply process_rows_normal with (which := kind_of_key key) in Hp.
        rewrite <- (read_record_normal _ Hp).
        apply save_cache_readable.
        * change (disk_writable sent) with (disk_writable (snd (load_cache w))).
          now rewrite load_cache_writable.
        * rewrite dict_get_update
            by (apply NoDup_dict_set, NoDup_load_cache).
          unfold saved. now rewrite dict_get_set_eq.
        * exact Hne.
        * intros n Hn. rewrite Hk. apply Hw; lia.
        * intros _ n Hn. rewrite Hk, C2, C1.
          change (county_cache_file w) with (file_of CountyCache w).
          rewrite steady_rows with (h := h) by (assumption || lia).
          rewrite dict_get_load_cache in Hhit. cbv zeta in Hhit.
          change (county_cache_file w) with (file_of CountyCache w) in Hhit.
          pose proof (county_tick_bounds w).
          rewrite steady_rows with (h := h) (n := county_tick w) in Hhit.
          -- destruct (has_key key (rows_if_fresh _ (file_of CountyCache w)));
               [discriminate | reflexivity].
          -- assumption.
          -- lia.
          -- intros Hst. cbn [file_of] in Hst.
             unfold after_load in Tl.
             destruct (file_stamp (county_cache_file w)); [lia | congruence]. }
  rewrite fetch_unfold. cbv zeta. fold key. rewrite Hwarm. cbn [fst snd].
  split; [reflexivity|].
  destruct (load_cache_spec
              (snd (fetch_census_data py_float net1 metric_key geography_level w)))
    as (_ & (_ & _ & _ & R & _) & _).
  exact R.
Qed.

(** C9 (as amended): a put keeps every other key that is readable at the
    time of the write, with the same records, and stamps the file of each
    kept entry with the time of the write; an expired entry is treated as
    absent on read, and the entries of an expired file are dropped when that
    file is rewritten, which any put with a record for a key of the file's
    kind does, whatever the key.  (The files are as [save_cache] writes
    them, the disk accepts the write, and the put and the read that follows
    it happen within the retention window.) *)
Theorem save_cache_keeps_readable_drops_expired data w :
  well_sorted w ->
  disk_writable w = true ->
  NoDup (dict_keys data) ->
  steady (ticks (snd (load_cache (snd (save_cache data w))))) w ->
  within_window (ticks (snd (load_cache (snd (save_cache data w))))) w ->
  (forall k recs,
      dict_get k data = None ->
      dict_get k (fst (load_cache w)) = Some recs ->
      dict_get k (fst (load_cache (snd (save_cache data w)))) = Some recs /\
      forall r, In r (file_rows (file_of (kind_of_key k) (snd (save_cache data w)))) ->
                timestamp r = Some (clock w (ticks w))) /\
  (forall which ts k recs,
      file_stamp (file_of which w) = Some ts ->
      cache_duration <= clock w (ticks w) - ts ->
      dict_get k data = Some recs ->
      recs <> [] ->
      kind_of_key k = which ->
      exists rows,
        file_of which (snd (save_cache data w)) = Some (Table rows) /\
        has_key k rows = true /\
        forall r, In r rows -> In (cache_key r) (dict_keys data)).
Proof.
  intros Hws Hd Hnd Hs Hw.
  destruct (datetime_now_spec w) as (_ & A0 & T0).
  destruct (save_cache_frame data w) as (_ & _ & Tsave & Tlt & _).
  destruct (load_cache_spec (snd (save_cache data w)))
    as (_ & (_ & _ & _ & _ & Tle) & _).
  cbv zeta in Tsave, Tlt.
  set (h := ticks (snd (load_cache (snd (save_cache data w))))) in *.
  assert (Hex : fst (load_cache (snd (datetime_now w))) = fst (load_cache w)).
  { apply (load_cache_steady Hs (advances_follows A0)). lia. }
  split.
  - intros k recs Hnew Hold.
    assert (Hget : dict_get k (dict_update (fst (load_cache (snd (datetime_now w))))
                                 data) = Some recs)
      by (rewrite dict_get_update_absent by assumption; now rewrite Hex).
    assert (Hne : recs <> []) by now apply loaded_nonempty in Hold.
    assert (Hnorm : map (read_record (kind_of_key k)) recs = recs)
      by now apply loaded_normal with (w := w).
    split.
    + rewrite <- Hnorm. apply save_cache_readable.
      * exact Hd.
      * exact Hget.
      * exact Hne.
      * intros n Hn. apply Hw; fold h in Hn; lia.
      * intros Ek n Hn.
        destruct (has_key k (rows_if_fresh (clock w n) (county_cache_file w))) eqn:E;
          [|reflexivity].
        apply (@fresh_key_kind _ w CountyCache _ _ Hws) in E.
        unfold kind_of_key in E. rewrite Ek in E. discriminate.
    + intros r. rewrite (@save_cache_rewrites _ _ data w k recs Hd Hget Hne).
      cbn [file_rows]. intros Hin. now apply rows_of_in in Hin.
  - intros which ts k recs Hstamp Hexp Hk Hne Hkind.
    destruct (save_cache_spec data w Hd) as (Fs & Fc). cbv zeta in Fs, Fc.
    rewrite Hex in Fs, Fc.
    set (ed := dict_update (fst (load_cache w)) data) in *.
    assert (Hed : NoDup (dict_keys ed))
      by (apply NoDup_dict_update, NoDup_load_cache).
    assert (Hget : dict_get k ed = Some recs)
      by (unfold ed; rewrite dict_get_update by assumption; now rewrite Hk).
    (* no key of the expired file is readable *)
    assert (Hdead : forall n, (ticks w <= n < h)%nat ->
                              rows_if_fresh (clock w n) (file_of which w) = []).
    { intros n Hn. rewrite (rows_if_fresh_stamped _ _ Hstamp).
      rewrite (Hs which ts Hstamp n Hn).
      assert (E : (clock w (ticks w) - ts <? cache_duration) = false)
        by (apply Z.ltb_ge; lia).
      now rewrite E. }
    assert (Hload : (after_load w <= h)%nat).
    { destruct (after_load_follows (advances_follows A0)) as [_ Ha].
      rewrite load_cache_ticks in Tsave. lia. }
    assert (Hgone : forall k', kind_of_key k' = which ->
                               In k' (dict_keys (fst (load_cache w))) -> False).
    { intros k' Hkind' Hin. apply dict_get_None_iff in Hin; [exact Hin|].
      rewrite dict_get_load_cache. cbv zeta.
      pose proof (county_tick_bounds w) as Hb.
      destruct (has_key k' (rows_if_fresh _ (county_cache_file w))) eqn:Ec.
      { pose proof (@fresh_key_kind _ w CountyCache _ _ Hws Ec) as Hc.
        rewrite Hkind' in Hc. rewrite Hc in Hdead, Hstamp.
        cbn [file_of] in Hdead, Hstamp.
        rewrite Hdead in Ec; [discriminate|].
        unfold after_load in Hload. rewrite Hstamp in Hload. lia. }
      destruct (has_key k' (rows_if_fresh _ (state_cache_file w))) eqn:Es;
        [|reflexivity].
      pose proof (@fresh_key_kind _ w StateCache _ _ Hws Es) as Hc.
      rewrite Hkind' in Hc. rewrite Hc in Hdead.
      cbn [file_of] in Hdead. rewrite Hdead in Es by lia. discriminate. }
    assert (Hfrom : forall q : string -> bool,
               (forall k', q k' = true -> kind_of_key k' = which) ->
               forall r,
                 In r (rows_of (clock w (ticks w))
                         (filter (fun kv : string * list (record V) => q (fst kv)) ed)) ->
                 In (cache_key r) (dict_keys data)).
    { intros q Hq r Hin. apply rows_of_in in Hin. destruct Hin as [Hin _].
      pose proof (dict_keys_filter_key _ _ _ Hin) as Hqk.
      apply dict_keys_filter_in in Hin.
      apply dict_keys_update_in in Hin. destruct Hin as [Hin|Hin]; [|exact Hin].
      exfalso. apply (Hgone (cache_key r)); [now apply Hq | exact Hin]. }
    clear Hdead Hgone Hstamp.
    unfold kind_of_key in Hkind.
    destruct (endswith k "_state") eqn:Ek; subst which; cbn [file_of].
    + set (rows := rows_of (clock w (ticks w)) (filter (@is_state_key V) ed)) in *.
      assert (Hks : has_key k rows = true).
      { unfold rows. rewrite has_key_rows_of by now apply NoDup_keys_filter.
        unfold is_state_key.
        rewrite (dict_get_filter (fun s => endswith s "_state")), Ek, Hget.
        destruct recs; [congruence | reflexivity]. }
      rewrite (has_key_not_nil _ _ Hks) in Fs.
      exists rows. split; [exact Fs|]. split; [exact Hks|].
      apply (Hfrom (fun s => endswith s "_state")).
      intros k' E. unfold kind_of_key. now rewrite E.
    + set (rows := rows_of (clock w (ticks w))
                     (filter (fun kv : string * list (record V) =>
                                negb (is_state_key kv)) ed)) in *.
      assert (Hkc : has_key k rows = true).
      { unfold rows. rewrite has_key_rows_of by now apply NoDup_keys_filter.
        unfold is_state_key.
        rewrite (dict_get_filter (fun s => negb (endswith s "_state"))), Ek, Hget.
        destruct recs; [congruence | reflexivity]. }
      rewrite (has_key_not_nil _ _ Hkc) in Fc.
      exists rows. split; [exact Fc|]. split; [exact Hkc|].
      apply (Hfrom (fun s => negb (endswith s "_state"))).
      intros k' E. unfold kind_of_key.
      destruct (endswith k' "_state"); [discriminate | reflexivity].
Qed.

End Properties.

(** * Further facts *)

(** ** More on strings and cache keys *)

Lemma string_app_assoc (a b c : string) : ((a ++ b) ++ c = a ++ (b ++ c))%string.
Proof. induction a; simpl; congruence. Qed.

Lemma substring_app_right (a b : string) i n :
  substring (String.length a + i) n (a ++ b) = substring i n b.
Proof. induction a; simpl; auto. Qed.

(** A suffix no longer than the last part is looked for in the last part. *)
Lemma endswith_app (a h suffix : string) :
  (String.length suffix <= String.length h)%nat ->
  endswith (a ++ h) suffix = endswith h suffix.
Proof.
  intros H. unfold endswith. rewrite length_string_app.
  replace (String.length a + String.length h - String.length suffix)%nat
    with (String.length a + (String.length h - String.length suffix))%nat by lia.
  rewrite substring_app_right.
  destruct (Nat.leb_spec (String.length suffix) (String.length h)); [|lia].
  destruct (Nat.leb_spec (String.length suffix)
              (String.length a + String.length h)); [reflexivity|lia].
Qed.

Lemma endswith_short (s suffix : string) :
  (String.length s < String.length suffix)%nat -> endswith s suffix = false.
Proof.
  intros H. unfold endswith.
  destruct (Nat.leb_spec (String.length suffix) (String.length s)); [lia|reflexivity].
Qed.

Lemma string_split_right (s : string) n :
  (n <= String.length s)%nat ->
  exists a b, s = (a ++ b)%string /\ String.length b = n.
Proof.
  induction s as [|c s IH]; intros H.
  - exists EmptyString, EmptyString. simpl in *. split; [reflexivity|lia].
  - destruct (Nat.eq_dec n (String.length (String c s))) as [->|Hn].
    + exists EmptyString, (String c s). split; reflexivity.
    + destruct IH as (a & b & -> & Hb); [simpl in *; lia|].
      exists (String c a), b. split; [reflexivity|exact Hb].
Qed.

Ltac decide_chars :=
  repeat match goal with
         | |- context [Ascii.eqb ?a ?b] => destruct (Ascii.eqb a b)
         end;
  try reflexivity.

(** A scope of five characters or more: the key ends in [_state] when the
    scope is [state] or ends in [_state] itself. *)
Lemma endswith_state_long (g : string) :
  (5 <= String.length g)%nat ->
  endswith (String "_" g) "_state" =
  String.eqb g "state" || endswith g "_state".
Proof.
  intros H.
  destruct g as [|c1 [|c2 [|c3 [|c4 [|c5 rest]]]]]; simpl in H; try lia.
  destruct rest as [|c6 rest].
  - cbn. decide_chars.
  - change (String "_" ?s) with ("_" ++ s)%string at 1.
    rewrite endswith_app by (simpl; lia).
    replace (String.eqb _ "state") with false; [reflexivity|].
    cbn. decide_chars.
Qed.

(** A scope of less than five characters: the key does not end in [_state],
    whatever the name of the metric. *)
Lemma endswith_state_short (m g : string) :
  (String.length g < 5)%nat ->
  endswith (m ++ String "_" g) "_state" = false.
Proof.
  intros H.
  destruct (Nat.le_gt_cases (5 - String.length g) (String.length m)) as [Hm|Hm].
  - destruct (string_split_right m Hm) as (a & b & -> & Hb).
    rewrite string_app_assoc, endswith_app
      by (rewrite length_string_app; simpl; lia).
    destruct g as [|c1 [|c2 [|c3 [|c4 [|c5 rest]]]]]; simpl in H; try lia;
      simpl in Hb;
      destruct b as [|d1 [|d2 [|d3 [|d4 [|d5 [|d6 b]]]]]]; simpl in Hb; try lia;
      cbn; decide_chars.
  - apply endswith_short. rewrite length_string_app. simpl. lia.
Qed.

Lemma endswith_cache_key (metric_key geography_level : string) :
  endswith (cache_key_of metric_key geography_level) "_state" =
  String.eqb geography_level "state" || endswith geography_level "_state".
Proof.
  unfold cache_key_of.
  change ("_" ++ geography_level)%string with (String "_" geography_level).
  destruct (Nat.le_gt_cases 5 (String.length geography_level)) as [H|H].
  - rewrite endswith_app by (simpl; lia). now apply endswith_state_long.
  - rewrite endswith_state_short by exact H.
    rewrite endswith_short by (simpl; lia).
    destruct geography_level as [|c1 [|c2 [|c3 [|c4 [|c5 rest]]]]];
      simpl in H; try lia; cbn; decide_chars.
Qed.

(** ** More on the pipeline *)

Section PipelineFacts.

Context {V : Type} {nan_V : NaN V}.
Variable py_float : json -> result V.
Implicit Types (w : world V) (cd data : dict (list (record V))).

Lemma dict_get_in_keys {A : Type} k (d : dict A) v :
  dict_get k d = Some v -> In k (dict_keys d).
Proof.
  intros H. destruct (in_dec string_dec k (dict_keys d)) as [Hin|Hin];
    [exact Hin|].
  apply dict_get_None_iff in Hin. congruence.
Qed.

(** The keys of the jurisdiction map have one or two characters. *)
Lemma mapped_code_short s :
  dict_mem s FIPS_TO_ABBREV = true -> (String.length s <= 2)%nat.
Proof.
  unfold dict_mem. destruct (dict_get s FIPS_TO_ABBREV) as [a|] eqn:E;
    [|discriminate].
  intros _. apply dict_get_in_keys in E. simpl in E.
  repeat (destruct E as [<-|E]; [simpl; lia|]). contradiction.
Qed.

Lemma process_row_canonical geography_level row r :
  process_row py_float geography_level row = Ok (Some r) ->
  canonical geography_level r.
Proof.
  unfold process_row.
  destruct (py_index row 0) as [x0|]; [|discriminate]. cbn [result_bind].
  destruct (if is_missing x0 then _ else _) as [value|]; [|discriminate].
  cbn [result_bind].
  destruct (py_index row 1) as [name|]; [|discriminate]. cbn [result_bind].
  destruct (String.eqb_spec geography_level "state") as [Hg|Hg].
  - destruct (py_index row 2) as [x2|]; [|discriminate]. cbn [result_bind].
    destruct x2; try discriminate. cbn [py_zfill result_bind].
    destruct (dict_mem (zfill 2 s) FIPS_TO_ABBREV) eqn:Hmem; [|discriminate].
    cbn [negb]. intros [= <-]. simpl. split; [exact Hg|]. split; [|exact Hmem].
    pose proof (zfill_length 2 s). pose proof (mapped_code_short _ Hmem). lia.
  - destruct (py_index row 2) as [x2|]; [|discriminate]. cbn [result_bind].
    destruct x2; try discriminate. cbn [py_zfill result_bind].
    destruct (py_index row 3) as [x3|]; [|discriminate]. cbn [result_bind].
    destruct x3; try discriminate. cbn [py_zfill result_bind].
    intros [= <-]. simpl. split; [exact Hg|].
    split; apply zfill_length.
Qed.

Lemma process_rows_Forall (P : record V -> Prop) geography_level rows processed :
  (forall row r, process_row py_float geography_level row = Ok (Some r) -> P r) ->
  process_rows py_float geography_level rows = Ok processed ->
  Forall P processed.
Proof.
  intros HP. revert processed.
  induction rows as [|row rows IH]; simpl; intros processed H.
  - injection H as <-. constructor.
  - destruct (process_row py_float geography_level row) as [[r|]|e] eqn:E.
    + destruct (process_rows py_float geography_level rows) as [p|]; [|discriminate].
      simpl in H. injection H as <-. constructor; [now apply (HP row)|now apply IH].
    + now apply IH.
    + destruct (is_row_error e); [now apply IH | discriminate].
Qed.

Lemma process_rows_all_canonical geography_level rows processed :
  process_rows py_float geography_level rows = Ok processed ->
  Forall (canonical geography_level) processed.
Proof.
  apply process_rows_Forall. intros row r. apply process_row_canonical.
Qed.

(** A row that raises anything but [ValueError] or [IndexError] ends the
    loop, wherever it stands. *)
Lemma process_rows_raises geography_level rows row e :
  In row rows ->
  process_row py_float geography_level row = Raise e ->
  is_row_error e = false ->
  exists e', process_rows py_float geography_level rows = Raise e' /\
             is_row_error e' = false.
Proof.
  intros Hin Hrow He.
  induction rows as [|row' rows IH]; [contradiction|].
  simpl. destruct Hin as [->|Hin].
  - rewrite Hrow, He. now exists e.
  - destruct (IH Hin) as (e' & E & He'). rewrite E.
    destruct (process_row py_float geography_level row') as [[r|]|e0].
    + now exists e'.
    + now exists e'.
    + destruct (is_row_error e0) eqn:E0; [now exists e'|now exists e0].
Qed.

(** The [try] block on a body with data rows. *)
Lemma fetch_try_rows net key cd metric geography_level w status header row rows :
  net (build_request metric geography_level) =
    HttpResponse status (Some (JArr (header :: row :: rows))) ->
  is_error_status status = false ->
  let sent := snd (requests_get net (build_request metric geography_level) w) in
  fetch_try py_float net key cd metric geography_level w =
  match process_rows py_float geography_level (row :: rows) with
  | Raise e => (Raise e, sent)
  | Ok processed => (Ok processed, snd (save_cache (dict_set key processed cd) sent))
  end.
Proof.
  intros Hnet Hst. cbv zeta. unfold fetch_try, bind.
  destruct (requests_get net (build_request metric geography_level) w)
    as [resp sent] eqn:Hget.
  assert (Hresp : resp = net (build_request metric geography_level))
    by (unfold requests_get in Hget; now inversion Hget).
  rewrite Hnet in Hresp. subst resp. rewrite Hst.
  cbn [py_len py_slice_from_1 List.length tl snd].
  change (1 <? S (S (List.length rows)))%nat with true. cbv iota.
  destruct (process_rows py_float geography_level (row :: rows)) as [processed|e];
    [|reflexivity].
  destruct (save_cache (dict_set key processed cd) sent) as [[] w3]. reflexivity.
Qed.

(** The clock, and what a fetch leaves of the world it starts from. *)
Lemma st_notice_frame n w :
  let w' := snd (st_notice n w) in
  state_cache_file w' = state_cache_file w /\
  county_cache_file w' = county_cache_file w /\
  clock w' = clock w /\ ticks w' = ticks w /\
  requests_sent w' = requests_sent w /\ disk_writable w' = disk_writable w.
Proof. cbv zeta. unfold st_notice. simpl. repeat split. Qed.

Lemma fetch_clock net metric_key geography_level w :
  clock (snd (fetch_census_data py_float net metric_key geography_level w)) = clock w.
Proof.
  rewrite fetch_unfold. cbv zeta.
  destruct (load_cache_spec w) as (_ & (_ & _ & K1 & _ & _) & _).
  destruct (dict_get (cache_key_of _ _) _) as [records|]; [exact K1|].
  destruct (dict_get metric_key SDOH_METRICS) as [metric|]; [|exact K1].
  set (key := cache_key_of metric_key geography_level).
  assert (Kt : clock (snd (fetch_try py_float net key (fst (load_cache w)) metric
                             geography_level (snd (load_cache w)))) = clock w).
  { destruct (requests_get_spec net (build_request metric geography_level)
                (snd (load_cache w))) as (_ & _ & _ & K2 & _ & _).
    destruct (fetch_try_cases py_float net key (fst (load_cache w)) metric
                geography_level (snd (load_cache w)))
      as [[E _] | (status & body & rows & processed & _ & _ & _ & _ & _ & E)];
      rewrite E.
    - congruence.
    - destruct (save_cache_frame (dict_set key processed (fst (load_cache w)))
                  (snd (requests_get net (build_request metric geography_level)
                          (snd (load_cache w))))) as (K3 & _).
      congruence. }
  destruct (fst (fetch_try _ _ _ _ _ _ _)) as [records|e]; [exact Kt|].
  destruct e; exact Kt.
Qed.

(** A key that [load_cache] does not return is not returned later either,
    over files that are unchanged or hold no row of the key, as long as
    the clock does not run backwards. *)
Lemma unreadable_after w w' k :
  clock w' = clock w -> (after_load w <= ticks w')%nat -> monotone (clock w) ->
  (forall which,
      file_of which w' = file_of which w \/
      has_key k (file_rows (file_of which w')) = false) ->
  dict_get k (fst (load_cache w)) = None ->
  dict_get k (fst (load_cache w')) = None.
Proof.
  intros K T Hm Hfiles H.
  rewrite dict_get_load_cache in H |- *. cbv zeta in H |- *.
  destruct (has_key k (rows_if_fresh (clock w (county_tick w)) _)) eqn:Hc;
    [discriminate|].
  destruct (has_key k (rows_if_fresh (clock w (ticks w)) _)) eqn:Hs;
    [discriminate|].
  pose proof (county_tick_bounds w) as B. pose proof (county_tick_bounds w') as B'.
  assert (Ta : (county_tick w <= after_load w)%nat)
    by (unfold after_load; destruct (file_stamp (county_cache_file w)); lia).
  assert (Hgen : forall which n n',
             (n <= n')%nat ->
             has_key k (rows_if_fresh (clock w n) (file_of which w)) = false ->
             has_key k (rows_if_fresh (clock w n') (file_of which w')) = false).
  { intros which n n' Hn Hold.
    destruct (has_key k (rows_if_fresh (clock w n') (file_of which w'))) eqn:Hnew;
      [|reflexivity].
    destruct (Hfiles which) as [E|E].
    - rewrite E in Hnew.
      apply has_key_fresh_earlier with (now := clock w n) in Hnew;
        [congruence | now apply Hm].
    - apply has_key_fresh_file in Hnew. destruct Hnew as (Hnew & _). congruence. }
  rewrite K.
  assert (Hc' := Hgen CountyCache (county_tick w) (county_tick w')
                   ltac:(lia) Hc).
  assert (Hs' := Hgen StateCache (ticks w) (ticks w') ltac:(lia) Hs).
  cbn [file_of] in Hc', Hs'. now rewrite Hc', Hs'.
Qed.

(** The files after a save hold no row of a key whose entry is empty. *)
Lemma save_cache_empty_entry data w k :
  NoDup (dict_keys data) ->
  dict_get k data = Some [] ->
  forall which,
    file_of which (snd (save_cache data w)) = file_of which w \/
    has_key k (file_rows (file_of which (snd (save_cache data w)))) = false.
Proof.
  intros Hnd Hk which.
  destruct (disk_writable w) eqn:Hd.
  - destruct (save_cache_spec data w Hd) as (Fs & Fc). cbv zeta in Fs, Fc.
    set (ed := dict_update (fst (load_cache (snd (datetime_now w)))) data) in *.
    assert (Hed : NoDup (dict_keys ed))
      by (apply NoDup_dict_update, NoDup_load_cache).
    assert (Hget : dict_get k ed = Some []).
    { unfold ed. rewrite dict_get_update by exact Hnd. now rewrite Hk. }
    assert (Hno : forall (q : string -> bool),
               has_key k (rows_of (clock w (ticks w))
                            (filter (fun kv : string * list (record V) => q (fst kv)) ed))
               = false).
    { intros q. rewrite has_key_rows_of by now apply NoDup_keys_filter.
      rewrite (dict_get_filter q), Hget. now destruct (q k). }
    destruct which; cbn [file_of].
    + rewrite Fs.
      match goal with |- context [is_nil ?x] => destruct (is_nil x) end;
        [now left|right].
      exact (Hno (fun s => endswith s "_state")).
    + rewrite Fc.
      match goal with |- context [is_nil ?x] => destruct (is_nil x) end;
        [now left|right].
      exact (Hno (fun s => negb (endswith s "_state"))).
  - left. destruct (save_cache_refused data w Hd) as (Fs & Fc).
    destruct which; assumption.
Qed.

Lemma canonical_state_records rows records :
  process_rows py_float "state" rows = Ok records ->
  forallb has_fips records = true /\
  forall name fips value,
    In (StateRecord name fips value) records ->
    String.length fips = 2%nat /\ dict_mem fips FIPS_TO_ABBREV = true.
Proof.
  intros H. apply process_rows_all_canonical in H.
  rewrite Forall_forall in H. split.
  - apply forallb_forall. intros r Hr. specialize (H r Hr).
    destruct r as [n f x|n c s x]; [reflexivity|]. now destruct H as (H & _).
  - intros name fips value Hin. specialize (H _ Hin). simpl in H. tauto.
Qed.

End PipelineFacts.

Section StoreFacts.

Context {V : Type} {nan_V : NaN V}.
Implicit Types (w : world V) (cd data : dict (list (record V))).

Lemma load_cache_file_notices which cd w :
  notices (snd (load_cache_file which cd w)) =
  (notices w ++ load_warning which w)%list.
Proof.
  unfold load_cache_file, load_warning, file_corrupt, bind, read_file, file_of.
  destruct which;
    [destruct (state_cache_file w) as [[|[|first rest]]|]
    |destruct (county_cache_file w) as [[|[|first rest]]|]];
    cbn; rewrite ?app_nil_r; try reflexivity;
    destruct (timestamp first); cbn; rewrite ?app_nil_r; try reflexivity;
    destruct (_ <? _); cbn; rewrite ?app_nil_r; reflexivity.
Qed.

Lemma load_cache_notices w :
  notices (snd (load_cache w)) =
  (notices w ++ load_warning StateCache w ++ load_warning CountyCache w)%list.
Proof.
  unfold load_cache, bind.
  pose proof (load_cache_file_notices StateCache [] w) as N1.
  destruct (load_cache_file_spec StateCache [] w) as (_ & A & _).
  destruct (load_cache_file StateCache [] w) as [cd w1]. cbn [snd] in N1, A.
  rewrite load_cache_file_notices, N1, <- app_assoc.
  unfold load_warning. now rewrite (advances_file CountyCache A).
Qed.

Lemma corrupt_unstamped (f : option (csv_file V)) :
  file_corrupt f = true -> file_stamp f = None.
Proof.
  destruct f as [[|[|first rest]]|]; simpl; try reflexivity; try discriminate.
  now destruct (timestamp first).
Qed.

(** A save on a disk that refuses writes: a warning, when there was a row
    to write. *)
Lemma save_rows_refused which ts data w :
  disk_writable w = false ->
  save_rows which ts data w =
  (if is_nil (rows_of ts data) then Ok tt else Raise OSError, w).
Proof.
  intros Hd. unfold save_rows, write_file, ret.
  destruct data as [|kv data]; [reflexivity|]. cbn [is_nil].
  destruct (is_nil (rows_of ts (kv :: data))); [reflexivity|].
  now rewrite Hd.
Qed.

Lemma save_cache_refused_notices data w k recs :
  disk_writable w = false ->
  NoDup (dict_keys data) ->
  dict_get k data = Some recs -> recs <> [] ->
  In WarnSavingCache (notices (snd (save_cache data w))).
Proof.
  intros Hd Hnd Hk Hne. unfold save_cache, bind.
  assert (D0 : disk_writable (snd (datetime_now w)) = disk_writable w)
    by reflexivity.
  destruct (datetime_now w) as [ts w0]. cbn [snd] in D0.
  pose proof (load_cache_writable w0) as D1.
  pose proof (NoDup_load_cache w0) as Hl.
  destruct (load_cache w0) as [existing w1]. cbn [fst snd] in *.
  assert (Hd1 : disk_writable w1 = false) by congruence.
  set (ed := dict_update existing data).
  assert (Hed : NoDup (dict_keys ed)) by now apply NoDup_dict_update.
  assert (Hget : dict_get k ed = Some recs).
  { unfold ed. rewrite dict_get_update by exact Hnd. now rewrite Hk. }
  rewrite save_rows_refused by exact Hd1.
  assert (Hwarn : In WarnSavingCache (notices (snd (st_notice WarnSavingCache w1))))
    by (simpl; apply in_or_app; right; now left).
  destruct (is_nil (rows_of ts (filter (@is_state_key V) ed))) eqn:Es;
    [|exact Hwarn].
  rewrite save_rows_refused by exact Hd1.
  destruct (is_nil (rows_of ts (filter (fun kv => negb (is_state_key kv)) ed)))
    eqn:Ec; [|exact Hwarn].
  exfalso.
  destruct (has_key k (rows_of ts (filter (@is_state_key V) ed))) eqn:Hs;
    [apply has_key_not_nil in Hs; congruence|].
  destruct (has_key k (rows_of ts (filter (fun kv : string * list (record V) =>
                                             negb (is_state_key kv)) ed))) eqn:Hc;
    [apply has_key_not_nil in Hc; congruence|].
  rewrite has_key_rows_of in Hs, Hc by now apply NoDup_keys_filter.
  unfold is_state_key in Hs, Hc.
  rewrite (dict_get_filter (fun s => endswith s "_state")) in Hs.
  rewrite (dict_get_filter (fun s => negb (endswith s "_state"))) in Hc.
  rewrite Hget in Hs, Hc.
  destruct recs; [congruence|].
  destruct (endswith k "_state"); discriminate.
Qed.


End StoreFacts.

Section IsolationFacts.

Context {V : Type} {nan_V : NaN V}.
Variable py_float : json -> result V.
Implicit Types (w : world V) (cd data : dict (list (record V))).

(** The world a fetch leaves: the files of the start, or the files of a
    save of the loaded entries with the processed rows under the key. *)
Lemma fetch_world_cases net metric_key geography_level w :
  let wf := snd (fetch_census_data py_float net metric_key geography_level w) in
  follows w wf \/
  exists processed sent,
    follows w sent /\ disk_writable sent = disk_writable w /\
    (forall which,
        file_of which wf =
        file_of which
          (snd (save_cache
                  (dict_set (cache_key_of metric_key geography_level) processed
                     (fst (load_cache w))) sent))) /\
    ticks wf =
      ticks (snd (save_cache
                    (dict_set (cache_key_of metric_key geography_level) processed
                       (fst (load_cache w))) sent)) /\
    clock wf = clock w.
Proof.
  cbv zeta.
  pose proof (fetch_clock py_float net metric_key geography_level w) as Kf.
  revert Kf. rewrite fetch_unfold. cbv zeta.
  destruct (load_cache_spec w) as (_ & A & _).
  pose proof (advances_follows A) as F1.
  set (key := cache_key_of metric_key geography_level).
  destruct (dict_get key (fst (load_cache w))) as [records|]; [now left|].
  destruct (dict_get metric_key SDOH_METRICS) as [metric|]; [|now left].
  set (sent := snd (requests_get net (build_request metric geography_level)
                      (snd (load_cache w)))).
  assert (Fs : follows w sent).
  { apply follows_trans with (w2 := snd (load_cache w)); [exact F1|].
    unfold sent, requests_get, follows. simpl. repeat split. lia. }
  assert (Ds : disk_writable sent = disk_writable w)
    by (unfold sent; simpl; apply load_cache_writable).
  set (tried := fetch_try py_float net key (fst (load_cache w)) metric
                  geography_level (snd (load_cache w))).
  destruct (fetch_try_cases py_float net key (fst (load_cache w)) metric
              geography_level (snd (load_cache w)))
    as [[Ew _] | (status & body & rows & processed & _ & _ & _ & _ & E & Ew)];
    fold tried sent in Ew.
  - intros Kf. left.
    assert (Hn : forall n, follows w (snd (st_notice n (snd tried)))).
    { intros n. rewrite Ew. destruct Fs as (S1 & C1 & K1 & T1).
      unfold st_notice, follows. simpl. repeat split; assumption. }
    destruct (fst tried) as [records|e]; [rewrite Ew; exact Fs|].
    destruct e; apply Hn.
  - fold tried in E. rewrite E. cbn [fst snd]. intros Kf. right.
    rewrite Ew in Kf |- *. exists processed, sent.
    split; [exact Fs|]. split; [exact Ds|]. split; [reflexivity|].
    split; [reflexivity|exact Kf].
Qed.

(** Over unchanged files a later world follows the start. *)
Lemma follows_unchanged w w' :
  (forall which, file_of which w' = file_of which w) ->
  clock w' = clock w -> (ticks w <= ticks w')%nat -> follows w w'.
Proof.
  intros Hf K T. unfold follows.
  split; [exact (Hf StateCache)|]. split; [exact (Hf CountyCache)|]. now split.
Qed.

End IsolationFacts.

(** * Further properties of the pipeline and the cache *)

Section Further.

Context {V : Type} {nan_V : NaN V}.
Variable py_float : json -> result V.
Implicit Types (w : world V) (cd data : dict (list (record V))).

(** X1: every record that leaves the row loop carries canonical codes.  At
    state level it is a state record whose code has exactly two characters
    and is a key of the jurisdiction map; at county level it is a county
    record whose state code has at least two characters and whose county
    code has at least three. *)
Theorem processed_records_are_canonical geography_level rows processed :
  process_rows py_float geography_level rows = Ok processed ->
  Forall (canonical geography_level) processed.
Proof. apply process_rows_all_canonical. Qed.

(** X2: padding a code to two characters, as the pipeline and the loader
    do, does not change what the jurisdiction map answers: the raw code and
    the padded code have the same abbreviation, or both have none. *)
Theorem padding_keeps_abbreviation (s : string) :
  dict_get (zfill 2 s) FIPS_TO_ABBREV = dict_get s FIPS_TO_ABBREV.
Proof.
  destruct s as [|c [|c2 rest]].
  - reflexivity.
  - destruct c as [[] [] [] [] [] [] [] []]; vm_compute; reflexivity.
  - rewrite zfill_long by (simpl; lia). reflexivity.
Qed.

(** X3: the file an entry is saved to depends on the scope of the fetch
    alone, never on the name of the metric: the state file when the scope
    is [state] (or itself ends in [_state]), the county file otherwise. *)
Theorem cache_file_decided_by_scope (metric_key geography_level : string) :
  kind_of_key (cache_key_of metric_key geography_level) =
  if String.eqb geography_level "state" || endswith geography_level "_state"
  then StateCache else CountyCache.
Proof. unfold kind_of_key. now rewrite endswith_cache_key. Qed.

(** X4: a call sends at most one request, and never retries: exactly one,
    the request of the metric and the scope, when the key is not read from
    the cache and the metric is registered, and none otherwise. *)
Theorem fetch_sends_at_most_one_request net metric_key geography_level w :
  requests_sent (snd (fetch_census_data py_float net metric_key geography_level w)) =
  match dict_get (cache_key_of metric_key geography_level) (fst (load_cache w)),
        dict_get metric_key SDOH_METRICS with
  | None, Some metric =>
      (requests_sent w ++ [build_request metric geography_level])%list
  | _, _ => requests_sent w
  end.
Proof.
  destruct (load_cache_spec w) as (_ & (_ & _ & _ & R1 & _) & _).
  destruct (dict_get (cache_key_of _ _) _) as [records|] eqn:Hk.
  - rewrite fetch_unfold. cbv zeta. now rewrite Hk.
  - destruct (dict_get metric_key SDOH_METRICS) as [metric|] eqn:Hm.
    + now apply fetch_miss_requests.
    + rewrite fetch_unfold. cbv zeta. now rewrite Hk, Hm.
Qed.

(** X5: the row loop only survives [ValueError] and [IndexError].  A row
    that raises anything else (a code that is not a string, say) ends the
    whole fetch: the records of the other rows are lost, the result is the
    empty list and no file is written. *)
Theorem unexpected_row_error_aborts_fetch
  net metric_key geography_level w metric status header rows row e :
  dict_get (cache_key_of metric_key geography_level) (fst (load_cache w)) = None ->
  dict_get metric_key SDOH_METRICS = Some metric ->
  net (build_request metric geography_level) =
    HttpResponse status (Some (JArr (header :: rows))) ->
  is_error_status status = false ->
  In row rows ->
  process_row py_float geography_level row = Raise e ->
  is_row_error e = false ->
  fst (fetch_census_data py_float net metric_key geography_level w) = Ok [] /\
  forall which,
    file_of which (snd (fetch_census_data py_float net metric_key geography_level w)) =
    file_of which w.
Proof.
  intros Hmiss Hreg Hnet Hst Hin Hrow He.
  destruct (process_rows_raises py_float geography_level rows row Hin Hrow He)
    as (e' & Hp & He').
  rewrite fetch_unfold. cbv zeta. rewrite Hmiss, Hreg.
  destruct rows as [|row0 rows0]; [contradiction|].
  rewrite fetch_try_rows with (status := status) (header := header)
                              (row := row0) (rows := rows0) by assumption.
  rewrite Hp. cbn [fst snd].
  destruct (load_cache_spec w) as (_ & A & _).
  assert (Hf : forall which n,
             file_of which
               (snd (st_notice n
                       (snd (requests_get net (build_request metric geography_level)
                               (snd (load_cache w)))))) = file_of which w).
  { intros which n. rewrite <- (advances_file which A). now destruct which. }
  destruct e'; (split; [reflexivity|]); intros which; apply Hf.
Qed.

(** X6: a row that is too short is skipped on its own: with fewer than three
    cells at state level, or fewer than four at county level, the row
    leaves no record and the loop goes on with the next row.  (The cells
    are strings, on which [float] raises nothing but [ValueError].) *)
Theorem short_row_is_skipped geography_level cells rows :
  (forall s e, py_float (JStr s) = Raise e -> e = ValueError) ->
  (List.length cells < if String.eqb geography_level "state" then 3 else 4)%nat ->
  process_rows py_float geography_level (JArr (map JStr cells) :: rows) =
  process_rows py_float geography_level rows.
Proof.
  intros Hfloat Hlen.
  assert (Hval : forall c,
             (exists value,
                 (if is_missing (JStr c) then Ok None
                  else v <~ py_float (JStr c) ;; Ok (Some v)) = Ok value) \/
             (if is_missing (JStr c) then Ok None
              else v <~ py_float (JStr c) ;; Ok (Some v)) = Raise ValueError).
  { intros c. destruct (is_missing (JStr c)); [left; now exists None|].
    destruct (py_float (JStr c)) as [v|e] eqn:E.
    - left. now exists (Some v).
    - right. now rewrite (Hfloat _ _ E). }
  cbn [process_rows]. unfold process_row.
  destruct cells as [|c0 cells]; [reflexivity|].
  cbn [map py_index nth_error result_bind].
  destruct (Hval c0) as [[value ->] | ->]; [|reflexivity].
  cbn [result_bind].
  destruct cells as [|c1 cells]; [reflexivity|].
  cbn [map nth_error result_bind].
  destruct cells as [|c2 cells];
    [destruct (String.eqb geography_level "state"); reflexivity|].
  cbn [map nth_error result_bind py_zfill].
  destruct (String.eqb geography_level "state"); [simpl in Hlen; lia|].
  cbn [result_bind].
  destruct cells as [|c3 cells]; [reflexivity|simpl in Hlen; lia].
Qed.

(** X7: an empty result is never cached.  Whatever made the call return
    the empty list (a failed request, a body without data rows, rows that
    are all dropped or skipped, an error while processing), the key is not
    read from the cache by any later call, so the next fetch asks the
    network again. *)
Theorem empty_result_is_never_cached net metric_key geography_level w :
  fst (fetch_census_data py_float net metric_key geography_level w) = Ok [] ->
  monotone (clock w) ->
  forall w',
    follows (snd (fetch_census_data py_float net metric_key geography_level w)) w' ->
    dict_get (cache_key_of metric_key geography_level) (fst (load_cache w')) = None.
Proof.
  intros Hres Hm w' (Fs & Fc & K & T).
  pose proof (fetch_clock py_float net metric_key geography_level w) as Kf.
  pose proof (fetch_ticks py_float net metric_key geography_level w) as Tf.
  rewrite load_cache_ticks in Tf.
  set (key := cache_key_of metric_key geography_level) in *.
  assert (Hfiles : forall which, file_of which w' =
            file_of which
              (snd (fetch_census_data py_float net metric_key geography_level w)))
    by (intros which; destruct which; assumption).
  revert Hres Hfiles. rewrite fetch_unfold. cbv zeta. fold key.
  destruct (load_cache_spec w) as (_ & A & _).
  assert (Hl : forall which, file_of which (snd (load_cache w)) = file_of which w)
    by (intros which; now apply advances_file).
  destruct (dict_get key (fst (load_cache w))) as [records|] eqn:Hmiss.
  { intros [= ->]. now apply loaded_nonempty in Hmiss. }
  destruct (dict_get metric_key SDOH_METRICS) as [metric|]; [|discriminate].
  set (sent := snd (requests_get net (build_request metric geography_level)
                      (snd (load_cache w)))).
  assert (Hsent : forall which, file_of which sent = file_of which w)
    by (intros which; rewrite <- Hl; now destruct which).
  set (tried := fetch_try py_float net key (fst (load_cache w)) metric
                  geography_level (snd (load_cache w))).
  intros Hres Hfiles.
  apply unreadable_after with (w := w); try assumption; [congruence|lia|].
  intros which. rewrite Hfiles.
  destruct (fetch_try_cases py_float net key (fst (load_cache w)) metric
              geography_level (snd (load_cache w)))
    as [[Ew _] | (status & body & rows & processed & _ & _ & _ & _ & E & Ew)];
    fold tried sent in Ew.
  - left.
    assert (Hs : file_of which (snd tried) = file_of which w)
      by (rewrite Ew; apply Hsent).
    destruct (fst tried) as [records|e]; [exact Hs|].
    destruct e, which; exact Hs.
  - fold tried in E. rewrite E in Hres |- *. cbn [fst snd] in Hres |- *.
    injection Hres as ->. rewrite Ew, <- Hsent.
    apply save_cache_empty_entry.
    + apply NoDup_dict_set, NoDup_load_cache.
    + apply dict_get_set_eq.
Qed.

(** X8: a disk that refuses the write costs nothing but the cache.  The
    call still returns the processed records; the files are as before; a
    warning is shown when there was a record to save; and since nothing
    was stored, a later call does not find the key. *)
Theorem refused_write_is_best_effort
  net metric_key geography_level w metric status header row rows processed :
  disk_writable w = false ->
  dict_get (cache_key_of metric_key geography_level) (fst (load_cache w)) = None ->
  dict_get metric_key SDOH_METRICS = Some metric ->
  net (build_request metric geography_level) =
    HttpResponse status (Some (JArr (header :: row :: rows))) ->
  is_error_status status = false ->
  process_rows py_float geography_level (row :: rows) = Ok processed ->
  fst (fetch_census_data py_float net metric_key geography_level w) = Ok processed /\
  (forall which,
      file_of which (snd (fetch_census_data py_float net metric_key geography_level w)) =
      file_of which w) /\
  (processed <> [] ->
   In WarnSavingCache
     (notices (snd (fetch_census_data py_float net metric_key geography_level w)))) /\
  (monotone (clock w) ->
   forall w',
     follows (snd (fetch_census_data py_float net metric_key geography_level w)) w' ->
     dict_get (cache_key_of metric_key geography_level) (fst (load_cache w')) = None).
Proof.
  intros Hd Hmiss Hreg Hnet Hst Hp.
  pose proof (fetch_clock py_float net metric_key geography_level w) as Kf.
  pose proof (fetch_ticks py_float net metric_key geography_level w) as Tf.
  rewrite load_cache_ticks in Tf.
  revert Kf Tf. rewrite fetch_unfold. cbv zeta. rewrite Hmiss, Hreg.
  rewrite fetch_try_rows with (status := status) (header := header)
                              (row := row) (rows := rows) by assumption.
  rewrite Hp. cbn [fst snd].
  set (key := cache_key_of metric_key geography_level) in *.
  set (sent := snd (requests_get net (build_request metric geography_level)
                      (snd (load_cache w)))).
  set (saved := dict_set key processed (fst (load_cache w))).
  intros Kf Tf.
  destruct (load_cache_spec w) as (_ & A & _).
  assert (Hsent : forall which, file_of which sent = file_of which w)
    by (intros which; rewrite <- (advances_file which A); now destruct which).
  assert (Hds : disk_writable sent = false)
    by (unfold sent; simpl; now rewrite load_cache_writable).
  destruct (save_cache_refused saved sent Hds) as (Fs & Fc).
  assert (Hfiles : forall which,
             file_of which (snd (save_cache saved sent)) = file_of which w)
    by (intros which; rewrite <- Hsent; destruct which; assumption).
  split; [reflexivity|]. split; [exact Hfiles|]. split.
  - intros Hne.
    apply save_cache_refused_notices with (k := key) (recs := processed);
      try assumption.
    + apply NoDup_dict_set, NoDup_load_cache.
    + apply dict_get_set_eq.
  - intros Hm w' (Fs' & Fc' & K & T).
    apply unreadable_after with (w := w); try assumption; [congruence|lia|].
    intros which. left. rewrite <- Hfiles. now destruct which.
Qed.

(** X9: round trip through the files.  After a save that the disk accepts,
    every entry of the saved data that has a record is read back by the
    next [load_cache] within the retention window: the same records in the
    same order, with the same names and codes, the code of a state record
    padded to two characters, and a value that was [None] read as the
    float NaN.  This is for records that the files return as written:
    state records under state keys and county records under the other
    keys, in the files and in the saved data, with ordinary text for the
    names and the key, and digits for the codes. *)
Theorem save_then_load_round_trip data w k recs :
  well_sorted w ->
  plain_files w = true ->
  plain_data data = true ->
  plain_text k = true ->
  disk_writable w = true ->
  NoDup (dict_keys data) ->
  within_window (ticks (snd (load_cache (snd (save_cache data w))))) w ->
  dict_get k data = Some recs ->
  recs <> [] ->
  dict_get k (fst (load_cache (snd (save_cache data w)))) =
  Some (map (read_record (kind_of_key k)) recs).
Proof.
  intros Hws _ _ _ Hd Hnd Hwin Hk Hne.
  apply save_cache_readable; try assumption.
  - rewrite dict_get_update by exact Hnd. now rewrite Hk.
  - intros n Hn. apply Hwin; lia.
  - intros Ek n Hn.
    destruct (has_key k (rows_if_fresh (clock w n) (county_cache_file w))) eqn:E;
      [|reflexivity].
    change (county_cache_file w) with (file_of CountyCache w) in E.
    apply fresh_key_kind in E; [|exact Hws].
    unfold kind_of_key in E. rewrite Ek in E. discriminate.
Qed.

(** X10: the form of the files is an invariant of the program.  Over any
    sequence of fetches, whatever the network answers, the state file
    holds state keys only, the county file holds the other keys only, and
    all the rows of a file carry one timestamp, provided the files were so
    at the start (as they are when there is no file yet). *)
Theorem run_keeps_files_well_formed calls w :
  well_sorted w ->
  (forall which, one_stamp (file_of which w)) ->
  well_sorted (fetch_all py_float calls w) /\
  forall which, one_stamp (file_of which (fetch_all py_float calls w)).
Proof.
  revert w. induction calls as [|[[net metric_key] geography_level] calls IH];
    intros w Hws Hone; [now split|].
  cbn [fetch_all]. apply IH.
  - now apply fetch_well_sorted.
  - now apply fetch_one_stamp.
Qed.

(** X12: corrupt files are read as an empty cache and never stop a fetch.
    When both files are there and unreadable, [load_cache] returns no
    entry, shows its two warnings without reading the clock, and a fetch
    of a registered metric goes to the network. *)
Theorem corrupt_files_read_as_empty w :
  (forall which, file_corrupt (file_of which w) = true) ->
  fst (load_cache w) = [] /\
  notices (snd (load_cache w)) =
    (notices w ++ [WarnLoadingCache StateCache; WarnLoadingCache CountyCache])%list /\
  ticks (snd (load_cache w)) = ticks w /\
  forall net metric_key geography_level metric,
    dict_get metric_key SDOH_METRICS = Some metric ->
    requests_sent (snd (fetch_census_data py_float net metric_key geography_level w)) =
    (requests_sent w ++ [build_request metric geography_level])%list.
Proof.
  intros Hc.
  assert (Hs := corrupt_unstamped _ (Hc StateCache)).
  assert (Hn := corrupt_unstamped _ (Hc CountyCache)).
  cbn [file_of] in Hs, Hn.
  assert (Hempty : fst (load_cache w) = []).
  { destruct (load_cache_spec w) as (E & _). rewrite E.
    now rewrite !rows_if_fresh_unstamped by assumption. }
  split; [exact Hempty|]. split; [|split].
  - rewrite load_cache_notices. unfold load_warning.
    now rewrite (Hc StateCache), (Hc CountyCache).
  - rewrite load_cache_ticks. unfold after_load, county_tick. now rewrite Hs, Hn.
  - intros net metric_key geography_level metric Hreg.
    apply fetch_miss_requests; [|exact Hreg]. now rewrite Hempty.
Qed.

End Further.

Section Isolation.

Context {V : Type} {nan_V : NaN V}.
Variable py_float : json -> result V.
Implicit Types (w : world V) (cd data : dict (list (record V))).

(** X13: the entries of the cache are independent.  A fetch under one key,
    whatever it does (a hit, a failure, a save that succeeds or that the
    disk refuses), never evicts the entry of another key: what
    [load_cache] returned for that key before the call it returns after
    the call, within the retention window. *)
Theorem fetch_keeps_other_entries net metric_key geography_level w k recs :
  well_sorted w ->
  steady
    (ticks (snd (load_cache
                   (snd (fetch_census_data py_float net metric_key geography_level w)))))
    w ->
  within_window
    (ticks (snd (load_cache
                   (snd (fetch_census_data py_float net metric_key geography_level w)))))
    w ->
  k <> cache_key_of metric_key geography_level ->
  dict_get k (fst (load_cache w)) = Some recs ->
  dict_get k
    (fst (load_cache
            (snd (fetch_census_data py_float net metric_key geography_level w)))) =
  Some recs.
Proof.
  intros Hws Hsteady Hwin Hk Hget.
  set (wf := snd (fetch_census_data py_float net metric_key geography_level w)) in *.
  assert (Hsame : follows w wf ->
                  dict_get k (fst (load_cache wf)) = Some recs).
  { intros F.
    rewrite (load_cache_steady Hsteady F) by lia. exact Hget. }
  destruct (fetch_world_cases py_float net metric_key geography_level w)
    as [F | (processed & sent & Fs & Ds & Hfiles & Tf & Kf)];
    fold wf in F || fold wf in Hfiles, Tf, Kf; [now apply Hsame|].
  set (data := dict_set (cache_key_of metric_key geography_level) processed
                 (fst (load_cache w))) in *.
  destruct (save_cache_frame data sent) as (Ksv & _ & _ & Tsv & _).
  cbv zeta in Ksv, Tsv.
  pose proof Fs as (S1 & C1 & K1 & T1).
  destruct (disk_writable w) eqn:Hd.
  - (* the save is written *)
    assert (Hload : fst (load_cache wf) = fst (load_cache (snd (save_cache data sent))) /\
                    ticks (snd (load_cache wf)) =
                    ticks (snd (load_cache (snd (save_cache data sent))))).
    { assert (F1 : follows (snd (save_cache data sent)) wf).
      { apply follows_unchanged; [exact Hfiles|congruence|lia]. }
      assert (F2 : follows wf (snd (save_cache data sent))).
      { apply follows_unchanged;
          [intros which; now rewrite Hfiles|congruence|lia]. }
      destruct (load_cache_spec wf) as (E1 & _).
      destruct (load_cache_spec (snd (save_cache data sent))) as (E2 & _).
      rewrite !load_cache_ticks.
      assert (Hs := Hfiles StateCache). assert (Hc := Hfiles CountyCache).
      cbn [file_of] in Hs, Hc.
      assert (Ec : county_tick wf = county_tick (snd (save_cache data sent)))
        by (unfold county_tick; rewrite Hs, Tf; reflexivity).
      split.
      - rewrite E1, E2, Ec, Tf, Hs, Hc.
        now replace (clock wf) with (clock (snd (save_cache data sent)))
          by congruence.
      - unfold after_load. now rewrite Ec, Hc. }
    destruct Hload as (Hl1 & Hl2). rewrite Hl1. rewrite Hl2 in Hwin.
    pose proof Hget as Hnorm. apply loaded_normal in Hnorm; [|exact Hws].
    rewrite <- Hnorm.
    apply save_cache_readable.
    + congruence.
    + rewrite dict_get_update
        by (apply NoDup_dict_set, NoDup_load_cache).
      unfold data. rewrite dict_get_set_neq by exact Hk. now rewrite Hget.
    + now apply loaded_nonempty in Hget.
    + intros n Hn. rewrite K1. apply Hwin; lia.
    + intros Ek n Hn.
      destruct (has_key k (rows_if_fresh (clock sent n) (county_cache_file sent)))
        eqn:E; [|reflexivity].
      rewrite C1 in E.
      change (county_cache_file w) with (file_of CountyCache w) in E.
      apply fresh_key_kind in E; [|exact Hws].
      unfold kind_of_key in E. rewrite Ek in E. discriminate.
  - (* the disk refuses the save *)
    apply Hsame.
    destruct (save_cache_refused data sent) as (Rs & Rc); [congruence|].
    apply follows_unchanged; [|congruence|lia].
    intros which. rewrite Hfiles.
    destruct which; cbn [file_of]; congruence.
Qed.

End Isolation.

(** * The national map and the drill-down *)

Section PresentationFacts.

Context {V : Type} {nan_V : NaN V}.
Variable py_float : json -> result V.
Variable is_nan : V -> bool.
Variables series_min series_max : list V -> V.
Variable py_eq : json -> json -> bool.
Implicit Types (data : list (record V)) (r : record V).

(** The rows the map draws: a value that is there, a code of the map. *)
Lemma drawn_row r abbrev v name :
  In (abbrev, v, name) (with_abbrev r) <->
  exists fips, r = StateRecord name fips (Some v) /\
               dict_get fips FIPS_TO_ABBREV = Some abbrev.
Proof.
  destruct r as [n f [x|]|n c s x]; cbn [with_abbrev In].
  - destruct (dict_get f FIPS_TO_ABBREV) as [a|] eqn:E; cbn [In].
    + split.
      * intros [[= <- <- <-]|[]]. now exists f.
      * intros (fips & [= <- <- <-] & E'). left. congruence.
    + split; [contradiction|]. intros (fips & [= <- <- <-] & E'). congruence.
  - split; [contradiction|]. intros (fips & [=] & _).
  - split; [contradiction|]. intros (fips & [=] & _).
Qed.

Lemma with_abbrev_one r :
  notna is_nan (record_value r) = true -> fips_isin r = true ->
  List.length (with_abbrev r) = 1%nat.
Proof.
  destruct r as [n f [x|]|n c s x];
    cbn [record_value notna fips_isin with_abbrev]; try discriminate.
  unfold dict_mem. intros _.
  now destruct (dict_get f FIPS_TO_ABBREV).
Qed.

Lemma length_flat_map_one {A B : Type} (f : A -> list B) (l : list A) :
  (forall x, In x l -> List.length (f x) = 1%nat) ->
  List.length (flat_map f l) = List.length l.
Proof.
  induction l as [|x l IH]; intros H; simpl; [reflexivity|].
  rewrite length_app, (H x) by now left.
  rewrite IH; [reflexivity|]. intros y Hy. apply H. now right.
Qed.

(** What [create_choropleth_map] answers when it draws. *)
Lemma create_choropleth_map_drawn data metric_key title_suffix fig :
  create_choropleth_map is_nan series_min series_max data metric_key title_suffix =
    Ok (Some fig) ->
  let df := filter fips_isin (filter (fun r => notna is_nan (record_value r)) data) in
  let rows := flat_map with_abbrev df in
  df <> [] /\
  locations fig = map (fun row => fst (fst row)) rows /\
  z fig = map (fun row => snd (fst row)) rows /\
  text fig = map (fun row => snd row) rows /\
  exists metric_config,
    dict_get metric_key SDOH_METRICS = Some metric_config /\
    colorscale fig = if positive metric_config then "Greens" else "Reds".
Proof.
  unfold create_choropleth_map. cbv zeta.
  destruct (is_nil data); [discriminate|].
  destruct (negb (existsb has_fips data)); [discriminate|].
  destruct (filter fips_isin _) as [|r df] eqn:Edf; [discriminate|].
  cbn [is_nil].
  destruct (dict_get metric_key SDOH_METRICS) as [metric_config|];
    [|discriminate].
  intros [= <-]. cbn [locations z text colorscale].
  split; [discriminate|]. repeat (split; [reflexivity|]).
  now exists metric_config.
Qed.


Lemma find_state_fips_found data selected fips :
  find_state_fips py_eq data selected = Ok (Some fips) ->
  exists name value, In (StateRecord name fips value) data.
Proof.
  induction data as [|r data IH]; simpl; [discriminate|].
  destruct (py_eq (record_name r) selected).
  - destruct r as [n f x|n c s x]; [|discriminate].
    intros [= <-]. exists n, x. now left.
  - intros H. destruct (IH H) as (n & x & Hin). exists n, x. now right.
Qed.

Lemma find_state_fips_total data selected :
  forallb has_fips data = true ->
  exists found, find_state_fips py_eq data selected = Ok found.
Proof.
  induction data as [|r data IH]; simpl; intros Hall; [now exists None|].
  apply andb_true_iff in Hall. destruct Hall as (Hr & Hall).
  destruct (py_eq (record_name r) selected); [|now apply IH].
  destruct r as [n f x|n c s x]; [|discriminate]. now exists (Some f).
Qed.

Lemma filter_all {A : Type} (p : A -> bool) (l : list A) :
  (forall x, In x l -> p x = true) -> filter p l = l.
Proof.
  induction l as [|x l IH]; intros H; simpl; [reflexivity|].
  rewrite (H x) by now left. f_equal. apply IH. intros y Hy. apply H. now right.
Qed.

Lemma with_abbrev_name r :
  notna is_nan (record_value r) = true -> fips_isin r = true ->
  map (fun row : string * V * json => snd row) (with_abbrev r) = [record_name r].
Proof.
  destruct r as [n f [x|]|n c s x];
    cbn [record_value notna fips_isin with_abbrev record_name]; try discriminate.
  unfold dict_mem. intros _.
  now destruct (dict_get f FIPS_TO_ABBREV).
Qed.

Lemma text_of_rows (df : list (record V)) :
  (forall r, In r df -> notna is_nan (record_value r) = true /\ fips_isin r = true) ->
  map (fun row : string * V * json => snd row) (flat_map with_abbrev df) =
  map (@record_name V) df.
Proof.
  induction df as [|r df IH]; intros H; [reflexivity|].
  cbn [flat_map map]. rewrite map_app.
  destruct (H r (or_introl eq_refl)) as (Hna & Hin).
  rewrite (with_abbrev_name r Hna Hin). cbn [app]. f_equal.
  apply IH. intros y Hy. apply H. now right.
Qed.

End PresentationFacts.

Section Presenting.

Context {V : Type} {nan_V : NaN V}.
Variable py_float : json -> result V.
Variable is_nan : V -> bool.
Variables series_min series_max : list V -> V.
Variable py_eq : json -> json -> bool.
Implicit Types (data : list (record V)) (r : record V).

(** X14: what the national map shows.  When [create_choropleth_map] draws,
    the locations, the values and the labels are aligned, there is at
    least one; every state record of the list with a value that is there
    and a code of the jurisdiction map is drawn under its abbreviation, and
    nothing else is: the removal of rows whose mapping failed never
    removes a row. *)
Theorem choropleth_shows_mapped_states data metric_key title_suffix fig :
  create_choropleth_map is_nan series_min series_max data metric_key title_suffix =
    Ok (Some fig) ->
  List.length (locations fig) = List.length (z fig) /\
  List.length (text fig) = List.length (z fig) /\
  List.length (locations fig) =
    List.length (filter fips_isin
                   (filter (fun r => notna is_nan (record_value r)) data)) /\
  locations fig <> [] /\
  forall abbrev,
    In abbrev (locations fig) <->
    exists name fips v,
      In (StateRecord name fips (Some v)) data /\ is_nan v = false /\
      dict_get fips FIPS_TO_ABBREV = Some abbrev.
Proof.
  intros H. apply create_choropleth_map_drawn in H. cbv zeta in H.
  destruct H as (Hne & -> & -> & -> & _).
  set (df := filter fips_isin (filter (fun r => notna is_nan (record_value r)) data))
    in *.
  assert (Hlen : List.length (flat_map with_abbrev df) = List.length df).
  { apply length_flat_map_one. intros r Hr. unfold df in Hr.
    apply filter_In in Hr. destruct Hr as (Hr & Hisin).
    apply filter_In in Hr. destruct Hr as (_ & Hna).
    now apply with_abbrev_one with (is_nan := is_nan). }
  rewrite !length_map. split; [reflexivity|]. split; [reflexivity|].
  split; [exact Hlen|]. split.
  - intros E. apply (f_equal (@List.length _)) in E.
    rewrite length_map, Hlen in E. destruct df; [congruence|discriminate].
  - intros abbrev. rewrite in_map_iff. split.
    + intros ([[a v] name] & <- & Hin). cbn [fst].
      apply in_flat_map in Hin. destruct Hin as (r & Hr & Hin).
      apply drawn_row in Hin. destruct Hin as (fips & -> & Hmap).
      unfold df in Hr. apply filter_In in Hr. destruct Hr as (Hr & _).
      apply filter_In in Hr. destruct Hr as (Hr & Hna).
      exists name, fips, v. split; [exact Hr|]. split; [|exact Hmap].
      simpl in Hna. now destruct (is_nan v).
    + intros (name & fips & v & Hin & Hnan & Hmap).
      exists (abbrev, v, name). split; [reflexivity|].
      apply in_flat_map. exists (StateRecord name fips (Some v)). split.
      * unfold df. apply filter_In. split.
        -- apply filter_In. split; [exact Hin|]. simpl. now rewrite Hnan.
        -- simpl. unfold dict_mem. now rewrite Hmap.
      * apply drawn_row. now exists fips.
Qed.

(** X15: the registry is consulted last.  For a metric that is not
    registered the map raises [KeyError] only when there is a state to
    draw; on a list of state records none of which can be drawn it answers
    that there is no map, as it does for the empty list. *)
Theorem choropleth_unregistered_metric data metric_key title_suffix :
  dict_get metric_key SDOH_METRICS = None ->
  forallb has_fips data = true ->
  create_choropleth_map is_nan series_min series_max data metric_key title_suffix =
  if existsb (fun r => notna is_nan (record_value r) && fips_isin r) data
  then Raise KeyError else Ok None.
Proof.
  intros Hreg Hall. unfold create_choropleth_map. cbv zeta.
  destruct data as [|r0 data0]; [reflexivity|]. cbn [is_nil].
  set (data := r0 :: data0) in *.
  assert (Hex : existsb has_fips data = true).
  { unfold data in *. cbn [forallb existsb] in *.
    apply andb_true_iff in Hall. destruct Hall as (-> & _). reflexivity. }
  rewrite Hex. cbn [negb]. rewrite Hreg.
  assert (Hfil : forall l : list (record V),
             is_nil (filter fips_isin
                       (filter (fun r => notna is_nan (record_value r)) l)) =
             negb (existsb (fun r => notna is_nan (record_value r) && fips_isin r) l)).
  { induction l as [|r l IH]; [reflexivity|]. cbn [filter existsb].
    destruct (notna is_nan (record_value r)); cbn [andb orb filter]; [|exact IH].
    destruct (fips_isin r); cbn [is_nil orb negb]; [reflexivity|exact IH]. }
  specialize (Hfil data).
  destruct (filter fips_isin _) as [|r df]; cbn [is_nil] in Hfil |- *;
    destruct (existsb (fun r => notna is_nan (record_value r) && fips_isin r) data);
    cbn [negb] in Hfil; first [reflexivity | discriminate Hfil].
Qed.


(** X17: the drill-down asks for the counties of one state.  On the
    records of a state-level fetch the search of [main] for the selected
    name never raises, and the scope it finds is a two-character code of
    the jurisdiction map: the county fetch then uses a key of the county
    file, whatever the metric, and a request for the counties in that
    state. *)
Theorem drill_down_scope_is_a_state_code rows data selected :
  process_rows py_float "state" rows = Ok data ->
  (exists scope, drill_down_scope py_eq data selected = Ok scope) /\
  forall fips,
    drill_down_scope py_eq data selected = Ok (Some fips) ->
    String.length fips = 2%nat /\
    dict_mem fips FIPS_TO_ABBREV = true /\
    (forall metric_key,
        kind_of_key (cache_key_of metric_key fips) = CountyCache) /\
    forall metric,
      params (build_request metric fips) =
      [("get", variable metric ++ ",NAME"); ("for", "county:*");
       ("in", "state:" ++ fips)].
Proof.
  intros Hp. apply canonical_state_records in Hp. destruct Hp as (Hall & Hcan).
  unfold drill_down_scope. split.
  - destruct (@find_state_fips_total _ py_eq data selected Hall) as (found & ->).
    cbn [result_bind]. destruct found as [[|c s]|]; eauto.
  - intros fips H.
    destruct (find_state_fips py_eq data selected) as [found|] eqn:E;
      [|discriminate].
    cbn [result_bind] in H.
    assert (found = Some fips) by (destruct found as [[|c s]|]; congruence).
    subst found. apply find_state_fips_found in E. destruct E as (name & value & Hin).
    destruct (Hcan _ _ _ Hin) as (Hlen & Hmem).
    split; [exact Hlen|]. split; [exact Hmem|]. split.
    + intros metric_key. unfold kind_of_key, cache_key_of.
      change ("_" ++ fips)%string with (String "_" fips).
      now rewrite endswith_state_short by lia.
    + intros metric. unfold build_request.
      destruct fips as [|c1 [|c2 [|c3 rest]]]; try discriminate.
      replace (String.eqb _ "state") with false; [reflexivity|].
      cbn. decide_chars.
Qed.

(** X18: on the records of a state-level fetch the map filters nothing but
    missing values.  The pipeline has already dropped the territories, so
    the map shows one location for every record whose value is there, in
    the order of the records and under their names. *)
Theorem map_draws_every_state_with_a_value rows data metric_key title_suffix fig :
  process_rows py_float "state" rows = Ok data ->
  create_choropleth_map is_nan series_min series_max data metric_key title_suffix =
    Ok (Some fig) ->
  text fig =
    map (@record_name V) (filter (fun r => notna is_nan (record_value r)) data) /\
  List.length (locations fig) =
    List.length (filter (fun r => notna is_nan (record_value r)) data).
Proof.
  intros Hp H. apply canonical_state_records in Hp. destruct Hp as (Hall & Hcan).
  apply create_choropleth_map_drawn in H. cbv zeta in H.
  destruct H as (_ & Hloc & _ & Htext & _).
  assert (Hisin : forall r,
             In r (filter (fun r => notna is_nan (record_value r)) data) ->
             fips_isin r = true).
  { intros r Hr. apply filter_In in Hr. destruct Hr as (Hr & _).
    destruct r as [n f x|n c s x].
    - exact (proj2 (Hcan _ _ _ Hr)).
    - rewrite forallb_forall in Hall. now apply Hall in Hr. }
  rewrite (filter_all _ _ Hisin) in Hloc, Htext.
  assert (Hrows : forall r,
             In r (filter (fun r => notna is_nan (record_value r)) data) ->
             notna is_nan (record_value r) = true /\ fips_isin r = true).
  { intros r Hr. split; [|now apply Hisin].
    apply filter_In in Hr. now destruct Hr. }
  split.
  - rewrite Htext. apply text_of_rows with (is_nan := is_nan). exact Hrows.
  - rewrite Hloc, length_map. apply length_flat_map_one.
    intros r Hr. destruct (Hrows r Hr) as (Hna & Hin).
    now apply with_abbrev_one with (is_nan := is_nan).
Qed.

End Presenting.

(** X19: among the two-character codes of the jurisdiction map no two have
    the same abbreviation: a location of the map stands for one state. *)
Theorem state_abbreviation_has_one_code (f1 f2 a : string) :
  dict_get f1 FIPS_TO_ABBREV = Some a ->
  dict_get f2 FIPS_TO_ABBREV = Some a ->
  String.length f1 = 2%nat -> String.length f2 = 2%nat ->
  f1 = f2.
Proof.
  intros H1 H2 L1 L2.
  pose proof (dict_get_in_keys _ _ H1) as K1.
  pose proof (dict_get_in_keys _ _ H2) as K2.
  cbn in K1.
  repeat (destruct K1 as [<-|K1];
          [first [discriminate L1
                 | vm_compute in H1; injection H1 as <-; clear L1;
                   cbn in K2;
                   repeat (destruct K2 as [<-|K2];
                           [first [discriminate L2 | reflexivity | discriminate H2]|]);
                   contradiction]|]).
  contradiction.
Qed.

(** * The properties on sample data *)

Lemma steady_still h (w : world Z) : clock w = still_clock -> steady h w.
Proof. intros E which ts _ n _. now rewrite E. Qed.

Lemma within_window_still h (w : world Z) :
  clock w = still_clock -> within_window h w.
Proof. intros E n n' _ _. rewrite E. unfold still_clock, cache_duration. lia. Qed.

Lemma steady_without_files h (w : world Z) :
  (forall which, file_stamp (file_of which w) = None) -> steady h w.
Proof. intros H which ts Hs. rewrite H in Hs. discriminate. Qed.

Lemma within_window_ticking h (w : world Z) :
  clock w = ticking_clock -> (h <= 1000)%nat -> within_window h w.
Proof.
  intros E Hh n n' Hn Hn'. rewrite E. unfold ticking_clock, cache_duration. lia.
Qed.

Lemma well_sorted_state_file (rows : list (cache_row Z)) :
  forallb (fun r => endswith (cache_key r) "_state") rows = true ->
  well_sorted (with_state_file rows).
Proof.
  intros H. split; simpl.
  - intros r Hin. rewrite forallb_forall in H. now apply H.
  - intros r [].
Qed.

Lemma load_cache_one_stamp_per_file_witness :
  dict_get poverty_key
    (fst (load_cache_file StateCache [] (with_state_file mixed_rows))) =
  Some [alaska].
Proof.
  exact (proj1 (@load_cache_one_stamp_per_file Z _)
           StateCache (with_state_file mixed_rows)
           _ _ sample_now [] poverty_key eq_refl eq_refl).
Defined.

(** C1 fails as stated: in a file whose first row is fresh, an entry whose
    own timestamp is two weeks old is returned; and in a file whose first
    row is old, a fresh entry is not returned. *)
Lemma load_cache_entry_stamp_counterexample :
  (forall r, In r mixed_rows -> cache_key r = poverty_key ->
             exists ts, timestamp r = Some ts /\
                        cache_duration <= clock (with_state_file mixed_rows) 0 - ts) /\
  dict_get poverty_key (fst (load_cache (with_state_file mixed_rows))) =
    Some [alaska] /\
  (forall r, In r mixed_rows_old_first -> cache_key r = income_key ->
             exists ts, timestamp r = Some ts /\
                        clock (with_state_file mixed_rows_old_first) 0 - ts
                        < cache_duration) /\
  dict_get income_key (fst (load_cache (with_state_file mixed_rows_old_first))) =
    None.
Proof.
  split; [|split; [|split]].
  - intros r [<-|[<-|[]]] Hk.
    + vm_compute in Hk. discriminate Hk.
    + eexists. split; [reflexivity|]. vm_compute. discriminate.
  - vm_compute. reflexivity.
  - intros r [<-|[<-|[]]] Hk.
    + vm_compute in Hk. discriminate Hk.
    + eexists. split; [reflexivity|]. vm_compute. reflexivity.
  - vm_compute. reflexivity.
Qed.

(** C2: fetching twice is not idempotent on an absent value.  The cache
    is empty and the network answers a state-level request with a row for
    Alabama and a row for Alaska whose value is "-".  The first call
    returns Alaska with the value [None] and saves the records; the second
    call, a few seconds later, sends no request and returns the saved
    records as the cache reads them: the same names, codes and present
    values, but Alaska with the float NaN, which [read_csv] gives for the
    empty cell.  The two lists are not identical. *)
Theorem cached_absent_value_is_nan :
  fst (fetch_census_data whole_float net_states "Median Household Income" "state"
         first_run) =
    Ok [alabama; StateRecord (JStr "Alaska") "02" None] /\
  fst (fetch_census_data whole_float net_down "Median Household Income" "state"
         (snd (fetch_census_data whole_float net_states
                 "Median Household Income" "state" first_run))) =
    Ok [alabama; StateRecord (JStr "Alaska") "02" (Some nan)] /\
  requests_sent
    (snd (fetch_census_data whole_float net_down "Median Household Income" "state"
            (snd (fetch_census_data whole_float net_states
                    "Median Household Income" "state" first_run)))) =
  requests_sent
    (snd (fetch_census_data whole_float net_states
            "Median Household Income" "state" first_run)) /\
  clock first_run
    (ticks (snd (fetch_census_data whole_float net_down
                   "Median Household Income" "state"
                   (snd (fetch_census_data whole_float net_states
                           "Median Household Income" "state" first_run))))) -
  clock first_run 0 < cache_duration.
Proof.
  split; [vm_compute; reflexivity|].
  apply and_assoc. split; [|vm_compute; reflexivity].
  apply (@fetch_again_reads_back Z _ whole_float net_states net_down
           "Median Household Income" "state" first_run
           [alabama; StateRecord (JStr "Alaska") "02" None]).
  - vm_compute. reflexivity.
  - discriminate.
  - reflexivity.
  - apply steady_without_files. intros []; reflexivity.
  - apply within_window_ticking; [reflexivity|].
    apply Nat.leb_le. vm_compute. reflexivity.
Qed.

Lemma missing_value_row_kept_witness :
  process_rows whole_float "state" [alaska_missing_row] =
    Ok [StateRecord (JStr "Alaska") "02" None] /\
  process_rows whole_float "72" [county_row] =
    Ok [CountyRecord (JStr "Adjuntas Municipio") "001" "72" None].
Proof.
  split.
  - exact (proj1 (@missing_value_row_kept Z whole_float "state" alaska_missing_row
                    (JStr "-") (JStr "Alaska") "02" [] []
                    eq_refl eq_refl eq_refl eq_refl eq_refl) eq_refl).
  - refine (proj2 (@missing_value_row_kept Z whole_float "72" county_row
                     (JStr "") (JStr "Adjuntas Municipio") "72" [] []
                     eq_refl eq_refl eq_refl eq_refl eq_refl) _ "1" eq_refl).
    discriminate.
Defined.

(** The jurisdiction guard applies to a row with a missing value as to any
    other: at state level the row of Puerto Rico yields no record. *)
Lemma territory_row_with_missing_value :
  py_index puerto_rico_row 0 = Ok (JStr "-") /\
  is_missing (JStr "-") = true /\
  py_index puerto_rico_row 1 = Ok (JStr "Puerto Rico") /\
  (x <~ py_index puerto_rico_row 2 ;; py_zfill x 2) = Ok "72" /\
  process_row whole_float "state" puerto_rico_row = Ok None /\
  process_rows whole_float "state" [puerto_rico_row] = Ok [].
Proof. repeat split; reflexivity. Qed.

Lemma fetch_failed_request_returns_empty_witness :
  fst (fetch_census_data whole_float net_down "Poverty Rate" "state"
         (with_state_file expired_rows)) = Ok [] /\
  state_cache_file
    (snd (fetch_census_data whole_float net_down "Poverty Rate" "state"
            (with_state_file expired_rows))) = Some (Table expired_rows) /\
  county_cache_file
    (snd (fetch_census_data whole_float net_down "Poverty Rate" "state"
            (with_state_file expired_rows))) = None.
Proof.
  apply (@fetch_failed_request_returns_empty Z _ whole_float net_down
           "Poverty Rate" "state" (with_state_file expired_rows)
           {| url := "https://api.census.gov/data/2022/acs/acs1/profile";
              params := [("get", "DP03_0119PE,NAME"); ("for", "state:*")] |}).
  - reflexivity.
  - reflexivity.
Defined.

Lemma fetch_header_only_not_cached_witness :
  fst (fetch_census_data whole_float net_header_only "Poverty Rate" "state"
         empty_world) = Ok [] /\
  state_cache_file
    (snd (fetch_census_data whole_float net_header_only "Poverty Rate" "state"
            empty_world)) = None /\
  county_cache_file
    (snd (fetch_census_data whole_float net_header_only "Poverty Rate" "state"
            empty_world)) = None /\
  (monotone still_clock ->
   forall w',
     follows (snd (fetch_census_data whole_float net_header_only "Poverty Rate"
                     "state" empty_world)) w' ->
     dict_get (cache_key_of "Poverty Rate" "state") (fst (load_cache w')) = None).
Proof.
  apply (@fetch_header_only_not_cached Z _ whole_float net_header_only
           "Poverty Rate" "state" empty_world
           {| url := "https://api.census.gov/data/2022/acs/acs1/profile";
              params := [("get", "DP03_0119PE,NAME"); ("for", "state:*")] |}
           200 header).
  - reflexivity.
  - reflexivity.
  - reflexivity.
Defined.

Lemma fetch_unregistered_metric_witness :
  fst (fetch_census_data whole_float net_states "Bogus" "state" empty_world) =
    Raise KeyError /\
  advances empty_world
    (snd (fetch_census_data whole_float net_states "Bogus" "state" empty_world)).
Proof.
  apply (@fetch_unregistered_metric Z _ whole_float net_states "Bogus" "state"
           empty_world).
  reflexivity.
Defined.

(** C7 fails as stated: a metric name that is not registered is answered
    from the cache when the state file holds a fresh entry under its key. *)
Lemma unregistered_metric_cached_counterexample :
  dict_get "Bogus" SDOH_METRICS = None /\
  fetch_census_data whole_float net_states "Bogus" "state"
    (with_state_file bogus_rows) =
  (Ok [alabama],
   {| state_cache_file := Some (Table bogus_rows);
      county_cache_file := None;
      disk_writable := true;
      clock := still_clock;
      ticks := 1;
      requests_sent := [];
      notices := [] |}).
Proof. split; reflexivity. Qed.

Lemma expiry_boundary_is_expired_witness :
  dict_get (cache_key_of "Median Household Income" "state")
    (fst (load_cache (with_state_file boundary_rows))) = None /\
  requests_sent
    (snd (fetch_census_data whole_float net_states "Median Household Income"
            "state" (with_state_file boundary_rows))) =
  [ {| url := "https://api.census.gov/data/2022/acs/acs1/profile";
       params := [("get", "DP03_0062E,NAME"); ("for", "state:*")] |} ].
Proof.
  apply (@expiry_boundary_is_expired Z _ whole_float net_states
           "Median Household Income" "state" (with_state_file boundary_rows)
           (sample_now - cache_duration)
           {| variable := "DP03_0062E"; endpoint := "profile"; positive := true;
              description := "Median household income in the past 12 months (in 2022 inflation-adjusted dollars)" |}).
  - reflexivity.
  - intros [] r r' Hr Hr'; cbn in Hr, Hr'; [|contradiction].
    destruct Hr as [<-|[]], Hr' as [<-|[]]. reflexivity.
  - intros [] r Hr _; cbn in Hr; [|contradiction].
    destruct Hr as [<-|[]]. reflexivity.
  - vm_compute. reflexivity.
  - intros n m _. unfold with_state_file, still_clock. cbn [clock]. lia.
Defined.

Lemma save_cache_keeps_readable_drops_expired_witness :
  (dict_get poverty_key
     (fst (load_cache (snd (save_cache [(income_key, [alabama])]
                              (with_state_file fresh_rows))))) = Some [alaska] /\
   forall r,
     In r (file_rows (file_of (kind_of_key poverty_key)
                        (snd (save_cache [(income_key, [alabama])]
                                (with_state_file fresh_rows))))) ->
     timestamp r = Some sample_now) /\
  exists rows,
    state_cache_file (snd (save_cache [(income_key, [alabama])]
                             (with_state_file expired_rows))) = Some (Table rows) /\
    has_key income_key rows = true /\
    forall r, In r rows -> In (cache_key r) [income_key].
Proof.
  split.
  - apply (@save_cache_keeps_readable_drops_expired Z _
             [(income_key, [alabama])] (with_state_file fresh_rows)).
    + apply well_sorted_state_file. reflexivity.
    + reflexivity.
    + repeat constructor. intros [].
    + apply steady_still. reflexivity.
    + apply within_window_still. reflexivity.
    + reflexivity.
    + reflexivity.
  - apply (@save_cache_keeps_readable_drops_expired Z _
             [(income_key, [alabama])] (with_state_file expired_rows))
      with (which := StateCache) (ts := sample_now - 2 * cache_duration)
           (recs := [alabama]).
    + apply well_sorted_state_file. reflexivity.
    + reflexivity.
    + repeat constructor. intros [].
    + apply steady_still. reflexivity.
    + apply within_window_still. reflexivity.
    + reflexivity.
    + vm_compute. discriminate.
    + reflexivity.
    + discriminate.
    + reflexivity.
Defined.

(** C9 fails as stated: the state file holds two expired entries; a put for
    one key rewrites the file and the entry of the other key is gone. *)
Lemma save_cache_purges_expired_counterexample :
  has_key poverty_key
    (file_rows (state_cache_file (with_state_file expired_rows))) = true /\
  dict_get poverty_key (fst (load_cache (with_state_file expired_rows))) = None /\
  state_cache_file
    (snd (save_cache [(income_key, [alabama])] (with_state_file expired_rows))) =
  Some (Table [ {| cache_key := income_key;
                   timestamp := Some sample_now;
                   row_record := alabama |} ]).
Proof. repeat split; reflexivity. Qed.

Lemma fetch_census_data_total_witness :
  exists records,
    fst (fetch_census_data whole_float net_down "Poverty Rate" "state" empty_world) =
    Ok records.
Proof.
  apply (@fetch_census_data_total Z _ whole_float net_down "Poverty Rate" "state"
           empty_world).
  reflexivity.
Defined.

(** * The further properties on sample data *)

Lemma whole_float_value_errors s e :
  whole_float (JStr s) = Raise e -> e = ValueError.
Proof.
  unfold whole_float. destruct s as [|c s]; [congruence|].
  destruct (digits_value (String c s) 0); congruence.
Qed.

Lemma monotone_still : monotone still_clock.
Proof. intros n m _. unfold still_clock. lia. Qed.

Lemma monotone_ticking : monotone ticking_clock.
Proof. intros n m H. unfold ticking_clock. lia. Qed.

Lemma follows_refl (w : world Z) : follows w w.
Proof. unfold follows. repeat split. lia. Qed.

Lemma well_sorted_without_files (w : world Z) :
  state_cache_file w = None -> county_cache_file w = None -> well_sorted w.
Proof. intros Hs Hc. unfold well_sorted. rewrite Hs, Hc. split; intros r []. Qed.

Lemma one_stamp_without_files (w : world Z) :
  state_cache_file w = None -> county_cache_file w = None ->
  forall which, one_stamp (file_of which w).
Proof.
  intros Hs Hc which. unfold one_stamp.
  destruct which; cbn [file_of]; rewrite ?Hs, ?Hc; intros r r' [].
Qed.

Lemma processed_records_are_canonical_witness :
  Forall (canonical "state") [alabama; alaska_no_value].
Proof.
  apply (@processed_records_are_canonical Z whole_float "state" state_rows).
  reflexivity.
Defined.

Lemma unexpected_row_error_aborts_fetch_witness :
  fst (fetch_census_data whole_float net_bad_code "Poverty Rate" "state" empty_world) =
    Ok [] /\
  forall which,
    file_of which
      (snd (fetch_census_data whole_float net_bad_code "Poverty Rate" "state"
              empty_world)) = file_of which empty_world.
Proof.
  apply (@unexpected_row_error_aborts_fetch Z _ whole_float net_bad_code
           "Poverty Rate" "state" empty_world
           {| variable := "DP03_0119PE"; endpoint := "profile"; positive := false;
              description := "Percentage of population below poverty level" |}
           200 header
           [JArr [JStr "59609"; JStr "Alabama"; JStr "01"]; bad_code_row]
           bad_code_row AttributeError).
  - reflexivity.
  - reflexivity.
  - reflexivity.
  - reflexivity.
  - right. left. reflexivity.
  - reflexivity.
  - reflexivity.
Defined.

Lemma short_row_is_skipped_witness :
  process_rows whole_float "state"
    (JArr (map JStr ["5"; "Guam"]) :: [alaska_missing_row]) =
  process_rows whole_float "state" [alaska_missing_row].
Proof.
  apply (@short_row_is_skipped Z whole_float "state" ["5"; "Guam"]
           [alaska_missing_row]).
  - exact whole_float_value_errors.
  - simpl. lia.
Defined.

Lemma empty_result_is_never_cached_witness :
  dict_get (cache_key_of "Poverty Rate" "state")
    (fst (load_cache
            (snd (fetch_census_data whole_float net_territory_only "Poverty Rate"
                    "state" empty_world)))) = None.
Proof.
  apply (@empty_result_is_never_cached Z _ whole_float net_territory_only
           "Poverty Rate" "state" empty_world).
  - vm_compute. reflexivity.
  - exact monotone_still.
  - apply follows_refl.
Defined.

Lemma refused_write_is_best_effort_witness :
  fst (fetch_census_data whole_float net_states "Poverty Rate" "state" read_only_disk) =
    Ok [alabama; alaska_no_value] /\
  (forall which,
      file_of which
        (snd (fetch_census_data whole_float net_states "Poverty Rate" "state"
                read_only_disk)) = file_of which read_only_disk) /\
  ([alabama; alaska_no_value] <> [] ->
   In WarnSavingCache
     (notices (snd (fetch_census_data whole_float net_states "Poverty Rate" "state"
                      read_only_disk)))) /\
  (monotone (clock read_only_disk) ->
   forall w',
     follows (snd (fetch_census_data whole_float net_states "Poverty Rate" "state"
                     read_only_disk)) w' ->
     dict_get (cache_key_of "Poverty Rate" "state") (fst (load_cache w')) = None).
Proof.
  apply (@refused_write_is_best_effort Z _ whole_float net_states
           "Poverty Rate" "state" read_only_disk
           {| variable := "DP03_0119PE"; endpoint := "profile"; positive := false;
              description := "Percentage of population below poverty level" |}
           200 header
           (JArr [JStr "59609"; JStr "Alabama"; JStr "01"])
           [puerto_rico_row; alaska_missing_row]
           [alabama; alaska_no_value]).
  - reflexivity.
  - reflexivity.
  - reflexivity.
  - reflexivity.
  - reflexivity.
  - reflexivity.
Defined.

Lemma save_then_load_round_trip_witness :
  dict_get income_key
    (fst (load_cache
            (snd (save_cache [(income_key, [unpadded_alabama; alaska_no_value])]
                    (with_state_file fresh_rows))))) =
  Some [alabama; StateRecord (JStr "Alaska") "02" (Some nan)].
Proof.
  apply (@save_then_load_round_trip Z _
           [(income_key, [unpadded_alabama; alaska_no_value])]
           (with_state_file fresh_rows) income_key
           [unpadded_alabama; alaska_no_value]).
  - apply well_sorted_state_file. reflexivity.
  - reflexivity.
  - reflexivity.
  - reflexivity.
  - reflexivity.
  - constructor; [intros []|constructor].
  - apply within_window_still. reflexivity.
  - reflexivity.
  - discriminate.
Defined.

Lemma run_keeps_files_well_formed_witness :
  well_sorted
    (fetch_all whole_float
       [(net_states, "Median Household Income", "state");
        (net_down, "Poverty Rate", "01")] first_run) /\
  forall which,
    one_stamp
      (file_of which
         (fetch_all whole_float
            [(net_states, "Median Household Income", "state");
             (net_down, "Poverty Rate", "01")] first_run)).
Proof.
  apply (@run_keeps_files_well_formed Z _ whole_float
           [(net_states, "Median Household Income", "state");
            (net_down, "Poverty Rate", "01")] first_run).
  - apply well_sorted_without_files; reflexivity.
  - apply one_stamp_without_files; reflexivity.
Defined.

Lemma corrupt_files_read_as_empty_witness :
  fst (load_cache corrupt_world) = [] /\
  notices (snd (load_cache corrupt_world)) =
    (notices corrupt_world ++
     [WarnLoadingCache StateCache; WarnLoadingCache CountyCache])%list /\
  ticks (snd (load_cache corrupt_world)) = ticks corrupt_world /\
  forall net metric_key geography_level metric,
    dict_get metric_key SDOH_METRICS = Some metric ->
    requests_sent
      (snd (fetch_census_data whole_float net metric_key geography_level
              corrupt_world)) =
    (requests_sent corrupt_world ++ [build_request metric geography_level])%list.
Proof.
  apply (@corrupt_files_read_as_empty Z _ whole_float corrupt_world).
  intros which. destruct which; reflexivity.
Defined.

Lemma choropleth_shows_mapped_states_witness :
  List.length (locations income_map) = List.length (z income_map) /\
  List.length (text income_map) = List.length (z income_map) /\
  List.length (locations income_map) =
    List.length (filter fips_isin
                   (filter (fun r => notna no_nan (record_value r))
                      [alabama; alaska_no_value; puerto_rico])) /\
  locations income_map <> [] /\
  forall abbrev,
    In abbrev (locations income_map) <->
    exists name fips v,
      In (StateRecord name fips (Some v)) [alabama; alaska_no_value; puerto_rico] /\
      no_nan v = false /\
      dict_get fips FIPS_TO_ABBREV = Some abbrev.
Proof.
  apply (@choropleth_shows_mapped_states Z no_nan z_min z_max
           [alabama; alaska_no_value; puerto_rico] "Median Household Income" ""
           income_map).
  reflexivity.
Defined.

Lemma choropleth_unregistered_metric_witness :
  create_choropleth_map no_nan z_min z_max [alaska_no_value] "Bogus" "" = Ok None /\
  create_choropleth_map no_nan z_min z_max [alabama; alaska_no_value] "Bogus" "" =
    Raise KeyError.
Proof.
  split.
  - apply (@choropleth_unregistered_metric Z no_nan z_min z_max
             [alaska_no_value] "Bogus" ""); reflexivity.
  - apply (@choropleth_unregistered_metric Z no_nan z_min z_max
             [alabama; alaska_no_value] "Bogus" ""); reflexivity.
Defined.


Lemma drill_down_scope_is_a_state_code_witness :
  (exists scope,
      drill_down_scope name_eq [alabama; alaska_no_value] (JStr "Alaska") = Ok scope) /\
  forall fips,
    drill_down_scope name_eq [alabama; alaska_no_value] (JStr "Alaska") =
      Ok (Some fips) ->
    String.length fips = 2%nat /\
    dict_mem fips FIPS_TO_ABBREV = true /\
    (forall metric_key,
        kind_of_key (cache_key_of metric_key fips) = CountyCache) /\
    forall metric,
      params (build_request metric fips) =
      [("get", variable metric ++ ",NAME"); ("for", "county:*");
       ("in", "state:" ++ fips)].
Proof.
  apply (@drill_down_scope_is_a_state_code Z whole_float name_eq state_rows
           [alabama; alaska_no_value] (JStr "Alaska")).
  reflexivity.
Defined.

Lemma state_abbreviation_has_one_code_witness : "06"%string = "06"%string.
Proof.
  apply (@state_abbreviation_has_one_code "06" "06" "CA"); reflexivity.
Defined.

Lemma map_draws_every_state_with_a_value_witness :
  text income_map =
    map (@record_name Z)
      (filter (fun r => notna no_nan (record_value r)) [alabama; alaska_no_value]) /\
  List.length (locations income_map) =
    List.length (filter (fun r => notna no_nan (record_value r))
                   [alabama; alaska_no_value]).
Proof.
  apply (@map_draws_every_state_with_a_value Z whole_float no_nan z_min z_max
           state_rows [alabama; alaska_no_value] "Median Household Income" ""
           income_map).
  - reflexivity.
  - reflexivity.
Defined.

Lemma fetch_keeps_other_entries_witness :
  dict_get poverty_key
    (fst (load_cache
            (snd (fetch_census_data whole_float net_states "Unemployment Rate"
                    "state" (with_state_file fresh_rows))))) =
  Some [alaska].
Proof.
  apply (@fetch_keeps_other_entries Z _ whole_float net_states "Unemployment Rate"
           "state" (with_state_file fresh_rows) poverty_key [alaska]).
  - apply well_sorted_state_file. reflexivity.
  - apply steady_still. reflexivity.
  - apply within_window_still. reflexivity.
  - discriminate.
  - vm_compute. reflexivity.
Defined.
